(** * ns-api-server: token allow-list and second-factor manager

    A shallow embedding of the [methods] and [middleware] packages of
    NethServer/ns-api-server, together with the parts of the Go standard
    library and of the third-party packages they call, followed by the
    properties of the specification that were checked against them.

    Go strings are byte sequences: they are modelled as [list ascii].
    The file system is an explicit state threaded through every call; a
    call that can panic returns an [outcome].

    The first part holds the definitions, package by package under the
    Go names; the second part the lemmas on the library models, then the
    properties, numbered C1 to C10 as in the list of claims. *)

From Stdlib Require Import ZArith Ascii String List Lia Bool.
From stdpp Require Import base option list gmap strings.

Local Open Scope Z_scope.

(** ** Go strings *)

Abbreviation gostring := (list ascii).

(** A Go string literal. *)
Definition str (s : string) : gostring := list_ascii_of_string s.

(** The string ["\n"]. *)
Definition LF : gostring := ["010"%char].

(** [len(s)] as a Go [int]. *)
Definition len (s : gostring) : Z := Z.of_nat (length s).

(** [s[i]] as a number; the callers below check the bounds first. *)
Definition byte_at (s : gostring) (i : nat) : Z :=
  Z.of_N (N_of_ascii (nth i s Ascii.zero)).

(** [s[i:]] and [s[:j]] for [int] indices that are in range. *)
Definition slice_from (s : gostring) (i : Z) : gostring := drop (Z.to_nat i) s.
Definition slice_to (s : gostring) (j : Z) : gostring := take (Z.to_nat j) s.

(** ** Package unicode/utf8 *)

Module utf8.

Definition RuneError : Z := 0xFFFD.
Definition RuneSelf : Z := 0x80.
Definition UTFMax : nat := 4.

(** The [first] table together with [acceptRanges]: for a leading byte of
    a multi-byte sequence, the size of the sequence and the accepted
    range of the second byte; [None] for ASCII and for invalid bytes. *)
Definition first (b : Z) : option (nat * Z * Z) :=
  if (0xC2 <=? b) && (b <=? 0xDF) then Some (2%nat, 0x80, 0xBF)
  else if b =? 0xE0 then Some (3%nat, 0xA0, 0xBF)
  else if (0xE1 <=? b) && (b <=? 0xEC) then Some (3%nat, 0x80, 0xBF)
  else if b =? 0xED then Some (3%nat, 0x80, 0x9F)
  else if (0xEE <=? b) && (b <=? 0xEF) then Some (3%nat, 0x80, 0xBF)
  else if b =? 0xF0 then Some (4%nat, 0x90, 0xBF)
  else if (0xF1 <=? b) && (b <=? 0xF3) then Some (4%nat, 0x80, 0xBF)
  else if b =? 0xF4 then Some (4%nat, 0x80, 0x8F)
  else None.

Definition locb : Z := 0x80.
Definition hicb : Z := 0xBF.

(** [DecodeRuneInString(s)]: the first rune of [s] and its width in
    bytes; [(RuneError, 1)] for a byte that starts no valid encoding. *)
Definition DecodeRuneInString (s : gostring) : Z * nat :=
  match s with
  | [] => (RuneError, 0%nat)
  | _ :: _ =>
    let s0 := byte_at s 0 in
    match first s0 with
    | None => (if s0 <? RuneSelf then s0 else RuneError, 1%nat)
    | Some (sz, lo, hi) =>
      if (length s <? sz)%nat then (RuneError, 1%nat) else
      let s1 := byte_at s 1 in
      if (s1 <? lo) || (hi <? s1) then (RuneError, 1%nat) else
      if (sz <=? 2)%nat then
        (Z.lor (Z.shiftl (Z.land s0 0x1F) 6) (Z.land s1 0x3F), 2%nat)
      else
      let s2 := byte_at s 2 in
      if (s2 <? locb) || (hicb <? s2) then (RuneError, 1%nat) else
      if (sz <=? 3)%nat then
        (Z.lor (Z.lor (Z.shiftl (Z.land s0 0x0F) 12)
                      (Z.shiftl (Z.land s1 0x3F) 6))
               (Z.land s2 0x3F), 3%nat)
      else
      let s3 := byte_at s 3 in
      if (s3 <? locb) || (hicb <? s3) then (RuneError, 1%nat) else
        (Z.lor (Z.lor (Z.lor (Z.shiftl (Z.land s0 0x07) 18)
                             (Z.shiftl (Z.land s1 0x3F) 12))
                      (Z.shiftl (Z.land s2 0x3F) 6))
               (Z.land s3 0x3F), 4%nat)
    end
  end.

(** [RuneStart(b)]: [b] is not a continuation byte. *)
Definition RuneStart (b : Z) : bool := negb (Z.land b 0xC0 =? 0x80).

(** The backwards search of [DecodeLastRuneInString]: from [start]
    downwards, at most [k] positions, for a byte that can start a rune. *)
Fixpoint find_start (s : gostring) (start k : nat) {struct k} : nat :=
  match k with
  | O => start
  | S k' =>
    if RuneStart (byte_at s start) then start
    else match start with
         | O => O
         | S start' => find_start s start' k'
         end
  end.

(** [DecodeLastRuneInString(s)]: the last rune of [s] and its width. *)
Definition DecodeLastRuneInString (s : gostring) : Z * nat :=
  let end_ := length s in
  match end_ with
  | O => (RuneError, 0%nat)
  | S start =>
    let r := byte_at s start in
    if r <? RuneSelf then (r, 1%nat) else
    match start with
    | O => (RuneError, 1%nat)
    | S start1 =>
      (* lim = max(end - UTFMax, 0); the loop visits start1 .. lim *)
      let start' := find_start s start1 (end_ - (end_ - UTFMax) - 1) in
      let '(r, size) := DecodeRuneInString (drop start' s) in
      if (start' + size =? end_)%nat then (r, size) else (RuneError, 1%nat)
    end
  end.

Definition MaxRune : Z := 0x10FFFF.

(** [EncodeRune(p, r)]: the bytes it writes.  A rune out of range and
    a surrogate half are written as [RuneError]. *)
Definition EncodeRune (r : Z) : gostring :=
  let byte (x : Z) := x mod 256 in
  let out (x : Z) := ascii_of_N (Z.to_N x) in
  let i := r mod 2 ^ 32 in
  if i <=? 0x7F then [out (byte r)]
  else if i <=? 0x7FF then
    [out (Z.lor 0xC0 (byte (Z.shiftr r 6)));
     out (Z.lor 0x80 (Z.land (byte r) 0x3F))]
  else
    let invalid := (MaxRune <? i) || ((0xD800 <=? i) && (i <=? 0xDFFF)) in
    let r := if invalid then RuneError else r in
    if invalid || (i <=? 0xFFFF) then
      [out (Z.lor 0xE0 (byte (Z.shiftr r 12)));
       out (Z.lor 0x80 (Z.land (byte (Z.shiftr r 6)) 0x3F));
       out (Z.lor 0x80 (Z.land (byte r) 0x3F))]
    else
      [out (Z.lor 0xF0 (byte (Z.shiftr r 18)));
       out (Z.lor 0x80 (Z.land (byte (Z.shiftr r 12)) 0x3F));
       out (Z.lor 0x80 (Z.land (byte (Z.shiftr r 6)) 0x3F));
       out (Z.lor 0x80 (Z.land (byte r) 0x3F))].

End utf8.

(** ** Package unicode *)

Module unicode.

(** [IsSpace]: the Latin-1 cases, then the [White_Space] range table. *)
Definition IsSpace (r : Z) : bool :=
  if (0 <=? r) && (r <=? 0xFF) then
    (r =? 0x09) || (r =? 0x0A) || (r =? 0x0B) || (r =? 0x0C) || (r =? 0x0D)
    || (r =? 0x20) || (r =? 0x85) || (r =? 0xA0)
  else
    (r =? 0x1680) || ((0x2000 <=? r) && (r <=? 0x200A))
    || (r =? 0x2028) || (r =? 0x2029) || (r =? 0x202F) || (r =? 0x205F)
    || (r =? 0x3000).

(** The case tables of the package: [To(LowerCase, r)] for a rune
    beyond ASCII. *)
Class CaseTables := { LowerCase : Z -> Z }.

Definition MaxASCII : Z := 0x7F.

(** [ToLower(r)]. *)
Definition ToLower `{CaseTables} (r : Z) : Z :=
  if r <=? MaxASCII then
    if (65 <=? r) && (r <=? 90) then r + (97 - 65) else r
  else LowerCase r.

End unicode.

(** ** Package strings *)

Module strings.

(** [HasPrefix(s, prefix)]:
    [len(s) >= len(prefix) && s[:len(prefix)] == prefix]. *)
Definition HasPrefix (s prefix : gostring) : bool :=
  (length prefix <=? length s)%nat
  && bool_decide (take (length prefix) s = prefix).

(** [Index(s, substr)]: the index of the first instance of [substr] in
    [s], or [-1]. *)
Fixpoint Index (s substr : gostring) : Z :=
  if HasPrefix s substr then 0
  else match s with
       | [] => -1
       | _ :: s' => let i := Index s' substr in
                    if i <? 0 then -1 else i + 1
       end.

(** [Contains(s, substr)] is [Index(s, substr) >= 0]. *)
Definition Contains (s substr : gostring) : bool := 0 <=? Index s substr.

(** The replacement loop of [Replace] for a non-empty [old]: at most
    [n] instances, from the left, not overlapping. *)
Fixpoint replace_old (n : nat) (s old new : gostring) : gostring :=
  match n with
  | O => s
  | S n' =>
    let j := Index s old in
    if j <? 0 then s
    else slice_to s j ++ new
         ++ replace_old n' (slice_from s (j + len old)) old new
  end.

(** The same loop for an empty [old]: [new] goes in front of the string
    (done by the caller) and after each rune, [n] times at most. *)
Fixpoint replace_empty (n : nat) (s new : gostring) : gostring :=
  match n with
  | O => s
  | S n' =>
    match s with
    | [] => []
    | _ :: _ =>
      let wid := snd (utf8.DecodeRuneInString s) in
      take wid s ++ new ++ replace_empty n' (drop wid s) new
    end
  end.

(** [Replace(s, old, new, n)]; a negative [n] lifts the limit. *)
Definition Replace (s old new : gostring) (n : Z) : gostring :=
  if bool_decide (old = new) || (n =? 0) then s
  else
    let limit := if n <? 0 then S (length s) else Z.to_nat n in
    match old with
    | [] => new ++ replace_empty (limit - 1) s new
    | _ :: _ => replace_old limit s old new
    end.

(** [TrimLeftFunc(s, f)], rune by rune from the left. *)
Fixpoint trim_left (fuel : nat) (f : Z -> bool) (s : gostring) : gostring :=
  match fuel with
  | O => s
  | S fuel' =>
    match s with
    | [] => []
    | _ :: _ =>
      let '(r, wid) := utf8.DecodeRuneInString s in
      if f r then trim_left fuel' f (drop wid s) else s
    end
  end.

Definition TrimLeftFunc (s : gostring) (f : Z -> bool) : gostring :=
  trim_left (length s) f s.

(** [TrimRightFunc(s, f)], rune by rune from the right. *)
Fixpoint trim_right (fuel : nat) (f : Z -> bool) (s : gostring) : gostring :=
  match fuel with
  | O => s
  | S fuel' =>
    match s with
    | [] => []
    | _ :: _ =>
      let '(r, size) := utf8.DecodeLastRuneInString s in
      if f r then trim_right fuel' f (take (length s - size) s) else s
    end
  end.

Definition TrimRightFunc (s : gostring) (f : Z -> bool) : gostring :=
  trim_right (length s) f s.

Definition TrimFunc (s : gostring) (f : Z -> bool) : gostring :=
  TrimRightFunc (TrimLeftFunc s f) f.

(** [TrimSpace(s)]: all leading and trailing white space removed, as
    defined by Unicode. *)
Definition TrimSpace (s : gostring) : gostring := TrimFunc s unicode.IsSpace.

(** [Split(s, sep)] for a non-empty [sep]. *)
Fixpoint split_go (fuel : nat) (s sep : gostring) : list gostring :=
  match fuel with
  | O => [s]
  | S fuel' =>
    let m := Index s sep in
    if m <? 0 then [s]
    else slice_to s m :: split_go fuel' (slice_from s (m + len sep)) sep
  end.

(** [explode]: [Split] with an empty separator cuts after every rune. *)
Fixpoint explode (fuel : nat) (s : gostring) : list gostring :=
  match fuel with
  | O => []
  | S fuel' =>
    match s with
    | [] => []
    | _ :: _ =>
      let wid := snd (utf8.DecodeRuneInString s) in
      take wid s :: explode fuel' (drop wid s)
    end
  end.

Definition Split (s sep : gostring) : list gostring :=
  match sep with
  | [] => explode (length s) s
  | _ :: _ => split_go (length s) s sep
  end.

(** [Map(mapping, s)]: every rune of [s] replaced by its image, and
    dropped when the image is negative; a byte that starts no valid
    encoding counts as [RuneError]. *)
Fixpoint map_runes (fuel : nat) (mapping : Z -> Z) (s : gostring) : gostring :=
  match fuel with
  | O => []
  | S fuel' =>
    match s with
    | [] => []
    | _ :: _ =>
      let '(c, width) := utf8.DecodeRuneInString s in
      let r := mapping c in
      (if 0 <=? r then utf8.EncodeRune r else []) ++
      map_runes fuel' mapping (drop width s)
    end
  end.

Definition Map (mapping : Z -> Z) (s : gostring) : gostring :=
  map_runes (length s) mapping s.

(** [ToLower(s)]: byte by byte when [s] is ASCII only, rune by rune
    otherwise. *)
Definition ToLower `{unicode.CaseTables} (s : gostring) : gostring :=
  let isASCII := forallb (fun c => byte_at [c] 0 <? utf8.RuneSelf) s in
  let hasUpper :=
    existsb (fun c => (65 <=? byte_at [c] 0) && (byte_at [c] 0 <=? 90)) s in
  if isASCII then
    (* optimize for ASCII-only strings *)
    if negb hasUpper then s
    else map (fun ch =>
                let c := byte_at [ch] 0 in
                if (65 <=? c) && (c <=? 90)
                then ascii_of_N (Z.to_N (c + (97 - 65)))
                else ch) s
  else Map unicode.ToLower s.

End strings.

(** ** Package strconv *)

Module strconv.

Definition digit (c : ascii) : option Z :=
  let b := Z.of_N (N_of_ascii c) in
  if (48 <=? b) && (b <=? 57) then Some (b - 48) else None.

Fixpoint digits (acc : Z) (s : gostring) : option Z :=
  match s with
  | [] => Some acc
  | c :: s' => match digit c with
               | Some d => digits (acc * 10 + d) s'
               | None => None
               end
  end.

(** [Atoi(s)]: an optional sign and decimal digits; [None] is the
    error result (syntax, or out of the range of a 64-bit [int]). *)
Definition Atoi (s : gostring) : option Z :=
  let parse (neg : bool) (ds : gostring) :=
    match ds with
    | [] => None
    | _ :: _ =>
      match digits 0 ds with
      | Some n =>
        let v := if neg then - n else n in
        if (- 2 ^ 63 <=? v) && (v <=? 2 ^ 63 - 1) then Some v else None
      | None => None
      end
    end in
  match s with
  | [] => None
  | c :: s' =>
    if bool_decide (c = "-"%char) then parse true s'
    else if bool_decide (c = "+"%char) then parse false s'
    else parse false s
  end.

End strconv.

(** ** Package os: the file system as a state

    Regular files by path, the directories that exist, and the faults
    of the system: the paths on which every system call is refused
    ([denied]), and the files on which a write is cut short (a full
    disk, a quota, an I/O error), with the number of bytes that a write
    to them still stores ([short]). A
    path is the string the program builds; its parent is what precedes
    its last slash. Two spellings of one file ([/s//x], [/s/./x]) are
    two files here; a path that ends in a slash names a directory. *)

Module os.

(** The errors the calls below report. *)
Inductive Errno :=
  ENOENT | EACCES | EISDIR | ENOTDIR | ENOTEMPTY | EINVAL | ENOSPC.

#[global] Instance Errno_eq_dec : EqDecision Errno.
Proof. solve_decision. Defined.

(** A Go [error] value; [None] is [nil]. *)
Definition error := option Errno.

(** The permission arguments 0600 and 0700. *)
Definition mode_0600 : Z := 0x180.
Definition mode_0700 : Z := 0x1C0.

Record FS := mkFS {
  files : gmap gostring gostring;
  dirs : gset gostring;
  denied : gset gostring;
  short : gmap gostring nat
}.

(** The paths with a fault of either kind. *)
Definition faulty (fs : FS) : gset gostring := denied fs ∪ dom (short fs).

(** An open [*os.File]: its name and the flags it was opened with;
    [None] is the nil pointer. *)
Record File := mkFile { name : gostring; flag : Z }.

Definition O_RDONLY : Z := 0x0.
Definition O_WRONLY : Z := 0x1.
Definition O_RDWR : Z := 0x2.
Definition O_CREATE : Z := 0x40.
Definition O_TRUNC : Z := 0x200.
Definition O_APPEND : Z := 0x400.

(** [flag&bit != 0]. *)
Definition has (flag bit : Z) : bool := negb (Z.land flag bit =? 0).

(** The directory part of a path: [None] when there is no slash. *)
Fixpoint parent (p : gostring) : option gostring :=
  match p with
  | [] => None
  | c :: p' =>
    match parent p' with
    | Some d => Some (c :: d)
    | None => if bool_decide (c = "/"%char) then Some [] else None
    end
  end.

(** The directory a new entry would go to exists: the root and the
    working directory always do. *)
Definition parent_exists (fs : FS) (p : gostring) : bool :=
  match parent p with
  | None | Some [] => true
  | Some d => bool_decide (d ∈ dirs fs)
  end.

(** The proper ancestors of a path, nearest first. *)
Fixpoint ancestors (fuel : nat) (p : gostring) : list gostring :=
  match fuel with
  | O => []
  | S fuel' =>
    match parent p with
    | None | Some [] => []
    | Some d => d :: ancestors fuel' d
    end
  end.

(** [ReadFile(name)]: the bytes of a regular file, or no bytes and an
    error. *)
Definition ReadFile (fs : FS) (p : gostring) : gostring * error :=
  if bool_decide (p ∈ denied fs) then ([], Some EACCES)
  else match files fs !! p with
       | Some data => (data, None)
       | None => ([], Some (if bool_decide (p ∈ dirs fs) then EISDIR else ENOENT))
       end.

(** [Stat(name)], as far as its error goes. *)
Definition Stat (fs : FS) (p : gostring) : error :=
  if bool_decide (p ∈ denied fs) then Some EACCES
  else if bool_decide (p ∈ dirs fs) || bool_decide (is_Some (files fs !! p))
  then None else Some ENOENT.

Definition IsNotExist (err : error) : bool := bool_decide (err = Some ENOENT).

(** [MkdirAll(path, perm)]: the directory and its missing ancestors. *)
Definition MkdirAll (fs : FS) (p : gostring) (perm : Z) : FS * error :=
  let ps := p :: ancestors (length p) p in
  if existsb (fun q => bool_decide (q ∈ denied fs)) ps then (fs, Some EACCES)
  else if existsb (fun q => bool_decide (is_Some (files fs !! q))) ps
  then (fs, Some ENOTDIR)
  else (mkFS (files fs) (dirs fs ∪ list_to_set ps) (denied fs) (short fs), None).

(** A path that ends in a slash: it can only name a directory. *)
Definition dir_path (p : gostring) : bool :=
  bool_decide (last p = Some "/"%char).

(** [OpenFile(name, flag, perm)] for writing. *)
Definition OpenFile (fs : FS) (p : gostring) (flag perm : Z)
  : FS * option File * error :=
  if bool_decide (p ∈ denied fs) then (fs, None, Some EACCES)
  else if dir_path p || bool_decide (p ∈ dirs fs) then (fs, None, Some EISDIR)
  else match files fs !! p with
       | Some _ =>
         if has flag O_TRUNC
         then (mkFS (<[p := []]> (files fs)) (dirs fs) (denied fs) (short fs),
               Some (mkFile p flag), None)
         else (fs, Some (mkFile p flag), None)
       | None =>
         if has flag O_CREATE && parent_exists fs p
         then (mkFS (<[p := []]> (files fs)) (dirs fs) (denied fs) (short fs),
               Some (mkFile p flag), None)
         else (fs, None, Some ENOENT)
       end.

(** [f.WriteString(s)] on a freshly opened file: at the end of the file
    under [O_APPEND], over its first bytes otherwise. A nil [f] gives
    [ErrInvalid]. On a file whose writes are cut short after [n] bytes,
    a longer [s] leaves its first [n] bytes there and an error. *)
Definition WriteString (fs : FS) (f : option File) (s : gostring)
  : FS * Z * error :=
  match f with
  | None => (fs, 0, Some EINVAL)
  | Some f =>
    match files fs !! name f with
    | None => (fs, len s, None)
    | Some old =>
      let '(s, err) :=
        match short fs !! name f with
        | Some n => if (n <? length s)%nat then (take n s, Some ENOSPC)
                    else (s, None)
        | None => (s, None)
        end in
      let new := if has (flag f) O_APPEND then old ++ s
                 else s ++ drop (length s) old in
      (mkFS (<[name f := new]> (files fs)) (dirs fs) (denied fs) (short fs),
       len s, err)
    end
  end.

(** [f.Close()] leaves the stored bytes as they are. *)
Definition Close (fs : FS) (f : option File) : FS := fs.

(** No file and no directory has [p] as its parent. *)
Definition dir_empty (fs : FS) (p : gostring) : bool :=
  forallb (fun q => negb (bool_decide (parent q = Some p)))
          (elements (dom (files fs)) ++ elements (dirs fs)).

(** [Remove(name)]: a file, or a directory that is empty. *)
Definition Remove (fs : FS) (p : gostring) : FS * error :=
  if bool_decide (p ∈ denied fs) then (fs, Some EACCES)
  else match files fs !! p with
       | Some _ => (mkFS (delete p (files fs)) (dirs fs) (denied fs) (short fs), None)
       | None =>
         if bool_decide (p ∈ dirs fs) then
           if dir_empty fs p
           then (mkFS (files fs) (dirs fs ∖ {[p]}) (denied fs) (short fs), None)
           else (fs, Some ENOTEMPTY)
         else (fs, Some ENOENT)
       end.

(** [Getenv(key)] in the environment [env]: the empty string when the
    variable is not set. *)
Definition Getenv (env : gmap gostring gostring) (key : gostring) : gostring :=
  default [] (env !! key).

End os.

(** ** Packages encoding/base32, encoding/binary, crypto/sha1, crypto/hmac

    Byte slices are lists of numbers below 256; 32-bit words are numbers
    reduced modulo [2^32] after every addition and rotation. *)

Definition bytes_of (s : gostring) : list Z := map (fun c => Z.of_N (N_of_ascii c)) s.

Module base32.

(** The standard alphabet [A-Z2-7]; [None] is the 0xFF of [decodeMap]. *)
Definition decodeMap (c : ascii) : option Z :=
  let b := Z.of_N (N_of_ascii c) in
  if (65 <=? b) && (b <=? 90) then Some (b - 65)
  else if (50 <=? b) && (b <=? 55) then Some (b - 50 + 26)
  else None.

Definition padChar : ascii := "="%char.

Definition stripNewlines (s : gostring) : gostring :=
  filter (fun c => c <> "010"%char /\ c <> "013"%char) s.

(** The bytes one quantum of [dlen] symbols stands for. *)
Definition quantum (dbuf : list Z) (dlen : nat) : list Z :=
  let d i := nth i dbuf 0 in
  let b0 := Z.lor (Z.shiftl (d 0%nat) 3) (Z.shiftr (d 1%nat) 2) mod 256 in
  let b1 := Z.lor (Z.lor (Z.shiftl (d 1%nat) 6) (Z.shiftl (d 2%nat) 1))
                  (Z.shiftr (d 3%nat) 4) mod 256 in
  let b2 := Z.lor (Z.shiftl (d 3%nat) 4) (Z.shiftr (d 4%nat) 1) mod 256 in
  let b3 := Z.lor (Z.lor (Z.shiftl (d 4%nat) 7) (Z.shiftl (d 5%nat) 2))
                  (Z.shiftr (d 6%nat) 3) mod 256 in
  let b4 := Z.lor (Z.shiftl (d 6%nat) 5) (d 7%nat) mod 256 in
  match dlen with
  | 8%nat => [b0; b1; b2; b3; b4]
  | 7%nat => [b0; b1; b2; b3]
  | 5%nat => [b0; b1; b2]
  | 4%nat => [b0; b1]
  | 2%nat => [b0]
  | _ => []
  end.

(** The inner loop [for j := 0; j < 8;] of [decode], with [n] places
    of the quantum left: the blocks it has read, whether padding has
    ended the input, and what follows the bytes it has consumed; [None]
    is a [CorruptInputError]. What follows the padding of the final
    quantum is not looked at beyond the padding that must be there. *)
Fixpoint read_quantum (n j : nat) (src : gostring)
  : option (list Z * bool * gostring) :=
  match n with
  | O => Some ([], false, src)
  | S n' =>
    match src with
    | [] => None (* we have reached the end and are missing padding *)
    | in_ :: src =>
      if bool_decide (in_ = padChar) && (2 <=? j)%nat && (length src <? 8)%nat
      then
        (* we've reached the end and there's padding *)
        if (length src + j <? 8 - 1)%nat then None (* not enough padding *)
        else if negb (forallb (fun c => bool_decide (c = padChar))
                              (take (8 - 1 - j) src))
        then None (* incorrect padding *)
        else if (j =? 1)%nat || (j =? 3)%nat || (j =? 6)%nat then None
        else Some ([], true, src)
      else
        match decodeMap in_ with
        | None => None
        | Some d =>
          match read_quantum n' (S j) src with
          | Some (dbuf, end_, rest) => Some (d :: dbuf, end_, rest)
          | None => None
          end
        end
    end
  end.

(** [decode(dst, src)]: the loop [for len(src) > 0 && !end]. *)
Fixpoint decode (fuel : nat) (src : gostring) : option (list Z) :=
  match fuel with
  | O => match src with [] => Some [] | _ :: _ => None end
  | S fuel' =>
    match src with
    | [] => Some []
    | _ :: _ =>
      match read_quantum 8 0 src with
      | None => None
      | Some (dbuf, end_, rest) =>
        (* pack 8x 5-bit source blocks into 5 byte destination quantum *)
        let dst := quantum dbuf (length dbuf) in
        if end_ then Some dst else option_map (app dst) (decode fuel' rest)
      end
    end
  end.

(** [StdEncoding.DecodeString(s)]; [None] is a [CorruptInputError]. *)
Definition DecodeString (s : gostring) : option (list Z) :=
  let src := stripNewlines s in decode (length src) src.

Definition encodeStd : gostring := str "ABCDEFGHIJKLMNOPQRSTUVWXYZ234567".

(** The eight 5-bit blocks of the first quantum of [src], which has at
    most five bytes: the [switch] on [len(src)] with its fall-throughs. *)
Definition unpack (src : list Z) : list Z :=
  let s i := nth i src 0 in
  let n := length src in
  let b7 := if (5 <=? n)%nat then Z.land (s 4%nat) 0x1F else 0 in
  let b6 := if (5 <=? n)%nat then Z.shiftr (s 4%nat) 5 else 0 in
  let b6 := if (4 <=? n)%nat
            then Z.lor b6 (Z.land (Z.shiftl (s 3%nat) 3) 0x1F) else b6 in
  let b5 := if (4 <=? n)%nat then Z.land (Z.shiftr (s 3%nat) 2) 0x1F else 0 in
  let b4 := if (4 <=? n)%nat then Z.shiftr (s 3%nat) 7 else 0 in
  let b4 := if (3 <=? n)%nat
            then Z.lor b4 (Z.land (Z.shiftl (s 2%nat) 1) 0x1F) else b4 in
  let b3 := if (3 <=? n)%nat then Z.land (Z.shiftr (s 2%nat) 4) 0x1F else 0 in
  let b3 := if (2 <=? n)%nat
            then Z.lor b3 (Z.land (Z.shiftl (s 1%nat) 4) 0x1F) else b3 in
  let b2 := if (2 <=? n)%nat then Z.land (Z.shiftr (s 1%nat) 1) 0x1F else 0 in
  let b1 := if (2 <=? n)%nat then Z.land (Z.shiftr (s 1%nat) 6) 0x1F else 0 in
  let b1 := if (1 <=? n)%nat
            then Z.lor b1 (Z.land (Z.shiftl (s 0%nat) 2) 0x1F) else b1 in
  let b0 := if (1 <=? n)%nat then Z.shiftr (s 0%nat) 3 else 0 in
  [b0; b1; b2; b3; b4; b5; b6; b7].

(** [enc.encode[b&31]]. *)
Definition encode_symbol (b : Z) : ascii :=
  nth (Z.to_nat (Z.land b 31)) encodeStd Ascii.zero.

(** [Encode(dst, src)]: the bytes written to [dst]. *)
Fixpoint encode (fuel : nat) (src : list Z) : gostring :=
  match fuel with
  | O => []
  | S fuel' =>
    match src with
    | [] => []
    | _ :: _ =>
      let dst := map encode_symbol (unpack (take 5 src)) in
      if (length src <? 5)%nat then
        (* pad the final quantum *)
        let dst := <[7%nat := padChar]> dst in
        if (length src <? 4)%nat then
          let dst := <[6%nat := padChar]> dst in
          let dst := <[5%nat := padChar]> dst in
          if (length src <? 3)%nat then
            let dst := <[4%nat := padChar]> dst in
            if (length src <? 2)%nat then
              let dst := <[3%nat := padChar]> dst in
              <[2%nat := padChar]> dst
            else dst
          else dst
        else dst
      else dst ++ encode fuel' (drop 5 src)
    end
  end.

(** [StdEncoding.EncodeToString(src)]. *)
Definition EncodeToString (src : list Z) : gostring :=
  encode (length src) src.

End base32.

Module binary.

(** Big-endian bytes of a [w]-byte two's complement integer. *)
Fixpoint BigEndian (w : nat) (v : Z) : list Z :=
  match w with
  | O => []
  | S w' => Z.shiftr v (8 * Z.of_nat w') mod 256 :: BigEndian w' v
  end.

(** [BigEndian.Uint32(b)]. *)
Definition Uint32 (b : list Z) : Z :=
  fold_left (fun acc x => Z.lor (Z.shiftl acc 8) x) (take 4 b) 0.

End binary.

Module sha1.

Definition add32 (x y : Z) : Z := (x + y) mod 2 ^ 32.
Definition rotl (n x : Z) : Z :=
  Z.lor (Z.shiftl x n) (Z.shiftr x (32 - n)) mod 2 ^ 32.
Definition not32 (x : Z) : Z := Z.lxor x 0xFFFFFFFF.

(** Message padding: 0x80, zeros, and the bit length on 8 bytes. *)
Definition pad (msg : list Z) : list Z :=
  let l := Z.of_nat (length msg) in
  let zeros := Z.to_nat ((55 - l) mod 64) in
  msg ++ [0x80] ++ repeat 0 zeros ++ binary.BigEndian 8 (8 * l).

Fixpoint words (n : nat) (bs : list Z) : list Z :=
  match n with
  | O => []
  | S n' => binary.Uint32 bs :: words n' (drop 4 bs)
  end.

(** The message schedule, latest word first. *)
Fixpoint schedule (n : nat) (rw : list Z) : list Z :=
  match n with
  | O => rw
  | S n' =>
    let w i := nth i rw 0 in
    let x := Z.lxor (Z.lxor (Z.lxor (w 2%nat) (w 7%nat)) (w 13%nat)) (w 15%nat) in
    schedule n' (rotl 1 x :: rw)
  end.

Definition round (i : nat) (st : Z * Z * Z * Z * Z) (w : Z) : Z * Z * Z * Z * Z :=
  let '(a, b, c, d, e) := st in
  let '(f, k) :=
    if (i <? 20)%nat then
      (Z.lor (Z.land b c) (Z.land (not32 b) d), 0x5A827999)
    else if (i <? 40)%nat then
      (Z.lxor (Z.lxor b c) d, 0x6ED9EBA1)
    else if (i <? 60)%nat then
      (Z.lor (Z.lor (Z.land b c) (Z.land b d)) (Z.land c d), 0x8F1BBCDC)
    else
      (Z.lxor (Z.lxor b c) d, 0xCA62C1D6) in
  let t := add32 (add32 (add32 (add32 (rotl 5 a) f) e) k) w in
  (t, a, rotl 30 b, c, d).

Fixpoint rounds (i : nat) (ws : list Z) (st : Z * Z * Z * Z * Z) :=
  match ws with
  | [] => st
  | w :: ws' => rounds (S i) ws' (round i st w)
  end.

Definition block (h : Z * Z * Z * Z * Z) (bs : list Z) : Z * Z * Z * Z * Z :=
  let ws := rev (schedule 64 (rev (words 16 bs))) in
  let '(h0, h1, h2, h3, h4) := h in
  let '(a, b, c, d, e) := rounds 0 ws h in
  (add32 h0 a, add32 h1 b, add32 h2 c, add32 h3 d, add32 h4 e).

Fixpoint blocks (n : nat) (h : Z * Z * Z * Z * Z) (bs : list Z) :=
  match n with
  | O => h
  | S n' => blocks n' (block h (take 64 bs)) (drop 64 bs)
  end.

Definition init : Z * Z * Z * Z * Z :=
  (0x67452301, 0xEFCDAB89, 0x98BADCFE, 0x10325476, 0xC3D2E1F0).

(** [sha1.Sum(data)]: the 20-byte digest. *)
Definition Sum (data : list Z) : list Z :=
  let p := pad data in
  let '(h0, h1, h2, h3, h4) := blocks (length p / 64) init p in
  binary.BigEndian 4 h0 ++ binary.BigEndian 4 h1 ++ binary.BigEndian 4 h2
  ++ binary.BigEndian 4 h3 ++ binary.BigEndian 4 h4.

End sha1.

Module hmac.

Definition blocksize : nat := 64.

(** [hmac.New(sha1.New, key)] written to with [msg], then [Sum(nil)]. *)
Definition Sum (key msg : list Z) : list Z :=
  let key := if (blocksize <? length key)%nat then sha1.Sum key else key in
  let key := key ++ repeat 0 (blocksize - length key) in
  let ipad := map (Z.lxor 0x36) key in
  let opad := map (Z.lxor 0x5c) key in
  sha1.Sum (opad ++ sha1.Sum (ipad ++ msg)).

End hmac.

(** ** Package github.com/dgryski/dgoogauth *)

(** A Go [int] or [int64] after an addition or subtraction. *)
Definition wrap64 (x : Z) : Z := (x + 2 ^ 63) mod 2 ^ 64 - 2 ^ 63.

Module dgoogauth.

Record OTPConfig := mkOTPConfig {
  Secret : gostring;
  WindowSize : Z;
  HotpCounter : Z;
  DisallowReuse : option (list Z);
  ScratchCodes : list Z;
  UTC : bool
}.

Inductive error := ErrInvalidCode.

(** [ComputeCode(secret, value)]: the HOTP value of RFC 4226 on six
    digits, [-1] when the secret is not base32. *)
Definition ComputeCode (secret : gostring) (value : Z) : Z :=
  match base32.DecodeString secret with
  | None => -1
  | Some key =>
    let h := hmac.Sum key (binary.BigEndian 8 value) in
    let offset := Z.land (nth 19 h 0) 0x0f in
    let truncated := binary.Uint32 (drop (Z.to_nat offset) h) in
    let truncated := Z.land truncated 0x7fffffff in
    truncated mod 1000000
  end.

Definition checkScratchCodes (c : OTPConfig) (code : Z) : bool :=
  existsb (Z.eqb code) (ScratchCodes c).

Fixpoint hotp_loop (n : nat) (c : OTPConfig) (i code : Z) : bool :=
  match n with
  | O => false
  | S n' =>
    if ComputeCode (Secret c) (wrap64 (HotpCounter c + i)) =? code then true
    else hotp_loop n' c (i + 1) code
  end.

Definition checkHotpCode (c : OTPConfig) (code : Z) : bool :=
  hotp_loop (Z.to_nat (WindowSize c)) c 0 code.

(** The loop [for t := minT; t <= maxT; t++] of [checkTotpCode], with
    [n] steps left: the first step whose code matches decides, and it
    is refused when the reuse list holds it. *)
Fixpoint totp_loop (n : nat) (c : OTPConfig) (t code : Z) : bool :=
  match n with
  | O => false
  | S n' =>
    if ComputeCode (Secret c) t =? code then
      match DisallowReuse c with
      | Some used => negb (existsb (Z.eqb t) used)
      | None => true
      end
    else totp_loop n' c (t + 1) code
  end.

(** [checkTotpCode(t0, code)], with [minT := t0 - (c.WindowSize / 2)]
    and [maxT := t0 + (c.WindowSize / 2)]; Go's [/] truncates. *)
Definition checkTotpCode (c : OTPConfig) (t0 code : Z) : bool :=
  let minT := wrap64 (t0 - Z.quot (WindowSize c) 2) in
  let maxT := wrap64 (t0 + Z.quot (WindowSize c) 2) in
  totp_loop (Z.to_nat (maxT - minT + 1)) c minT code.

(** [c.Authenticate(password)] when the clock reads [now] seconds since
    the epoch: six characters starting with a digit are a code, eight
    starting with a non-zero digit a scratch code, and
    [t0 = int(time.Now().Unix() / 30)]. The updates of the counter and of
    the reuse list that the library does on [c] are left out: the caller
    drops [c]. *)
Definition Authenticate (c : OTPConfig) (now : Z) (password : gostring)
  : bool * option error :=
  let p0 := byte_at password 0 in
  let shape :=
    if (len password =? 6) && (48 <=? p0) && (p0 <=? 57) then Some false
    else if (len password =? 8) && (49 <=? p0) && (p0 <=? 57) then Some true
    else None in
  match shape with
  | None => (false, Some ErrInvalidCode)
  | Some scratch =>
    match strconv.Atoi password with
    | None => (false, Some ErrInvalidCode)
    | Some code =>
      if scratch then (checkScratchCodes c code, None)
      else if 0 <? HotpCounter c then (checkHotpCode c code, None)
      else
        let t0 := Z.quot now 30 in
        (checkTotpCode c t0 code, None)
    end
  end.

End dgoogauth.

(** ** Package github.com/golang-jwt/jwt *)

Module jwtl.

(** A decoded JSON value, as far as the program looks at it. *)
Inductive value :=
| VNull
| VString (s : gostring)
| VBool (b : bool)
| VNumber (n : Z)
| VArray (l : list gostring).

Abbreviation MapClaims := (gmap gostring value).

(** [m[key]]: a missing key reads as nil. *)
Definition get (m : gmap gostring value) (key : string) : value :=
  default VNull (m !! str key).

Inductive SigningMethod :=
| SigningMethodHMAC (alg : gostring)
| SigningMethodRSA (alg : gostring)
| SigningMethodRSAPSS (alg : gostring)
| SigningMethodECDSA (alg : gostring)
| SigningMethodEd25519
| signingMethodNone.

(** The methods the package registers at start-up. *)
Definition GetSigningMethod (alg : gostring) : option SigningMethod :=
  if bool_decide (alg ∈ [str "HS256"; str "HS384"; str "HS512"])
  then Some (SigningMethodHMAC alg)
  else if bool_decide (alg ∈ [str "RS256"; str "RS384"; str "RS512"])
  then Some (SigningMethodRSA alg)
  else if bool_decide (alg ∈ [str "PS256"; str "PS384"; str "PS512"])
  then Some (SigningMethodRSAPSS alg)
  else if bool_decide (alg ∈ [str "ES256"; str "ES384"; str "ES512"])
  then Some (SigningMethodECDSA alg)
  else if bool_decide (alg = str "EdDSA") then Some SigningMethodEd25519
  else if bool_decide (alg = str "none") then Some signingMethodNone
  else None.

Record Token := mkToken {
  Raw : gostring;
  Method : option SigningMethod;
  Header : gmap gostring value;
  Claims : MapClaims;
  Signature : gostring;
  Valid : bool
}.

Inductive ValidationError :=
| ValidationErrorMalformed
| ValidationErrorUnverifiable
| ValidationErrorInvalid.

(** What the package takes from encoding/base64, encoding/json,
    crypto/hmac with SHA-2 and the clock: decoding a segment into a
    header or into claims, the validity of the time claims at the time
    of the call, and the check of an HMAC signature. *)
Class Codec := {
  DecodeHeader : gostring -> option (gmap gostring value);
  DecodeClaims : gostring -> option MapClaims;
  ClaimsValid : MapClaims -> bool;
  VerifyHMAC : gostring -> gostring -> gostring -> gostring -> bool
}.

Section Parser.
Context `{Codec}.

(** [method.Verify(signingString, signature, key)] for a key that is a
    byte slice: the other methods want a key of another type. *)
Definition Verify (m : SigningMethod) (signingString signature key : gostring)
  : bool :=
  match m with
  | SigningMethodHMAC alg => VerifyHMAC alg signingString signature key
  | _ => false
  end.

Definition ParseUnverified (tokenString : gostring)
  : Token * list gostring + ValidationError :=
  let parts := strings.Split tokenString (str ".") in
  match parts with
  | [p0; p1; p2] =>
    match DecodeHeader p0 with
    | None => inr ValidationErrorMalformed
    | Some header =>
      match DecodeClaims p1 with
      | None => inr ValidationErrorMalformed
      | Some claims =>
        match get header "alg" with
        | VString method =>
          match GetSigningMethod method with
          | None => inr ValidationErrorUnverifiable
          | Some m =>
            inl (mkToken tokenString (Some m) header claims [] false, parts)
          end
        | _ => inr ValidationErrorUnverifiable
        end
      end
    end
  | _ => inr ValidationErrorMalformed
  end.

(** [Parse(tokenString, keyFunc)]; a [keyFunc] that returns an error
    returns [None]. With a nil error the token has [Valid] set. *)
Definition Parse (tokenString : gostring) (keyFunc : Token -> option gostring)
  : Token + ValidationError :=
  match ParseUnverified tokenString with
  | inr err => inr err
  | inl (token, parts) =>
    match keyFunc token with
    | None => inr ValidationErrorUnverifiable
    | Some key =>
      let claimsOk := ClaimsValid (Claims token) in
      let signature := nth 2 parts [] in
      let signingString := nth 0 parts [] ++ str "." ++ nth 1 parts [] in
      let sigOk :=
        match Method token with
        | Some m => Verify m signingString signature key
        | None => false
        end in
      if claimsOk && sigOk
      then inl (mkToken (Raw token) (Method token) (Header token)
                        (Claims token) signature true)
      else inr ValidationErrorInvalid
    end
  end.

End Parser.

End jwtl.

(** ** Packages sort and net/url *)

Module sort.

(** [a < b] on Go strings: byte by byte. *)
Fixpoint less (a b : gostring) : bool :=
  match a, b with
  | _, [] => false
  | [], _ :: _ => true
  | x :: a', y :: b' =>
    if byte_at [x] 0 <? byte_at [y] 0 then true
    else if byte_at [y] 0 <? byte_at [x] 0 then false
    else less a' b'
  end.

Fixpoint insert_sorted (k : gostring) (l : list gostring) : list gostring :=
  match l with
  | [] => [k]
  | x :: l' => if less k x then k :: l else x :: insert_sorted k l'
  end.

(** [Strings(x)]: [x] in increasing order. *)
Definition Strings (x : list gostring) : list gostring :=
  foldr insert_sorted [] x.

End sort.

Module url.

(** The places of a URL whose escaping the program uses. *)
Inductive encoding := encodePath | encodeHost | encodeQueryComponent.

Definition is_alnum (c : Z) : bool :=
  ((97 <=? c) && (c <=? 122)) || ((65 <=? c) && (c <=? 90))
  || ((48 <=? c) && (c <=? 57)).

(** [shouldEscape(c, mode)]. *)
Definition shouldEscape (c : Z) (mode : encoding) : bool :=
  (* unreserved characters (alphanum) *)
  if is_alnum c then false
  else if match mode with encodeHost => true | _ => false end
          && existsb (Z.eqb c)
               (bytes_of (str "!$&'()*+,;=:[]<>") ++ [34])
  then false
  else
  (* unreserved characters (mark) *)
  if existsb (Z.eqb c) (bytes_of (str "-_.~")) then false
  else
  (* reserved characters *)
  if existsb (Z.eqb c) (bytes_of (str "$&+,/:;=?@")) then
    match mode with
    | encodePath =>
      (* that leaves only ? to escape *)
      c =? 63
    | encodeHost => true
    | encodeQueryComponent => true
    end
  else
  (* everything else must be escaped *)
  true.

Definition upperhex : gostring := str "0123456789ABCDEF".

(** [escape(s, mode)]. *)
Definition escape (s : gostring) (mode : encoding) : gostring :=
  flat_map
    (fun ch =>
       let c := byte_at [ch] 0 in
       if shouldEscape c mode then
         if (c =? 32) && match mode with encodeQueryComponent => true
                                       | _ => false end
         then ["+"%char]
         else ["%"%char;
               nth (Z.to_nat (Z.shiftr c 4)) upperhex Ascii.zero;
               nth (Z.to_nat (Z.land c 15)) upperhex Ascii.zero]
       else [ch]) s.

Definition QueryEscape (s : gostring) : gostring := escape s encodeQueryComponent.

(** [Values]: the values of each key, in the order they were added. *)
Abbreviation Values := (gmap gostring (list gostring)).

(** [v.Add(key, value)]. *)
Definition Add (v : Values) (key value : gostring) : Values :=
  <[key := default [] (v !! key) ++ [value]]> v.

(** [v.Encode()]: [key=value] pairs joined by [&], sorted by key. *)
Definition Encode (v : Values) : gostring :=
  let keys := sort.Strings (map fst (map_to_list v)) in
  foldl (fun buf k =>
           let vs := default [] (v !! k) in
           let keyEscaped := QueryEscape k in
           foldl (fun buf v =>
                    (if 0 <? len buf then buf ++ str "&" else buf)
                    ++ keyEscaped ++ str "=" ++ QueryEscape v)
                 buf vs)
        [] keys.

(** A [URL] without user information, opaque part or fragment. *)
Record URL := mkURL {
  Scheme : gostring;
  Host : gostring;
  Path : gostring;
  RawQuery : gostring
}.

(** What [Parse("otpauth://totp")] returns, with a nil error. *)
Definition otpauth_totp : URL := mkURL (str "otpauth") (str "totp") [] [].

(** [u.EscapedPath()] when [RawPath] is empty. *)
Definition EscapedPath (u : URL) : gostring :=
  if bool_decide (Path u = str "*") then str "*"
  else escape (Path u) encodePath.

(** [u.String()]. *)
Definition String (u : URL) : gostring :=
  let buf := if negb (bool_decide (Scheme u = str ""))
             then Scheme u ++ str ":" else [] in
  let buf :=
    if negb (bool_decide (Scheme u = str ""))
       || negb (bool_decide (Host u = str ""))
    then
      let buf := if negb (bool_decide (Host u = str ""))
                    || negb (bool_decide (Path u = str ""))
                 then buf ++ str "//" else buf in
      if negb (bool_decide (Host u = str ""))
      then buf ++ escape (Host u) encodeHost else buf
    else buf in
  let path := EscapedPath u in
  let buf :=
    if negb (bool_decide (path = str "")) && negb (byte_at path 0 =? 47)
       && negb (bool_decide (Host u = str ""))
    then buf ++ str "/" else buf in
  let buf :=
    if len buf =? 0 then
      let segment := take (Z.to_nat (let i := strings.Index path (str "/") in
                                     if i <? 0 then len path else i)) path in
      if strings.Contains segment (str ":") then buf ++ str "./" else buf
    else buf in
  let buf := buf ++ path in
  if negb (bool_decide (RawQuery u = str ""))
  then buf ++ str "?" ++ RawQuery u else buf.

End url.

(** ** Package configuration *)

Module configuration.

Record Configuration := mkConfiguration {
  ListenAddress : gostring;
  SecretJWT : gostring;
  Issuer2FA : gostring;
  SecretsDir : gostring;
  TokensDir : gostring;
  StaticDir : gostring
}.

(** How [Init] ends: with the configuration it has loaded, or with
    what it has written to the standard error before [os.Exit(code)]. *)
Inductive InitResult :=
| Loaded (Config : Configuration)
| Exited (stderr : gostring) (code : Z).

(** [Init()] in the environment [env]. *)
Definition Init (env : gmap gostring gostring) : InitResult :=
  (* read configuration from ENV *)
  let ListenAddress :=
    if negb (bool_decide (os.Getenv env (str "LISTEN_ADDRESS") = str ""))
    then os.Getenv env (str "LISTEN_ADDRESS")
    else str "127.0.0.1:8080" in
  if negb (bool_decide (os.Getenv env (str "SECRET_JWT") = str "")) then
    let SecretJWT := os.Getenv env (str "SECRET_JWT") in
    let Issuer2FA :=
      if negb (bool_decide (os.Getenv env (str "ISSUER_2FA") = str ""))
      then os.Getenv env (str "ISSUER_2FA")
      else str "NethServer" in
    if negb (bool_decide (os.Getenv env (str "SECRETS_DIR") = str "")) then
      let SecretsDir := os.Getenv env (str "SECRETS_DIR") in
      if negb (bool_decide (os.Getenv env (str "TOKENS_DIR") = str "")) then
        let TokensDir := os.Getenv env (str "TOKENS_DIR") in
        let StaticDir :=
          if negb (bool_decide (os.Getenv env (str "STATIC_DIR") = str ""))
          then os.Getenv env (str "STATIC_DIR")
          else str "/var/run/ns-api-server" in
        Loaded (mkConfiguration ListenAddress SecretJWT Issuer2FA SecretsDir
                                TokensDir StaticDir)
      else Exited (str "TOKENS_DIR variable is empty. ") 1
    else Exited (str "SECRETS_DIR variable is empty. ") 1
  else Exited (str "SECRET_JWT variable is empty. ") 1.

End configuration.

(** ** Packages models and response *)

Module models.

(** The body of [POST /2FA/otp-verify], with the fields the handler
    reads. *)
Record OTPJson := mkOTPJson {
  Username : gostring;
  Token : gostring;
  OTP : gostring
}.

(** The user the middleware passes around. *)
Record UserAuthorizations := mkUserAuthorizations {
  UAUsername : gostring;
  Role : gostring;
  Actions : list gostring
}.

End models.

Module response.

(** The [Data] field of an answer. *)
Inductive Data :=
| DNil
| DString (s : gostring)
| DBool (b : bool)
| DError (e : os.error).

(** What [c.JSON(status, structs.Map(...))] sends. *)
Record Response := mkResponse {
  Status : Z;
  Code : Z;
  Message : gostring;
  RData : Data
}.

(** What [QRCode] sends: an error, or the status 200 with the message
    ["QR code string"] and, under [Data], the [url] and the [key]. *)
Inductive QRAnswer :=
| QRError (r : Response)
| QRCodeString (url key : gostring).

End response.

Module http.
Definition StatusOK : Z := 200.
Definition StatusBadRequest : Z := 400.
Definition StatusNotFound : Z := 404.
End http.

(** A call either returns or panics (a failed type assertion). *)
Inductive outcome (A : Type) :=
| Done (a : A)
| Panicked.
Arguments Done {A} a.
Arguments Panicked {A}.

(** [v.(string)] and [v.(bool)]. *)
Definition assert_string (v : jwtl.value) : outcome gostring :=
  match v with jwtl.VString s => Done s | _ => Panicked end.
Definition assert_bool (v : jwtl.value) : outcome bool :=
  match v with jwtl.VBool b => Done b | _ => Panicked end.

Definition obind {A B} (x : outcome A) (k : A -> outcome B) : outcome B :=
  match x with Done a => k a | Panicked => Panicked end.

Notation "x <-! e ; k" := (obind e (fun x => k))
  (at level 100, e at next level, k at level 200, right associativity).


(** ** Package methods *)

Module methods.
Import configuration os response.

Section WithConfig.
Context (Config : Configuration) `{jwtl.Codec}.


(** The secret of [username]; the empty string when there is none. *)
Definition GetUserSecret (fs : FS) (username : gostring) : gostring :=
  let '(secret, err) :=
    ReadFile fs (SecretsDir Config ++ str "/" ++ username ++ str "/secret") in
  match err with
  | Some _ => str ""
  | None => secret
  end.

(** Stores [secret] unless a secret is there, and returns whether it
    worked and the secret that is in force. *)
Definition SetUserSecret (fs : FS) (username secret : gostring)
  : FS * (bool * gostring) :=
  let '(secretB, _) :=
    ReadFile fs (SecretsDir Config ++ str "/" ++ username ++ str "/secret") in
  if len secretB =? 0 then
    (* check if dir exists, otherwise create it *)
    let errD := Stat fs (SecretsDir Config ++ str "/" ++ username) in
    let fs := if IsNotExist errD
              then fst (MkdirAll fs (SecretsDir Config ++ str "/" ++ username)
                                 mode_0700)
              else fs in
    let '(fs, f, _) :=
      OpenFile fs (SecretsDir Config ++ str "/" ++ username ++ str "/secret")
               (Z.lor O_WRONLY O_CREATE) mode_0600 in
    let '(fs, _, err) := WriteString fs f secret in
    let fs := Close fs f in
    match err with
    | Some _ => (fs, (false, str ""))
    | None => (fs, (true, secret))
    end
  else (fs, (true, secretB)).

(** The membership test of the allow-list. *)
Definition CheckTokenValidation (fs : FS) (username token : gostring) : bool :=
  let '(secrestListB, err) :=
    ReadFile fs (TokensDir Config ++ str "/" ++ username) in
  match err with
  | Some _ => false
  | None =>
    let secrestList := secrestListB in
    (* check whether s contains substring text *)
    strings.Contains secrestList token
  end.

(** Admits [token] to the allow-list of [username]. *)
Definition SetTokenValidation (fs : FS) (username token : gostring)
  : FS * bool :=
  let '(fs, f, _) :=
    OpenFile fs (TokensDir Config ++ str "/" ++ username)
             (Z.lor (Z.lor O_APPEND O_WRONLY) O_CREATE) mode_0600 in
  let '(fs, _, err) := WriteString fs f (token ++ LF) in
  let fs := Close fs f in
  match err with
  | Some _ => (fs, false)
  | None => (fs, true)
  end.

(** Takes [token] off the allow-list of [username]. *)
Definition RemoveTokenValidation (fs : FS) (username token : gostring)
  : FS * bool :=
  let '(secrestListB, errR) :=
    ReadFile fs (TokensDir Config ++ str "/" ++ username) in
  match errR with
  | Some _ => (fs, false)
  | None =>
    let secrestList := secrestListB in
    (* match token to remove *)
    let res := strings.Replace secrestList token (str "") 1 in
    let '(fs, f, _) :=
      OpenFile fs (TokensDir Config ++ str "/" ++ username)
               (Z.lor (Z.lor O_RDWR O_CREATE) O_TRUNC) mode_0600 in
    let '(fs, _, err) := WriteString fs f (strings.TrimSpace res ++ LF) in
    let fs := Close fs f in
    match err with
    | Some _ => (fs, false)
    | None => (fs, true)
    end
  end.

(** The key function handed to [jwtl.Parse]: only an HMAC method gets
    the secret. *)
Definition keyFunc (token : jwtl.Token) : option gostring :=
  match jwtl.Method token with
  | Some (jwtl.SigningMethodHMAC _) => Some (SecretJWT Config)
  | _ => None
  end.

(** Parses and verifies [tokenString]; with [ensureTokenExists] it must
    also be on the allow-list of the identity it names. *)
Definition ValidateAuth (fs : FS) (tokenString : gostring)
           (ensureTokenExists : bool) : outcome bool :=
  if negb (bool_decide (tokenString = str "")) then
    match jwtl.Parse tokenString keyFunc with
    | inr err => Done false
    | inl token =>
      if jwtl.Valid token then
        let claims := jwtl.Claims token in
        match jwtl.get claims "id" with
        | jwtl.VNull => Done false
        | id =>
          if ensureTokenExists then
            username <-! assert_string id;
            if negb (CheckTokenValidation fs username tokenString)
            then Done false
            else Done true
          else Done true
        end
      else Done false
    end
  else Done false.

(** The handler of [POST /2FA/otp-verify]: [body] is what
    [ShouldBindBodyWith] binds, or the text of its error; [now] is the
    clock. *)
Definition OTPVerify (fs : FS) (now : Z) (body : models.OTPJson + gostring)
  : outcome (FS * Response) :=
  match body with
  | inr err =>
    Done (fs, mkResponse http.StatusBadRequest 400
                         (str "request fields malformed") (DString err))
  | inl jsonOTP =>
    (* verify JWT *)
    valid <-! ValidateAuth fs (models.Token jsonOTP) false;
    if negb valid then
      Done (fs, mkResponse http.StatusBadRequest 400
                           (str "JWT token invalid") (DString (str "")))
    else
    (* get secret for the user *)
    let secret := GetUserSecret fs (models.Username jsonOTP) in
    if len secret =? 0 then
      Done (fs, mkResponse http.StatusNotFound 404
                           (str "User secret not found") (DString (str "")))
    else
    (* set OTP configuration *)
    let otpc := dgoogauth.mkOTPConfig secret 3 0 None [] false in
    (* verify OTP *)
    let '(result, err) := dgoogauth.Authenticate otpc now (models.OTP jsonOTP) in
    if bool_decide (err <> None) || negb result then
      Done (fs, mkResponse http.StatusBadRequest 400
                           (str "OTP token invalid") (DString (str "")))
    else
    (* check if 2FA was disabled *)
    let '(status, _) :=
      ReadFile fs (SecretsDir Config ++ str "/" ++ models.Username jsonOTP
                   ++ str "/status") in
    let statusOld := strings.TrimSpace status in
    (* then clean all previous tokens *)
    let cleaned :=
      if bool_decide (statusOld = str "0") || bool_decide (statusOld = str "")
      then
        let '(fs, f, _) :=
          OpenFile fs (TokensDir Config ++ str "/" ++ models.Username jsonOTP)
                   (Z.lor (Z.lor O_RDWR O_CREATE) O_TRUNC) mode_0600 in
        let '(fs, _, err) := WriteString fs f (str "") in
        (Close fs f, err)
      else (fs, None) in
    match cleaned with
    | (fs, Some err) =>
      Done (fs, mkResponse http.StatusBadRequest 400
                           (str "Clean previous tokens error")
                           (DError (Some err)))
    | (fs, None) =>
      (* set auth token to valid *)
      let '(fs, ok) :=
        SetTokenValidation fs (models.Username jsonOTP) (models.Token jsonOTP) in
      if negb ok then
        Done (fs, mkResponse http.StatusBadRequest 400
                             (str "Token validation set error")
                             (DString (str "")))
      else
      (* set 2FA to enabled *)
      let '(fs, f, _) :=
        OpenFile fs (SecretsDir Config ++ str "/" ++ models.Username jsonOTP
                     ++ str "/status")
                 (Z.lor (Z.lor O_RDWR O_CREATE) O_TRUNC) mode_0600 in
      let '(fs, _, err) := WriteString fs f (str "1") in
      let fs := Close fs f in
      match err with
      | Some e =>
        Done (fs, mkResponse http.StatusBadRequest 400
                             (str "Status set error") (DError (Some e)))
      | None =>
        Done (fs, mkResponse http.StatusOK 200 (str "OTP verified")
                             (DString (models.Token jsonOTP)))
      end
    end
  end.

(** The handler of [GET /2FA]; [claims] is [jwt.ExtractClaims(c)]. *)
Definition Get2FAStatus (fs : FS) (claims : jwtl.MapClaims)
  : outcome Response :=
  id <-! assert_string (jwtl.get claims "id");
  (* get status *)
  let '(status, err) :=
    ReadFile fs (SecretsDir Config ++ str "/" ++ id ++ str "/status") in
  let statusS := strings.TrimSpace status in
  (* handle response *)
  let '(message, statusS) :=
    if negb (bool_decide (statusS = str "1")) || bool_decide (err <> None)
    then (str "2FA not set for this user", str "0")
    else (str "2FA set for this user", statusS) in
  Done (mkResponse http.StatusOK 200 message
                   (DBool (bool_decide (statusS = str "1")))).

(** The handler of [DELETE /2FA]. *)
Definition Del2FAStatus (fs : FS) (claims : jwtl.MapClaims)
  : outcome (FS * Response) :=
  id <-! assert_string (jwtl.get claims "id");
  (* revocate secret *)
  let '(fs, errRevocate) :=
    Remove fs (SecretsDir Config ++ str "/" ++ id ++ str "/secret") in
  match errRevocate with
  | Some _ =>
    Done (fs, mkResponse http.StatusBadRequest 403
                         (str "Error in revocate 2FA for user") DNil)
  | None =>
    (* set 2FA to disabled *)
    let '(fs, f, _) :=
      OpenFile fs (SecretsDir Config ++ str "/" ++ id ++ str "/status")
               (Z.lor (Z.lor O_RDWR O_CREATE) O_TRUNC) mode_0600 in
    let '(fs, _, err) := WriteString fs f (str "0") in
    let fs := Close fs f in
    match err with
    | Some _ =>
      Done (fs, mkResponse http.StatusBadRequest 400
                           (str "2FA not revocated") (DString (str "")))
    | None =>
      Done (fs, mkResponse http.StatusOK 200
                           (str "2FA revocate successfully") (DString (str "")))
    end
  end.

(** The handler of [GET /2FA/qr-code]: [random] is what [rand.Read]
    leaves in the 20 bytes of [secret]. *)
Definition QRCode (fs : FS) (random : list Z) (claims : jwtl.MapClaims)
  : outcome (FS * QRAnswer) :=
  (* generate random secret *)
  let secret := random in
  (* convert to string *)
  let secretBase32 := base32.EncodeToString secret in
  (* define issuer *)
  account <-! assert_string (jwtl.get claims "id");
  let issuer := Issuer2FA Config in
  (* set secret for user *)
  let '(fs, (result, setSecret)) := SetUserSecret fs account secretBase32 in
  if negb result then
    Done (fs, QRError (mkResponse http.StatusBadRequest 400
                                  (str "User secret set error")
                                  (DString (str ""))))
  else
  (* define URL *)
  let URL := url.otpauth_totp in
  (* add params *)
  let URL := url.mkURL (url.Scheme URL) (url.Host URL)
                       (url.Path URL ++ str "/" ++ issuer ++ str ":" ++ account)
                       (url.RawQuery URL) in
  let params : url.Values := ∅ in
  let params := url.Add params (str "secret") setSecret in
  let params := url.Add params (str "issuer") issuer in
  let params := url.Add params (str "algorithm") (str "SHA1") in
  let params := url.Add params (str "digits") (str "6") in
  let params := url.Add params (str "period") (str "30") in
  (* print url *)
  let URL := url.mkURL (url.Scheme URL) (url.Host URL) (url.Path URL)
                       (url.Encode params) in
  (* response *)
  Done (fs, QRCodeString (url.String URL) setSecret).

End WithConfig.

End methods.

(** ** Package middleware *)

Module middleware.
Import configuration os.



Definition identityKey : string := "id".


Section WithConfig.
Context (Config : Configuration) `{jwtl.Codec}.


(** The claims of a new token. *)
Definition PayloadFunc (fs : FS) (user : models.UserAuthorizations)
  : jwtl.MapClaims :=
  (* check if user require 2fa *)
  let required :=
    negb (bool_decide (methods.GetUserSecret Config fs (models.UAUsername user)
                       = str "")) in
  <[str identityKey := jwtl.VString (models.UAUsername user)]>
  (<[str "role" := jwtl.VString (str "")]>
  (<[str "actions" := jwtl.VArray []]>
  (<[str "2fa" := jwtl.VBool required]> ∅))).

(** [claims] and [raw] are what [GetClaimsFromJWT] and [ParseToken]
    give for the request; the statements after the membership test
    only build a log line. *)
Definition Authorizator (fs : FS) (claims : jwtl.MapClaims) (raw : gostring)
  : outcome bool :=
  id <-! assert_string (jwtl.get claims "id");
  (* check if token exists *)
  if negb (methods.CheckTokenValidation Config fs id raw)
  then Done false (* not authorized *)
  else Done true (* authorized *).

(** [claims] are the claims of [token], a freshly signed token. *)
Definition LoginResponse (fs : FS) (claims : jwtl.MapClaims) (token : gostring)
  : outcome FS :=
  twofa <-! assert_bool (jwtl.get claims "2fa");
  (* set token to valid, if not 2FA *)
  if negb twofa then
    id <-! assert_string (jwtl.get claims "id");
    Done (fst (methods.SetTokenValidation Config fs id token))
  else
    _ <-! assert_string (jwtl.get claims "id");
    Done fs.

End WithConfig.

(** The identity callback: the user of a request with [claims]. *)
Definition IdentityHandler (claims : jwtl.MapClaims)
  : outcome models.UserAuthorizations :=
  (* create user object *)
  Username <-! assert_string (jwtl.get claims identityKey);
  Done (models.mkUserAuthorizations Username (str "admin") []).

Section Redaction.
(** [configuration.Config.SensitiveList], and the case tables. *)
Context (SensitiveList : list gostring) `{unicode.CaseTables}.

(** The inner loop of [Authorizator] on the flattened body [in]: key
    [k] against every entry of the sensitive list. *)
Definition redact_key (k : gostring) (in_ : gmap gostring jwtl.value)
  : gmap gostring jwtl.value :=
  foldl (fun in_ s =>
           if strings.Contains (strings.ToLower k) (strings.ToLower s)
           then <[k := jwtl.VString (str "XXX")]> in_
           else in_)
        in_ SensitiveList.

(** The outer loop, over the keys in the order [keys]: search for
    sensitive data, in sensitive list. *)
Definition redact_keys (keys : list gostring) (in_ : gmap gostring jwtl.value)
  : gmap gostring jwtl.value :=
  foldl (fun in_ k => redact_key k in_) in_ keys.

(** The loops on [in], whose keys Go visits in no fixed order. *)
Definition redact (in_ : gmap gostring jwtl.value) : gmap gostring jwtl.value :=
  redact_keys (map fst (map_to_list in_)) in_.

End Redaction.

End middleware.

(** ** Notions used in the statements *)

(** What an open for writing leaves in the file before the first write. *)
Definition opened (fs : os.FS) (p : gostring) (flag : Z) : gostring :=
  if os.has flag os.O_TRUNC then [] else default [] (os.files fs !! p).

(** What the first write through a handle leaves in the file. *)
Definition written (old : gostring) (flag : Z) (s : gostring) : gostring :=
  if os.has flag os.O_APPEND then old ++ s else s ++ drop (length s) old.

(** [sub] occurs in [s] as a contiguous piece. *)
Definition occurs (sub s : gostring) : Prop :=
  exists pre post, s = pre ++ sub ++ post.

(** A printable ASCII byte other than the space. *)
Definition graphic (c : ascii) : bool :=
  let b := Z.of_N (N_of_ascii c) in (0x21 <=? b) && (b <=? 0x7E).

(** A non-empty string of such bytes, as a signed token is. *)
Definition wordlike (t : gostring) : bool :=
  negb (bool_decide (t = [])) && forallb graphic t.

(** The content of a list file that holds the lines [L]. *)
Definition lines (L : list gostring) : gostring :=
  flat_map (fun l => l ++ LF) L.

(** The store takes the write of [s] to the file [p], created when it
    is not there: the path can be opened for writing and the write is
    not cut short. *)
Definition writable (fs : os.FS) (p s : gostring) : bool :=
  negb (bool_decide (p ∈ os.denied fs)) && negb (os.dir_path p)
  && negb (bool_decide (p ∈ os.dirs fs))
  && (bool_decide (is_Some (os.files fs !! p)) || os.parent_exists fs p)
  && match os.short fs !! p with
     | Some k => (length s <=? k)%nat
     | None => true
     end.

(** The membership the specification asks for: [token] is one of the
    entries of the identity's list, compared as a whole. *)
Definition Contains_exact (Config : configuration.Configuration) (fs : os.FS)
           (username token : gostring) : bool :=
  match os.ReadFile fs (configuration.TokensDir Config ++ str "/" ++ username) with
  | (content, None) => bool_decide (token ∈ strings.Split content LF)
  | (_, Some _) => false
  end.

(** ** Sample data for the examples *)

Definition sample_config : configuration.Configuration :=
  configuration.mkConfiguration (str "127.0.0.1:8080") (str "key")
    (str "NethServer") (str "/s") (str "/t") (str "/var/run/ns-api-server").

(** A store with the two roots and nothing in them. *)
Definition empty_store : os.FS :=
  os.mkFS ∅ {[ str "/s"; str "/t" ]} ∅ ∅.

(** The same store with a list file for [alice]. *)
Definition store_with_list (content : gostring) : os.FS :=
  os.mkFS {[ str "/t/alice" := content ]} {[ str "/s"; str "/t" ]} ∅ ∅.

(** A stand-in for the decoding and signature checks, for the examples:
    a header segment is read as the name of its algorithm, a claims
    segment as the identity, the time claims are in order, and a
    signature is good when it repeats the key. *)
Definition sample_codec : jwtl.Codec := {|
  jwtl.DecodeHeader seg := Some {[ str "alg" := jwtl.VString seg ]};
  jwtl.DecodeClaims seg := Some {[ str "id" := jwtl.VString seg ]};
  jwtl.ClaimsValid _ := true;
  jwtl.VerifyHMAC _ _ signature key := bool_decide (signature = key)
|}.

(** The claims of a token issued to [alice] when she has no secret. *)
Definition alice_claims : jwtl.MapClaims :=
  middleware.PayloadFunc sample_config empty_store
    (models.mkUserAuthorizations (str "alice") (str "") []).

(** A store where [alice] has a secret and the second factor enabled. *)
Definition store_enabled : os.FS :=
  os.mkFS {[ str "/s/alice/secret" := str "GEZDGNBVGY3TQOJQGEZDGNBVGY3TQOJQ";
             str "/s/alice/status" := str "1";
             str "/t/alice" := lines [str "aaa.bbb.ccc"] ]}
          {[ str "/s"; str "/t"; str "/s/alice" ]} ∅ ∅.

(** The decimal digit [d] as a byte. *)
Definition digit_char (d : Z) : ascii := ascii_of_N (Z.to_N (48 + d)).

(** A code as the user types it: six digits, zeros in front. *)
Definition format6 (n : Z) : gostring :=
  map (fun k => digit_char (n / 10 ^ k mod 10)) [5; 4; 3; 2; 1; 0].

(** The code an authenticator shows for [secret] at [timestamp]. *)
Definition code_at (secret : gostring) (timestamp : Z) : gostring :=
  format6 (dgoogauth.ComputeCode secret (Z.quot timestamp 30)).

(** The configuration [OTPVerify] builds. *)
Definition otp_config (secret : gostring) : dgoogauth.OTPConfig :=
  dgoogauth.mkOTPConfig secret 3 0 None [] false.

(** The secret of the test vectors of RFC 4226 and RFC 6238,
    ["12345678901234567890"] in base32. *)
Definition rfc_secret : gostring := str "GEZDGNBVGY3TQOJQGEZDGNBVGY3TQOJQ".

(** A store where [alice] has a secret, no status flag yet, and a token
    admitted at an earlier login. *)
Definition store_before_enabling : os.FS :=
  os.mkFS {[ str "/s/alice/secret" := rfc_secret;
             str "/t/alice" := lines [str "HS256.alice.old"] ]}
          {[ str "/s"; str "/t"; str "/s/alice" ]} ∅ ∅.

(** A store like [store_before_enabling] whose list holds the token
    ["HS256.alice.key"] and a token that is a piece of it. *)
Definition store_two_tokens : os.FS :=
  os.mkFS {[ str "/s/alice/secret" := rfc_secret;
             str "/t/alice" := lines [str "HS256.alice.key"; str "alice.key"] ]}
          {[ str "/s"; str "/t"; str "/s/alice" ]} ∅ ∅.

(** The store [fs] with the writes to the file [p] cut short after [k]
    bytes. *)
Definition cut_short (fs : os.FS) (p : gostring) (k : nat) : os.FS :=
  os.mkFS (os.files fs) (os.dirs fs) (os.denied fs) (<[p := k]> (os.short fs)).

(** What a call has returned, [d] if it has panicked. *)
Definition from_done {A : Type} (d : A) (o : outcome A) : A :=
  match o with Done a => a | Panicked => d end.

(** A byte slice read as one number, to compare digests. *)
Definition hex (bs : list Z) : Z := fold_left (fun a x => a * 256 + x) bs 0.

(** A string of ASCII bytes. *)
Definition ascii_only (s : gostring) : bool :=
  forallb (fun c => byte_at [c] 0 <? 0x80) s.

(** An ASCII byte with an upper-case letter turned into lower case. *)
Definition lower_byte (ch : ascii) : ascii :=
  let c := byte_at [ch] 0 in
  if (65 <=? c) && (c <=? 90) then ascii_of_N (Z.to_N (c + 32)) else ch.

(** The mask that the redaction writes. *)
Definition masked : jwtl.value := jwtl.VString (str "XXX").

(** Case tables that map every rune beyond ASCII to itself, for the
    examples. *)
Definition sample_tables : unicode.CaseTables :=
  {| unicode.LowerCase r := r |}.

(** A byte. *)
Definition is_byte (b : Z) : bool := (0 <=? b) && (b <? 256).

(** An environment with the three variables that [Init] requires. *)
Definition sample_env : gmap gostring gostring :=
  {[ str "SECRET_JWT" := str "key"; str "SECRETS_DIR" := str "/s";
     str "TOKENS_DIR" := str "/t" ]}.

(** A flattened request body. *)
Definition sample_body : gmap gostring jwtl.value :=
  {[ str "user.name" := jwtl.VString (str "alice");
     str "user.Password" := jwtl.VString (str "hunter2");
     str "otp" := jwtl.VNumber 123456 ]}.

(** The numbers from 0 up to [n], [n] left out. *)
Definition below (n : nat) : list Z := map Z.of_nat (seq 0 n).

(** The eight 5-bit blocks of the five bytes [x0] to [x4], by
    arithmetic. *)
Definition blocks (x0 x1 x2 x3 x4 : Z) : list Z :=
  [x0 / 8; x0 mod 8 * 4 + x1 / 64; x1 / 2 mod 32; x1 mod 2 * 16 + x2 / 16;
   x2 mod 16 * 2 + x3 / 128; x3 / 4 mod 32; x3 mod 4 * 8 + x4 / 32; x4 mod 32].

(** A byte that no part of a URL escapes: a letter, a digit or one of
    [-_.~]. *)
Definition unreserved (ch : ascii) : bool :=
  let c := byte_at [ch] 0 in
  url.is_alnum c || existsb (Z.eqb c) (bytes_of (str "-_.~")).

(** Twenty bytes, as [rand.Read] could give them. *)
Definition sample_random : list Z := map Z.of_nat (seq 0 20).

(** A store where [alice] and [bob] have a list each. *)
Definition store_two_lists : os.FS :=
  os.mkFS {[ str "/t/alice" := lines [str "HS256.alice.old"];
             str "/t/bob" := lines [str "HS256.bob.key"] ]}
          {[ str "/s"; str "/t" ]} ∅ ∅.

(** A store that refuses every access to the secret of [alice]. *)
Definition store_faulty_secret : os.FS :=
  os.mkFS ∅ {[ str "/s"; str "/t" ]} {[ str "/s/alice/secret" ]} ∅.

(** A store where the secret of [alice] is not base32. *)
Definition store_corrupt_secret : os.FS :=
  os.mkFS {[ str "/s/alice/secret" := str "not base32" ]}
          {[ str "/s"; str "/t"; str "/s/alice" ]} ∅ ∅.

(** What stands for the answer of a handler that has panicked. *)
Definition no_answer : os.FS * response.Response :=
  (empty_store, response.mkResponse 0 0 [] response.DNil).

(** A body for [OTPVerify]: a token of [alice] and the code of
    [rfc_secret] at the 59th second. *)
Definition sample_otp_body : models.OTPJson :=
  models.mkOTPJson (str "alice") (str "HS256.alice.key") (str "287082").

(** * Properties *)

(** ** The file system *)

Section os_lemmas.
Import os.

Lemma FS_eta (fs : FS) : mkFS (files fs) (dirs fs) (denied fs) (short fs) = fs.
Proof. by destruct fs. Qed.

Lemma ReadFile_ok (fs : FS) (p data : gostring) :
  ReadFile fs p = (data, None) <-> (p ∉ denied fs) /\ files fs !! p = Some data.
Proof.
  unfold ReadFile. case_bool_decide as Hf.
  - split; [done|]. by intros [? _].
  - destruct (files fs !! p) as [d|]; split; try done.
    + by intros [= ->].
    + by intros [_ [= ->]].
    + by intros [_ ?].
Qed.

Lemma ReadFile_err (fs : FS) (p data : gostring) (e : Errno) :
  ReadFile fs p = (data, Some e) -> data = [].
Proof.
  unfold ReadFile. case_bool_decide; [by intros [= <- _]|].
  destruct (files fs !! p); [done|by intros [= <- _]].
Qed.

Lemma OpenFile_nil (fs fs1 : FS) (p : gostring) (flag perm : Z) (e : error) :
  OpenFile fs p flag perm = (fs1, None, e) -> fs1 = fs.
Proof.
  unfold OpenFile. repeat case_match; by intros [= <-].
Qed.

Lemma OpenFile_some (fs fs1 : FS) (p : gostring) (flag perm : Z) (f : File)
      (e : error) :
  OpenFile fs p flag perm = (fs1, Some f, e) ->
  f = mkFile p flag /\ (p ∉ denied fs) /\ (p ∉ dirs fs)
  /\ fs1 = mkFS (<[p := opened fs p flag]> (files fs)) (dirs fs) (denied fs)
                (short fs).
Proof.
  unfold OpenFile, opened.
  case_bool_decide; [done|]. destruct (dir_path p); [done|].
  case_bool_decide; [done|]. cbn [orb].
  destruct (files fs !! p) as [old|] eqn:Hp; simpl.
  - destruct (has flag O_TRUNC); intros [= <- <- <-]; repeat split; try done.
    rewrite insert_id by done. by rewrite FS_eta.
  - destruct (has flag O_CREATE && parent_exists fs p); intros [= <- <- <-].
    repeat split; try done. by destruct (has flag O_TRUNC).
Qed.

(** An open followed by one write. When the write reports no error the
    file holds what [written] says. When it reports one, either the
    open had failed and nothing has changed, or the write was cut short
    and the file holds what the open and the bytes that went through
    have left. *)
Lemma open_write (fs fs1 fs2 : FS) (p s : gostring) (flag perm n : Z)
      (f : option File) (e err : error) :
  OpenFile fs p flag perm = (fs1, f, e) ->
  WriteString fs1 f s = (fs2, n, err) ->
  match err with
  | None => (p ∉ denied fs) /\ (p ∉ dirs fs)
            /\ fs2 = mkFS (<[p := written (opened fs p flag) flag s]> (files fs))
                          (dirs fs) (denied fs) (short fs)
  | Some _ =>
    (f = None /\ fs2 = fs)
    \/ (exists k, short fs !! p = Some k /\ (k < length s)%nat
                  /\ (p ∉ denied fs) /\ (p ∉ dirs fs)
                  /\ fs2 = mkFS (<[p := written (opened fs p flag) flag
                                               (take k s)]> (files fs))
                                (dirs fs) (denied fs) (short fs))
  end.
Proof.
  intros Ho Hw. destruct f as [f|].
  - apply OpenFile_some in Ho as (-> & Hf & Hd & ->).
    unfold WriteString in Hw. cbn [os.name os.flag files dirs denied short] in Hw.
    rewrite lookup_insert_eq in Hw.
    destruct (short fs !! p) as [k|] eqn:Hk.
    + destruct (k <? length s)%nat eqn:Hlt; injection Hw as <- <- <-.
      * right. exists k. apply Nat.ltb_lt in Hlt.
        repeat split; try done. by rewrite insert_insert_eq.
      * repeat split; try done. by rewrite insert_insert_eq.
    + injection Hw as <- <- <-.
      repeat split; try done. by rewrite insert_insert_eq.
  - apply OpenFile_nil in Ho as ->. injection Hw as <- <- <-. by left.
Qed.

(** Whether an open that may create the file, followed by one write,
    goes through. *)
Lemma open_write_ok (fs fs1 fs2 : FS) (p s : gostring) (flag perm n : Z)
      (f : option File) (e err : error) :
  has flag O_CREATE = true ->
  OpenFile fs p flag perm = (fs1, f, e) ->
  WriteString fs1 f s = (fs2, n, err) ->
  err = None <-> writable fs p s = true.
Proof.
  intros Hc Ho Hw. unfold writable, OpenFile in *. rewrite Hc in Ho.
  destruct (bool_decide (p ∈ denied fs)).
  { injection Ho as <- <- <-. injection Hw as <- <- <-. done. }
  destruct (dir_path p).
  { injection Ho as <- <- <-. injection Hw as <- <- <-. done. }
  destruct (bool_decide (p ∈ dirs fs)).
  { injection Ho as <- <- <-. injection Hw as <- <- <-. done. }
  cbn [negb andb orb] in *.
  assert (forall (fs0 fs3 : FS) (m : Z) (err : error),
            short fs0 = short fs -> is_Some (files fs0 !! p) ->
            WriteString fs0 (Some (mkFile p flag)) s = (fs3, m, err) ->
            err = None
            <-> match short fs !! p with
                | Some k => (length s <=? k)%nat
                | None => true
                end = true) as Hwrite.
  { intros fs0 fs3 m err0 Hs [old Hold] Hw0. unfold WriteString in Hw0.
    cbn [os.name] in Hw0. rewrite Hold, Hs in Hw0.
    destruct (short fs !! p) as [k|]; [|by injection Hw0 as <- <- <-].
    destruct (k <? length s)%nat eqn:Hlt; injection Hw0 as <- <- <-.
    - apply Nat.ltb_lt in Hlt. split; [discriminate|]. intros ?%Nat.leb_le. lia.
    - apply Nat.ltb_ge in Hlt. split; [|done]. intros _. by apply Nat.leb_le. }
  destruct (files fs !! p) as [old|] eqn:Hp.
  - rewrite bool_decide_eq_true_2 by eauto. cbn [orb andb].
    destruct (has flag O_TRUNC); injection Ho as <- <- <-.
    + refine (Hwrite _ _ _ _ _ _ Hw); [done|]. cbn [files].
      rewrite lookup_insert_eq. eauto.
    + refine (Hwrite _ _ _ _ _ _ Hw); [done|]. eauto.
  - rewrite bool_decide_eq_false_2 by (by intros [? ?]). cbn [orb].
    destruct (parent_exists fs p); cbn [andb] in *; injection Ho as <- <- <-.
    + refine (Hwrite _ _ _ _ _ _ Hw); [done|]. cbn [files].
      rewrite lookup_insert_eq. eauto.
    + injection Hw as <- <- <-. done.
Qed.

Lemma writable_nil (fs : FS) (p s : gostring) :
  writable fs p s = true -> writable fs p [] = true.
Proof.
  unfold writable. intros [Hopen _]%andb_prop. rewrite Hopen.
  by destruct (short fs !! p).
Qed.

(** Once the file is there, what is left to ask is that the write is
    not cut short. *)
Lemma writable_insert (fs : FS) (p s data : gostring) :
  writable fs p [] = true ->
  writable (mkFS (<[p := data]> (files fs)) (dirs fs) (denied fs) (short fs)) p s
  = writable fs p s.
Proof.
  unfold writable. cbn [files dirs denied short].
  intros [[[Hf Hd]%andb_prop Hex]%andb_prop _]%andb_prop.
  rewrite Hf, Hd, Hex, lookup_insert_eq.
  by rewrite bool_decide_eq_true_2 by eauto.
Qed.

Lemma writable_insert_ne (fs : FS) (p q s data : gostring) :
  p <> q ->
  writable (mkFS (<[q := data]> (files fs)) (dirs fs) (denied fs) (short fs)) p s
  = writable fs p s.
Proof.
  intros Hne. unfold writable, parent_exists. cbn [files dirs denied short].
  by rewrite lookup_insert_ne.
Qed.

End os_lemmas.

Section handlers.
Import os configuration.
Context (Config : Configuration) `{jwtl.Codec}.

Lemma has_append_set :
  has (Z.lor (Z.lor O_APPEND O_WRONLY) O_CREATE) O_APPEND = true.
Proof. reflexivity. Qed.

Lemma has_trunc_set :
  has (Z.lor (Z.lor O_RDWR O_CREATE) O_TRUNC) O_TRUNC = true
  /\ has (Z.lor (Z.lor O_RDWR O_CREATE) O_TRUNC) O_APPEND = false.
Proof. split; reflexivity. Qed.

Lemma has_create_only :
  has (Z.lor O_WRONLY O_CREATE) O_TRUNC = false
  /\ has (Z.lor O_WRONLY O_CREATE) O_APPEND = false.
Proof. split; reflexivity. Qed.

Lemma CheckTokenValidation_read (fs : FS) (u t content : gostring) :
  ReadFile fs (TokensDir Config ++ str "/" ++ u) = (content, None) ->
  methods.CheckTokenValidation Config fs u t = strings.Contains content t.
Proof. intros Hr. unfold methods.CheckTokenValidation. by rewrite Hr. Qed.

Lemma CheckTokenValidation_unreadable (fs : FS) (u t content : gostring)
      (e : Errno) :
  ReadFile fs (TokensDir Config ++ str "/" ++ u) = (content, Some e) ->
  methods.CheckTokenValidation Config fs u t = false.
Proof. intros Hr. unfold methods.CheckTokenValidation. by rewrite Hr. Qed.

(** A successful [SetTokenValidation] appends one line to the list. *)
Lemma SetTokenValidation_true (fs fs' : FS) (u t : gostring) :
  methods.SetTokenValidation Config fs u t = (fs', true) ->
  ((TokensDir Config ++ str "/" ++ u) ∉ denied fs)
  /\ fs' = mkFS (<[TokensDir Config ++ str "/" ++ u :=
                    default [] (files fs !! (TokensDir Config ++ str "/" ++ u))
                    ++ t ++ LF]> (files fs)) (dirs fs) (denied fs) (short fs).
Proof.
  unfold methods.SetTokenValidation.
  destruct (OpenFile _ _ _ _) as [[fs1 f] e] eqn:Ho.
  destruct (WriteString fs1 f _) as [[fs2 n] err] eqn:Hw.
  pose proof (open_write _ _ _ _ _ _ _ _ _ _ _ Ho Hw) as Hs.
  destruct err; [done|]. intros [= <-]. destruct Hs as (Hf & _ & ->).
  split; [done|]. unfold written, opened. by rewrite has_append_set.
Qed.

(** A failed [SetTokenValidation] has changed nothing, or has been cut
    short and has appended a part of the line. *)
Lemma SetTokenValidation_false (fs fs' : FS) (u t : gostring) :
  methods.SetTokenValidation Config fs u t = (fs', false) ->
  fs' = fs
  \/ exists k,
       (k < length (t ++ LF))%nat
       /\ ((TokensDir Config ++ str "/" ++ u) ∉ denied fs)
       /\ fs' = mkFS (<[TokensDir Config ++ str "/" ++ u :=
                         default [] (files fs !! (TokensDir Config ++ str "/" ++ u))
                         ++ take k (t ++ LF)]> (files fs))
                     (dirs fs) (denied fs) (short fs).
Proof.
  unfold methods.SetTokenValidation.
  destruct (OpenFile _ _ _ _) as [[fs1 f] e] eqn:Ho.
  destruct (WriteString fs1 f _) as [[fs2 n] err] eqn:Hw.
  pose proof (open_write _ _ _ _ _ _ _ _ _ _ _ Ho Hw) as Hs.
  destruct err; [|done]. intros [= <-].
  destruct Hs as [[_ ->]|(k & _ & Hk & Hf & _ & ->)]; [by left|].
  right. exists k. split; [done|]. split; [done|].
  unfold written, opened. by rewrite has_append_set.
Qed.

(** [SetTokenValidation] succeeds exactly when the store takes the
    write of the line. *)
Lemma SetTokenValidation_ok (fs fs' : FS) (u t : gostring) (ok : bool) :
  methods.SetTokenValidation Config fs u t = (fs', ok) ->
  ok = writable fs (TokensDir Config ++ str "/" ++ u) (t ++ LF).
Proof.
  unfold methods.SetTokenValidation.
  destruct (OpenFile _ _ _ _) as [[fs1 f] e] eqn:Ho.
  destruct (WriteString fs1 f _) as [[fs2 n] err] eqn:Hw.
  pose proof (open_write_ok _ _ _ _ _
                (Z.lor (Z.lor O_APPEND O_WRONLY) O_CREATE) _ _ _ _ _
                eq_refl Ho Hw) as Hiff.
  destruct err as [e1|]; intros [= _ <-].
  - destruct (writable _ _ _); [|done]. destruct Hiff as [_ Hiff].
    by specialize (Hiff eq_refl).
  - symmetry. by apply Hiff.
Qed.

(** A successful [RemoveTokenValidation] rewrites the list from what it
    read. *)
Lemma RemoveTokenValidation_true (fs fs' : FS) (u t : gostring) :
  methods.RemoveTokenValidation Config fs u t = (fs', true) ->
  exists content,
    ReadFile fs (TokensDir Config ++ str "/" ++ u) = (content, None)
    /\ fs' = mkFS (<[TokensDir Config ++ str "/" ++ u :=
                      strings.TrimSpace (strings.Replace content t (str "") 1)
                      ++ LF]> (files fs)) (dirs fs) (denied fs) (short fs).
Proof.
  unfold methods.RemoveTokenValidation.
  destruct (ReadFile _ _) as [content [e|]] eqn:Hr; [done|].
  destruct (OpenFile _ _ _ _) as [[fs1 f] e] eqn:Ho.
  destruct (WriteString fs1 f _) as [[fs2 n] err] eqn:Hw.
  pose proof (open_write _ _ _ _ _ _ _ _ _ _ _ Ho Hw) as Hs.
  destruct err; [done|]. intros [= <-]. destruct Hs as (Hf & _ & ->).
  exists content. split; [done|]. unfold written, opened.
  destruct has_trunc_set as [-> ->]. simpl. by rewrite drop_nil, app_nil_r.
Qed.

Lemma ReadFile_insert (fs : FS) (p data : gostring) :
  (p ∉ denied fs) ->
  ReadFile (mkFS (<[p := data]> (files fs)) (dirs fs) (denied fs) (short fs)) p
  = (data, None).
Proof. intros Hf. apply ReadFile_ok. simpl. by rewrite lookup_insert_eq. Qed.

End handlers.

(** ** Substrings: [HasPrefix], [Index], [Contains], [Replace] *)

Lemma occurs_refl (s : gostring) : occurs s s.
Proof. exists [], []. by rewrite app_nil_r. Qed.

Lemma occurs_trans (a b c : gostring) : occurs a b -> occurs b c -> occurs a c.
Proof.
  intros (p1 & q1 & ->) (p2 & q2 & ->). exists (p2 ++ p1), (q1 ++ q2).
  by rewrite <- !app_assoc.
Qed.

Lemma occurs_app_l (sub s x : gostring) : occurs sub s -> occurs sub (x ++ s).
Proof. intros (p & q & ->). exists (x ++ p), q. by rewrite <- app_assoc. Qed.

Lemma occurs_app_r (sub s x : gostring) : occurs sub s -> occurs sub (s ++ x).
Proof. intros (p & q & ->). exists p, (q ++ x). by rewrite <- !app_assoc. Qed.

Lemma occurs_take (sub s : gostring) (n : nat) : occurs sub (take n s) -> occurs sub s.
Proof. intros Ho. rewrite <- (take_drop n s). by apply occurs_app_r. Qed.

Lemma occurs_drop (sub s : gostring) (n : nat) : occurs sub (drop n s) -> occurs sub s.
Proof. intros Ho. rewrite <- (take_drop n s). by apply occurs_app_l. Qed.

Lemma occurs_nil_inv (sub : gostring) : occurs sub [] -> sub = [].
Proof.
  intros (p & q & Hs). symmetry in Hs.
  apply app_eq_nil in Hs as [_ Hs]. by apply app_eq_nil in Hs as [? _].
Qed.

Lemma HasPrefix_spec (s p : gostring) :
  strings.HasPrefix s p = true <-> exists r, s = p ++ r.
Proof.
  unfold strings.HasPrefix. rewrite andb_true_iff, Nat.leb_le, bool_decide_eq_true.
  split.
  - intros [_ Ht]. exists (drop (length p) s).
    rewrite <- Ht at 1. by rewrite take_drop.
  - intros [r ->]. rewrite length_app. split; [lia|].
    by rewrite take_app_length.
Qed.

Lemma Index_found (s sub : gostring) :
  0 <= strings.Index s sub ->
  exists pre post, s = pre ++ sub ++ post /\ len pre = strings.Index s sub.
Proof.
  induction s as [|c s IH]; simpl.
  - destruct (strings.HasPrefix [] sub) eqn:Hp; [|lia]. intros _.
    apply HasPrefix_spec in Hp as [r ->]. by exists [], r.
  - destruct (strings.HasPrefix (c :: s) sub) eqn:Hp.
    + intros _. apply HasPrefix_spec in Hp as [r ->]. by exists [], r.
    + destruct (strings.Index s sub <? 0) eqn:Hi; [lia|]. intros _.
      apply Z.ltb_ge in Hi. destruct (IH Hi) as (pre & post & -> & Hl).
      exists (c :: pre), post. split; [done|]. unfold len in *. simpl. lia.
Qed.

Lemma Index_least (s sub pre post : gostring) :
  s = pre ++ sub ++ post -> 0 <= strings.Index s sub <= len pre.
Proof.
  revert s. induction pre as [|c pre IH]; intros s ->.
  - assert (strings.HasPrefix (sub ++ post) sub = true) as Hp
      by (apply HasPrefix_spec; eauto).
    simpl. destruct (sub ++ post); simpl; rewrite Hp; unfold len; simpl; lia.
  - simpl. destruct (strings.HasPrefix _ sub); [unfold len; simpl; lia|].
    specialize (IH _ eq_refl).
    destruct (strings.Index (pre ++ sub ++ post) sub <? 0) eqn:Hi.
    + apply Z.ltb_lt in Hi. lia.
    + unfold len in *. simpl. lia.
Qed.

Lemma Contains_spec (s sub : gostring) : strings.Contains s sub = true <-> occurs sub s.
Proof.
  unfold strings.Contains. rewrite Z.leb_le. split.
  - intros Hi. destruct (Index_found _ _ Hi) as (pre & post & -> & _).
    by exists pre, post.
  - intros (pre & post & Hs). by apply (Index_least _ _ _ _ Hs).
Qed.

Lemma Contains_false (s sub : gostring) : strings.Contains s sub = false <-> ~ occurs sub s.
Proof. rewrite <- Contains_spec. by destruct (strings.Contains s sub). Qed.

(** Deleting the first instance: [Replace(s, old, "", 1)]. *)
Lemma Replace_first (s old : gostring) :
  exists pre post,
    strings.Replace s old [] 1 = pre ++ post
    /\ (s = pre ++ old ++ post /\ len pre = strings.Index s old
        \/ s = pre ++ post /\ (old = [] \/ ~ occurs old s)).
Proof.
  unfold strings.Replace. destruct old as [|c old].
  { exists s, []. rewrite app_nil_r. split; [done|]. right. split; [done|]. by left. }
  rewrite bool_decide_eq_false_2 by done. simpl.
  destruct (strings.Index s (c :: old) <? 0) eqn:Hi.
  - exists s, []. rewrite app_nil_r. split; [done|right]. split; [done|right].
    intros Ho%Contains_spec. unfold strings.Contains in Ho.
    apply Z.ltb_lt in Hi. apply Z.leb_le in Ho. lia.
  - apply Z.ltb_ge in Hi. destruct (Index_found _ _ Hi) as (pre & post & Hs & Hl).
    exists pre, post. split; [|by left].
    rewrite <- Hl. unfold slice_to, slice_from, len.
    rewrite <- Nat2Z.inj_add, !Nat2Z.id. rewrite Hs at 1 2.
    rewrite take_app_length. rewrite app_assoc, <- length_app.
    by rewrite drop_app_length.
Qed.

(** An occurrence of a string that avoids a byte lies on one side of
    that byte. *)
Lemma occurs_sep (t X : gostring) (c : ascii) (Y : gostring) :
  c ∉ t -> occurs t (X ++ c :: Y) -> occurs t X \/ occurs t Y.
Proof.
  intros Hc (pre & post & Hs).
  rewrite app_assoc in Hs.
  apply app_eq_inv in Hs as [(k & -> & Hk)|(k & Hk & Hy)].
  - left. exists pre, k. by rewrite <- app_assoc.
  - destruct k as [|c' k]; simpl in Hy.
    + rewrite app_nil_r in Hk. left. exists pre, []. by rewrite app_nil_r.
    + injection Hy as <- ->.
      apply app_eq_inv in Hk as [(k2 & -> & Hk)|(k2 & -> & Hk)].
      * destruct k2 as [|c2 k2]; simpl in Hk.
        -- exfalso. apply Hc. rewrite <- Hk. set_solver.
        -- injection Hk as <- ->. right. exists k2, post.
           by rewrite <- app_assoc.
      * exfalso. apply Hc. rewrite Hk. set_solver.
Qed.

Lemma lines_app (L1 L2 : list gostring) : lines (L1 ++ L2) = lines L1 ++ lines L2.
Proof. unfold lines. by rewrite flat_map_app. Qed.

Lemma lines_cons (l : gostring) (L : list gostring) : lines (l :: L) = l ++ LF ++ lines L.
Proof. unfold lines. simpl. by rewrite <- app_assoc. Qed.

Lemma occurs_line (l : gostring) (L : list gostring) : l ∈ L -> occurs l (lines L).
Proof.
  intros (L1 & L2 & ->)%list_elem_of_split.
  rewrite lines_app, lines_cons. exists (lines L1), (LF ++ lines L2). done.
Qed.

(** A string without line feed that occurs in a list file occurs in one
    of its lines. *)
Lemma occurs_lines (t : gostring) (L : list gostring) :
  "010"%char ∉ t -> t <> [] -> occurs t (lines L) ->
  exists l, l ∈ L /\ occurs t l.
Proof.
  intros Hc Ht. induction L as [|l L IH].
  - intros Ho%occurs_nil_inv. done.
  - rewrite lines_cons. intros [Ho|Ho]%occurs_sep; [| |done].
    + exists l. split; [left|done].
    + destruct (IH Ho) as (l' & Hl & Ho'). exists l'. split; [by right|done].
Qed.

(** The first place where such a string can start in a list file whose
    leading lines do not contain it is the start of the next line. *)
Lemma first_occurrence_lines (t : gostring) (L1 : list gostring)
      (Q pre0 post0 : gostring) :
  "010"%char ∉ t -> t <> [] ->
  (forall l, l ∈ L1 -> ~ occurs t l) ->
  lines L1 ++ t ++ Q = pre0 ++ t ++ post0 ->
  (length pre0 <= length (lines L1))%nat ->
  pre0 = lines L1.
Proof.
  intros Hc Ht. revert pre0. induction L1 as [|l L1 IH]; intros pre0 HL Hs Hlen.
  - simpl in Hlen. destruct pre0; [done|simpl in Hlen; lia].
  - rewrite lines_cons in *. unfold LF in *. rewrite <- !app_assoc in Hs.
    simpl in Hs.
    apply app_eq_inv in Hs as [(k & Hl & Hk)|(k & -> & Hk)].
    + exfalso.
      apply app_eq_inv in Hk as [(k2 & -> & Hk)|(k2 & -> & Hk)].
      * destruct k2 as [|c2 k2]; simpl in Hk.
        -- apply (HL l); [left|]. exists pre0, []. by rewrite Hl, !app_nil_r.
        -- injection Hk as <- _. apply Hc. set_solver.
      * apply (HL l); [left|]. exists pre0, k2. by rewrite Hl.
    + destruct k as [|c k]; simpl in Hk.
      * exfalso. destruct t as [|c t]; [done|]. injection Hk as <- _.
        apply Hc. set_solver.
      * injection Hk as <- Hk. rewrite (IH k); [done| |done|].
        -- intros l' Hl'. apply HL. by right.
        -- rewrite !length_app in Hlen. simpl in Hlen. lia.
Qed.

Lemma split_go_occurs (fuel : nat) (s sep t : gostring) :
  t ∈ strings.split_go fuel s sep -> occurs t s.
Proof.
  revert s. induction fuel as [|fuel IH]; intros s; simpl.
  - intros ->%list_elem_of_singleton. apply occurs_refl.
  - destruct (strings.Index s sep <? 0).
    + intros ->%list_elem_of_singleton. apply occurs_refl.
    + intros [->|Hin]%elem_of_cons.
      * apply (occurs_take _ _ (Z.to_nat (strings.Index s sep))), occurs_refl.
      * apply IH in Hin. unfold slice_from in Hin. by eapply occurs_drop.
Qed.

(** ** Runes and trimming *)

Ltac zbool :=
  repeat match goal with
  | H : _ && _ = true |- _ => apply andb_prop in H as [? ?]
  | H : _ || _ = false |- _ => apply orb_false_iff in H as [? ?]
  | H : _ && _ = false |- _ => apply andb_false_iff in H as [?|?]
  | H : _ || _ = true |- _ => apply orb_true_iff in H as [?|?]
  | H : negb _ = true |- _ => apply negb_true_iff in H
  | H : negb _ = false |- _ => apply negb_false_iff in H
  | H : (_ <=? _) = true |- _ => apply Z.leb_le in H
  | H : (_ <=? _) = false |- _ => apply Z.leb_gt in H
  | H : (_ <? _) = true |- _ => apply Z.ltb_lt in H
  | H : (_ <? _) = false |- _ => apply Z.ltb_ge in H
  | H : (_ =? _) = true |- _ => apply Z.eqb_eq in H
  | H : (_ =? _) = false |- _ => apply Z.eqb_neq in H
  | H : (_ <=? _)%nat = true |- _ => apply Nat.leb_le in H
  | H : (_ <=? _)%nat = false |- _ => apply Nat.leb_gt in H
  | H : (_ <? _)%nat = true |- _ => apply Nat.ltb_lt in H
  | H : (_ <? _)%nat = false |- _ => apply Nat.ltb_ge in H
  | H : (_ =? _)%nat = true |- _ => apply Nat.eqb_eq in H
  | H : (_ =? _)%nat = false |- _ => apply Nat.eqb_neq in H
  end.

Lemma byte_at_cons (c : ascii) (s : gostring) (i : nat) : byte_at (c :: s) (S i) = byte_at s i.
Proof. done. Qed.

Lemma byte_at_middle (Z : gostring) (c : ascii) (W : gostring) : byte_at (Z ++ c :: W) (length Z) = Z.of_N (N_of_ascii c).
Proof. unfold byte_at. by rewrite nth_middle. Qed.

Lemma byte_at_drop (s : gostring) (k i : nat) : byte_at (drop k s) i = byte_at s (k + i).
Proof.
  unfold byte_at. f_equal. f_equal. revert s.
  induction k as [|k IH]; intros [|c s]; simpl; try done. by destruct i.
Qed.

Lemma graphic_ascii (c : ascii) :
  graphic c = true ->
  Z.of_N (N_of_ascii c) < 0x80
  /\ unicode.IsSpace (Z.of_N (N_of_ascii c)) = false.
Proof.
  unfold graphic, unicode.IsSpace. intros Hg. zbool. split; [lia|].
  case_match; zbool; lia.
Qed.

Lemma first_some (b : Z) (sz : nat) (lo hi : Z) :
  utf8.first b = Some (sz, lo, hi) ->
  (2 <= sz <= 4)%nat /\ 0x80 <= lo /\ 0x80 <= b.
Proof.
  unfold utf8.first. repeat case_match; intros [= <- <- <-]; zbool; lia.
Qed.

Lemma DecodeRune_ascii (c : ascii) (s : gostring) :
  Z.of_N (N_of_ascii c) < 0x80 ->
  utf8.DecodeRuneInString (c :: s) = (Z.of_N (N_of_ascii c), 1%nat).
Proof.
  intros Hc. unfold utf8.DecodeRuneInString.
  change (byte_at (c :: s) 0) with (Z.of_N (N_of_ascii c)).
  destruct (utf8.first _) as [[[sz lo] hi]|] eqn:Hf.
  - apply first_some in Hf. lia.
  - unfold utf8.RuneSelf. case_match; zbool; [done|lia].
Qed.

(** The bytes a decoded rune takes after its first are all outside
    ASCII, and so is the first when there are several. *)
Lemma DecodeRune_width (s : gostring) (r : Z) (w : nat) :
  s <> [] -> utf8.DecodeRuneInString s = (r, w) ->
  (1 <= w <= length s)%nat
  /\ ((1 < w)%nat -> forall i, (i < w)%nat -> 0x80 <= byte_at s i).
Proof.
  intros Hs. unfold utf8.DecodeRuneInString. destruct s as [|c s]; [done|].
  destruct (utf8.first _) as [[[sz lo] hi]|] eqn:Hf.
  - apply first_some in Hf as (Hsz & Hlo & Hb).
    unfold utf8.locb, utf8.hicb. cbv zeta.
    repeat case_match; intros [= <- <-]; zbool; simpl in *;
      (split; [lia|intros _ i Hi]);
      destruct i as [|[|[|[|]]]]; try lia; try done.
  - intros [= <- <-]. simpl. split; lia.
Qed.

Lemma DecodeLast_ascii (Z : gostring) (c : ascii) :
  Z.of_N (N_of_ascii c) < 0x80 ->
  utf8.DecodeLastRuneInString (Z ++ [c]) = (Z.of_N (N_of_ascii c), 1%nat).
Proof.
  intros Hc. unfold utf8.DecodeLastRuneInString.
  rewrite length_app, Nat.add_1_r. simpl.
  rewrite byte_at_middle. unfold utf8.RuneSelf. case_match; zbool; [done|lia].
Qed.

Lemma find_start_le (s : gostring) (start k : nat) : (utf8.find_start s start k <= start)%nat.
Proof.
  revert start. induction k as [|k IH]; intros start; simpl; [lia|].
  destruct (utf8.RuneStart _); [lia|].
  destruct start as [|start]; [lia|]. specialize (IH start). lia.
Qed.

Lemma DecodeLast_width (s : gostring) (r : Z) (size : nat) :
  s <> [] -> utf8.DecodeLastRuneInString s = (r, size) ->
  (1 <= size <= length s)%nat
  /\ ((1 < size)%nat ->
      forall i, (length s - size <= i < length s)%nat -> 0x80 <= byte_at s i).
Proof.
  intros Hs. unfold utf8.DecodeLastRuneInString.
  destruct (length s) as [|start] eqn:Hl; [by destruct s|].
  case_match; [intros [= <- <-]; split; lia|].
  destruct start as [|start1]; [intros [= <- <-]; split; lia|].
  set (start' := utf8.find_start _ _ _).
  destruct (utf8.DecodeRuneInString (drop start' s)) as [r' size'] eqn:Hd.
  case_match; intros [= <- <-]; [|split; lia]. zbool.
  assert (drop start' s <> []) as Hne.
  { intros Hn. apply (f_equal length) in Hn. rewrite length_drop in Hn.
    pose proof (find_start_le s start1
      (S (S start1) - (S (S start1) - utf8.UTFMax) - 1)) as Hfs.
    fold start' in Hfs. simpl in Hn. clearbody start'. lia. }
  destruct (DecodeRune_width _ _ _ Hne Hd) as [Hw Hhigh].
  clearbody start'. split; [lia|]. intros Hsz i Hi.
  replace i with (start' + (i - start'))%nat by lia.
  rewrite <- byte_at_drop. apply Hhigh; lia.
Qed.

Lemma trim_left_S (fuel : nat) (f : Z -> bool) (s : gostring) :
  s <> [] ->
  strings.trim_left (S fuel) f s =
  let '(r, wid) := utf8.DecodeRuneInString s in
  if f r then strings.trim_left fuel f (drop wid s) else s.
Proof. by destruct s. Qed.

Lemma trim_right_S (fuel : nat) (f : Z -> bool) (s : gostring) :
  s <> [] ->
  strings.trim_right (S fuel) f s =
  let '(r, size) := utf8.DecodeLastRuneInString s in
  if f r then strings.trim_right fuel f (take (length s - size) s) else s.
Proof. by destruct s. Qed.

(** Trimming returns a piece of its argument. *)
Lemma trim_left_drop (fuel : nat) (f : Z -> bool) (s : gostring) :
  exists k, strings.trim_left fuel f s = drop k s.
Proof.
  revert s. induction fuel as [|fuel IH]; intros s; [by exists 0%nat|].
  destruct s as [|c s]; [by exists 0%nat|].
  rewrite trim_left_S by done.
  destruct (utf8.DecodeRuneInString _) as [r wid]. destruct (f r); [|by exists 0%nat].
  destruct (IH (drop wid (c :: s))) as [k ->]. exists (wid + k)%nat.
  by rewrite drop_drop.
Qed.

Lemma trim_right_take (fuel : nat) (f : Z -> bool) (s : gostring) :
  exists k, strings.trim_right fuel f s = take k s.
Proof.
  revert s. induction fuel as [|fuel IH]; intros s.
  { exists (length s). by rewrite take_ge. }
  destruct s as [|c s]; [by exists 0%nat|].
  rewrite trim_right_S by done.
  destruct (utf8.DecodeLastRuneInString _) as [r size].
  destruct (f r); [|exists (length (c :: s)); by rewrite take_ge].
  destruct (IH (take (length (c :: s) - size) (c :: s))) as [k ->].
  rewrite take_take. eauto.
Qed.

Lemma TrimSpace_occurs (s : gostring) : occurs (strings.TrimSpace s) s.
Proof.
  unfold strings.TrimSpace, strings.TrimFunc, strings.TrimRightFunc,
    strings.TrimLeftFunc.
  destruct (trim_left_drop (length s) unicode.IsSpace s) as [k ->].
  destruct (trim_right_take (length (drop k s)) unicode.IsSpace (drop k s))
    as [j ->].
  eapply occurs_drop, occurs_take, occurs_refl.
Qed.

(** Trimming from the left never goes past an ASCII byte that the
    predicate refuses; neither does trimming from the right. *)
Lemma trim_left_keeps (fuel : nat) (f : Z -> bool) (Y : gostring) (c : ascii)
      (T : gostring) :
  Z.of_N (N_of_ascii c) < 0x80 -> f (Z.of_N (N_of_ascii c)) = false ->
  exists Y', strings.trim_left fuel f (Y ++ c :: T) = Y' ++ c :: T.
Proof.
  intros Hc Hf. revert Y. induction fuel as [|fuel IH]; intros Y; [by exists Y|].
  rewrite trim_left_S by (by destruct Y).
  destruct Y as [|y Y].
  { exists []. rewrite !app_nil_l. by rewrite DecodeRune_ascii, Hf. }
  destruct (utf8.DecodeRuneInString _) as [r wid] eqn:Hd.
  destruct (f r); [|by exists (y :: Y)].
  apply DecodeRune_width in Hd as [Hw Hhigh]; [|done].
  assert (wid <= length (y :: Y))%nat as Hle.
  { destruct (decide (wid <= length (y :: Y))%nat) as [|Hn]; [done|exfalso].
    specialize (Hhigh ltac:(simpl in *; lia) (length (y :: Y)) ltac:(lia)).
    rewrite byte_at_middle in Hhigh. lia. }
  rewrite drop_app_le by done. apply IH.
Qed.

Lemma trim_right_keeps (fuel : nat) (f : Z -> bool) (Z : gostring) (c : ascii)
      (W : gostring) :
  Z.of_N (N_of_ascii c) < 0x80 -> f (Z.of_N (N_of_ascii c)) = false ->
  exists W', strings.trim_right fuel f (Z ++ c :: W) = Z ++ c :: W'.
Proof.
  intros Hc Hf. revert W. induction fuel as [|fuel IH]; intros W; [by exists W|].
  rewrite trim_right_S by (by destruct Z).
  destruct (decide (W = [])) as [->|HW].
  { exists []. by rewrite DecodeLast_ascii, Hf. }
  destruct (utf8.DecodeLastRuneInString _) as [r size] eqn:Hd.
  destruct (f r); [|by exists W].
  apply DecodeLast_width in Hd as [Hw Hhigh]; [|by destruct Z].
  rewrite length_app in *. simpl in *.
  assert (size <= length W)%nat as Hle.
  { destruct (decide (size <= length W)%nat) as [|Hn]; [done|exfalso].
    specialize (Hhigh ltac:(destruct W; simpl in *; [done|lia])
                      (length Z) ltac:(lia)).
    rewrite byte_at_middle in Hhigh. lia. }
  replace (length Z + S (length W) - size)%nat
    with (length Z + S (length W - size))%nat by lia.
  rewrite take_app_add'. 2: done. simpl.
  destruct (IH (take (length W - size) W)) as [W' ->]. eauto.
Qed.

Lemma wordlike_first (t : gostring) :
  wordlike t = true -> exists c t', t = c :: t' /\ graphic c = true.
Proof.
  unfold wordlike. destruct t as [|c t']; simpl; [done|].
  intros (Hc & _)%andb_prop. eauto.
Qed.

Lemma wordlike_last (t : gostring) :
  wordlike t = true -> exists t' c, t = t' ++ [c] /\ graphic c = true.
Proof.
  unfold wordlike. intros [Hne Hall]%andb_prop.
  destruct t as [|c0 t0] using rev_ind; [done|].
  rewrite forallb_app in Hall. simpl in Hall. zbool. eauto.
Qed.

Lemma wordlike_no_LF (t : gostring) :
  wordlike t = true -> ("010"%char ∉ t) /\ t <> [].
Proof.
  unfold wordlike. intros [Hne Hall]%andb_prop. split.
  - intros Hin%list_elem_of_In. rewrite forallb_forall in Hall.
    by apply Hall in Hin.
  - apply negb_true_iff, bool_decide_eq_false in Hne. done.
Qed.

(** [TrimSpace] leaves every occurrence of a token in place. *)
Lemma TrimSpace_keeps (A g B : gostring) :
  wordlike g = true ->
  exists A' B', strings.TrimSpace (A ++ g ++ B) = A' ++ g ++ B'.
Proof.
  intros Hg.
  destruct (wordlike_first _ Hg) as (c1 & g1 & Hg1 & [Hc1 Hs1]%graphic_ascii).
  destruct (wordlike_last _ Hg) as (g2 & c2 & Hg2 & [Hc2 Hs2]%graphic_ascii).
  unfold strings.TrimSpace, strings.TrimFunc, strings.TrimRightFunc,
    strings.TrimLeftFunc.
  destruct (trim_left_keeps (length (A ++ g ++ B)) unicode.IsSpace A c1
              (g1 ++ B) Hc1 Hs1) as [A' HA].
  change (c1 :: g1 ++ B) with ((c1 :: g1) ++ B) in HA. rewrite <- Hg1 in HA.
  rewrite HA.
  destruct (trim_right_keeps (length (A' ++ g ++ B)) unicode.IsSpace
              (A' ++ g2) c2 B Hc2 Hs2) as [B' HB].
  rewrite <- app_assoc in HB. change (g2 ++ c2 :: B) with (g2 ++ [c2] ++ B) in HB.
  rewrite (app_assoc g2), <- Hg2 in HB. rewrite HB.
  exists A', B'. rewrite <- app_assoc. change (c2 :: B') with ([c2] ++ B').
  by rewrite (app_assoc g2), <- Hg2.
Qed.

(** ** The token allow-list *)

Section allow_list.
Import os configuration.
Context (Config : Configuration).

(** C1 (as amended). [CheckTokenValidation] is a substring test on the
    identity's list file: it answers true exactly when the file can be
    read and the token occurs somewhere in its content. Every whole entry
    of the list therefore tests as a member, and so does every piece of
    one. *)
Theorem C1_membership_is_substring (fs : FS) (username token : gostring) :
  (methods.CheckTokenValidation Config fs username token = true <->
   exists content,
     ReadFile fs (TokensDir Config ++ str "/" ++ username) = (content, None)
     /\ occurs token content)
  /\ (Contains_exact Config fs username token = true ->
      methods.CheckTokenValidation Config fs username token = true).
Proof.
  unfold methods.CheckTokenValidation, Contains_exact.
  destruct (ReadFile _ _) as [content [e|]] eqn:Hr.
  - split; [|done]. split; [done|]. by intros (c & [= _] & _).
  - split.
    + rewrite Contains_spec. split; [eauto|]. by intros (c & [= <-] & Ho).
    + intros Hin%bool_decide_eq_true. apply Contains_spec.
      unfold strings.Split in Hin. simpl in Hin.
      by apply split_go_occurs in Hin.
Qed.

(** C4 (as amended). After a successful [SetTokenValidation] the token
    tests as a member. In a list of lines where a token without white
    space is stored once and occurs in no other line, a successful
    [RemoveTokenValidation] makes it test as a non-member and leaves every
    other stored token without white space a member. *)
Theorem C4_roundtrip (fs : FS) (username token : gostring) :
  wordlike token = true ->
  (forall fs',
     methods.SetTokenValidation Config fs username token = (fs', true) ->
     methods.CheckTokenValidation Config fs' username token = true)
  /\ (forall L1 L2 fs',
        ReadFile fs (TokensDir Config ++ str "/" ++ username)
        = (lines (L1 ++ token :: L2), None) ->
        forallb (fun l => negb (strings.Contains l token)) (L1 ++ L2) = true ->
        methods.RemoveTokenValidation Config fs username token = (fs', true) ->
        methods.CheckTokenValidation Config fs' username token = false
        /\ forall t2, t2 ∈ L1 ++ L2 -> wordlike t2 = true ->
             methods.CheckTokenValidation Config fs username t2 = true
             /\ methods.CheckTokenValidation Config fs' username t2 = true).
Proof.
  intros Hw. destruct (wordlike_no_LF _ Hw) as [Hlf Hne]. split.
  - intros fs' (Hf & ->)%SetTokenValidation_true.
    rewrite (CheckTokenValidation_read _ _ _ _ _ (ReadFile_insert _ _ _ Hf)).
    apply Contains_spec. by eexists _, _.
  - intros L1 L2 fs' Hr Hall (content & Hr' & ->)%RemoveTokenValidation_true.
    rewrite Hr in Hr'. injection Hr' as <-.
    pose proof (proj1 (ReadFile_ok _ _ _) Hr) as [Hf _].
    rewrite forallb_forall in Hall.
    assert (forall l, l ∈ L1 ++ L2 -> ~ occurs token l) as Hno.
    { intros l Hl%list_elem_of_In%Hall. by apply Contains_false, negb_true_iff. }
    change (str "") with (@nil ascii).
    assert (strings.Replace (lines (L1 ++ token :: L2)) token [] 1
            = lines (L1 ++ [] :: L2)) as ->.
    { destruct (Replace_first (lines (L1 ++ token :: L2)) token)
        as (pre & post & -> & [[Hs Hl]|[_ [?|Hn]]]); [|done|].
      - rewrite lines_app, lines_cons, <- ?app_assoc in Hs.
        assert (pre = lines L1) as ->.
        { eapply first_occurrence_lines; [done|done| |exact Hs|].
          - intros l Hl'. apply Hno. set_solver.
          - pose proof (Index_least (lines (L1 ++ token :: L2)) token
                          (lines L1) (LF ++ lines L2)) as Hi.
            specialize (Hi ltac:(by rewrite lines_app, lines_cons)).
            unfold len in *. lia. }
        apply app_inv_head, app_inv_head in Hs. subst post.
        by rewrite lines_app, lines_cons.
      - exfalso. apply Hn, occurs_line. set_solver. }
    split.
    + rewrite (CheckTokenValidation_read _ _ _ _ _ (ReadFile_insert _ _ _ Hf)).
      apply Contains_false. intros [Ho|Ho]%occurs_sep; [| |done].
      * pose proof (occurs_trans _ _ _ Ho (TrimSpace_occurs _)) as Ho'.
        apply occurs_lines in Ho' as (l & Hl & Hol); [|done..].
        apply elem_of_app in Hl as [Hl|[->|Hl]%elem_of_cons].
        -- apply (Hno l); [set_solver|done].
        -- by apply occurs_nil_inv in Hol.
        -- apply (Hno l); [set_solver|done].
      * by apply occurs_nil_inv in Ho.
    + intros t2 Ht2 Hw2. split.
      * rewrite (CheckTokenValidation_read _ _ _ _ _ Hr).
        apply Contains_spec, occurs_line.
        apply elem_of_app in Ht2 as [?|?]; apply elem_of_app; [by left|].
        right. by right.
      * rewrite (CheckTokenValidation_read _ _ _ _ _ (ReadFile_insert _ _ _ Hf)).
        apply Contains_spec.
        assert (occurs t2 (lines (L1 ++ [] :: L2))) as (A & B & ->).
        { apply occurs_line.
          apply elem_of_app in Ht2 as [?|?]; apply elem_of_app; [by left|].
          right. by right. }
        destruct (TrimSpace_keeps A t2 B Hw2) as (A' & B' & ->).
        exists A', (B' ++ LF). by rewrite <- ?app_assoc.
Qed.

(** C7 (as amended). [SetTokenValidation] appends the token on every
    call, whether or not it is already listed: after two successful calls
    with the same token without white space, one [RemoveTokenValidation]
    deletes a single copy and the token still tests as a member. *)
Theorem C7_duplicate_survives_one_remove (fs fs1 fs2 fs3 : FS)
        (username token : gostring) :
  wordlike token = true ->
  methods.SetTokenValidation Config fs username token = (fs1, true) ->
  methods.SetTokenValidation Config fs1 username token = (fs2, true) ->
  methods.RemoveTokenValidation Config fs2 username token = (fs3, true) ->
  methods.CheckTokenValidation Config fs3 username token = true.
Proof.
  intros Hw (Hf & ->)%SetTokenValidation_true (_ & ->)%SetTokenValidation_true
         (content & Hr & ->)%RemoveTokenValidation_true.
  apply ReadFile_ok in Hr as [_ Hr]. simpl in Hr.
  rewrite !lookup_insert_eq in Hr. simpl in Hr. injection Hr as <-.
  erewrite CheckTokenValidation_read;
    [|apply ReadFile_ok; simpl; split; [done|apply lookup_insert_eq]].
  set (old := default [] _). clearbody old.
  destruct (wordlike_no_LF _ Hw) as [Hlf Hne].
  apply Contains_spec.
  destruct (Replace_first ((old ++ token ++ LF) ++ token ++ LF) token)
    as (pre & post & -> & [[Hs Hl]|[_ [?|Hn]]]); [|done|].
  - assert (exists e, post = e ++ LF ++ token ++ LF) as [e ->].
    { pose proof (Index_least ((old ++ token ++ LF) ++ token ++ LF) token old
                    (LF ++ token ++ LF)) as Hi.
      specialize (Hi ltac:(by rewrite <- ?app_assoc)).
      rewrite <- ?app_assoc in Hs.
      apply app_eq_inv in Hs as [(k & -> & Hk)|(k & -> & Hk)].
      - symmetry in Hk. rewrite (app_assoc k) in Hk.
        apply app_eq_inv in Hk as [(k2 & Hk2 & ->)|(k2 & Hk2 & Hp)].
        + by exists k2.
        + apply (f_equal length) in Hk2. rewrite !length_app in Hk2.
          destruct k2; [|simpl in Hk2; lia]. exists []. by rewrite Hp.
      - unfold len in *. rewrite length_app in Hl.
        destruct k; [|simpl in *; lia]. simpl in Hk.
        apply app_inv_head in Hk. exists []. by rewrite <- Hk. }
    destruct (TrimSpace_keeps (pre ++ e ++ LF) token LF Hw) as (A' & B' & He).
    rewrite <- ?app_assoc in He. rewrite He.
    exists A', (B' ++ LF). by rewrite <- ?app_assoc.
  - exfalso. apply Hn. exists old, (LF ++ token ++ LF). by rewrite <- ?app_assoc.
Qed.

End allow_list.

(** C1, counterexample. With the list ["abc\n"] the string ["b"] tests as
    a member although the only entries are ["abc"] and the empty piece
    after the last line feed. *)
Lemma C1_counterexample :
  ~ (forall fs username token,
       methods.CheckTokenValidation sample_config fs username token = true
       <-> Contains_exact sample_config fs username token = true).
Proof.
  intros Hc.
  destruct (Hc (store_with_list (str "abc" ++ LF)) (str "alice") (str "b"))
    as [Hc1 _].
  vm_compute in Hc1. discriminate (Hc1 eq_refl).
Qed.

(** C4, counterexample. The list holds ["abc"] and ["b"]; removing ["b"]
    cuts the first ["b"] of the file, which is inside ["abc"]: afterwards
    ["b"] is still a member and ["abc"] no longer is. *)
Lemma C4_counterexample :
  let fs := store_with_list (lines [str "abc"; str "b"]) in
  let r := methods.RemoveTokenValidation sample_config fs (str "alice") (str "b") in
  r.2 = true
  /\ methods.CheckTokenValidation sample_config fs (str "alice") (str "abc") = true
  /\ methods.CheckTokenValidation sample_config r.1 (str "alice") (str "b") = true
  /\ methods.CheckTokenValidation sample_config r.1 (str "alice") (str "abc") = false.
Proof. vm_compute. auto. Qed.

Lemma C4_witness :
  let fs := store_with_list (lines [str "aaa.bbb.ccc"; str "xxx.yyy.zzz"; str "ddd.eee.fff"]) in
  let token := str "xxx.yyy.zzz" in
  let added := methods.SetTokenValidation sample_config fs (str "alice") token in
  let removed := methods.RemoveTokenValidation sample_config fs (str "alice") token in
  wordlike token = true
  /\ added.2 = true
  /\ methods.CheckTokenValidation sample_config added.1 (str "alice") token = true
  /\ removed.2 = true
  /\ methods.CheckTokenValidation sample_config removed.1 (str "alice") token = false
  /\ methods.CheckTokenValidation sample_config removed.1 (str "alice") (str "ddd.eee.fff") = true.
Proof.
  intros fs token added removed.
  destruct (C4_roundtrip sample_config fs (str "alice") token eq_refl)
    as [Hadd Hrem].
  split; [reflexivity|]. split; [reflexivity|].
  split; [apply Hadd; vm_compute; reflexivity|].
  split; [vm_compute; reflexivity|].
  destruct (Hrem [str "aaa.bbb.ccc"] [str "ddd.eee.fff"] removed.1) as [Hgone Hkept].
  - vm_compute; reflexivity.
  - vm_compute; reflexivity.
  - vm_compute; reflexivity.
  - split; [exact Hgone|].
    apply (Hkept (str "ddd.eee.fff")); [|reflexivity].
    apply elem_of_app. right. apply list_elem_of_singleton. reflexivity.
Defined.

(** C7, counterexample. Two calls of [SetTokenValidation] with ["tok"] on
    an empty store leave the file ["tok\ntok\n"]; one
    [RemoveTokenValidation] leaves ["tok\n"], and the token is still a
    member. *)
Lemma C7_counterexample :
  let a1 := methods.SetTokenValidation sample_config empty_store (str "alice") (str "tok") in
  let a2 := methods.SetTokenValidation sample_config a1.1 (str "alice") (str "tok") in
  let r := methods.RemoveTokenValidation sample_config a2.1 (str "alice") (str "tok") in
  a1.2 = true /\ a2.2 = true /\ r.2 = true
  /\ os.files r.1 !! str "/t/alice" = Some (str "tok" ++ LF)
  /\ methods.CheckTokenValidation sample_config r.1 (str "alice") (str "tok") = true.
Proof. vm_compute. auto. Qed.

Lemma C7_witness :
  let token := str "aaa.bbb.ccc" in
  let a1 := methods.SetTokenValidation sample_config empty_store (str "alice") token in
  let a2 := methods.SetTokenValidation sample_config a1.1 (str "alice") token in
  let r := methods.RemoveTokenValidation sample_config a2.1 (str "alice") token in
  wordlike token = true /\ a1.2 = true /\ a2.2 = true /\ r.2 = true
  /\ methods.CheckTokenValidation sample_config r.1 (str "alice") token = true.
Proof.
  intros token a1 a2 r.
  split; [reflexivity|]. split; [reflexivity|]. split; [reflexivity|].
  split; [vm_compute; reflexivity|].
  apply (C7_duplicate_survives_one_remove sample_config empty_store
           a1.1 a2.1 r.1 (str "alice") token);
    vm_compute; reflexivity.
Defined.

(** ** The authorization gate and the login *)

Section gate.
Import os configuration.
Context (Config : Configuration) `{jwtl.Codec}.

(** C2 (as amended). The [Authorizator] tests every token against the
    allow-list of its identity and never looks at the ["2fa"] claim: for
    all claims that name an identity, whatever else they hold, the
    request proceeds exactly when [CheckTokenValidation] answers true. *)
Theorem C2_gate_checks_every_token (fs : FS) (claims : jwtl.MapClaims)
        (raw id : gostring) :
  jwtl.get claims "id" = jwtl.VString id ->
  middleware.Authorizator Config fs claims raw
  = Done (methods.CheckTokenValidation Config fs id raw).
Proof.
  intros Hid. unfold middleware.Authorizator. rewrite Hid.
  cbn [obind assert_string].
  by destruct (methods.CheckTokenValidation Config fs id raw).
Qed.


(** C8. A token whose header names an algorithm other than HS256, HS384
    or HS512 (["none"] included) is refused by [ValidateAuth], whatever
    its claims and its signature are. *)
Theorem C8_unexpected_algorithm_rejected (fs : FS) (tokenString : gostring)
        (ensureTokenExists : bool) (p0 p1 p2 : gostring)
        (header : gmap gostring jwtl.value) (alg : gostring) :
  strings.Split tokenString (str ".") = [p0; p1; p2] ->
  jwtl.DecodeHeader p0 = Some header ->
  jwtl.get header "alg" = jwtl.VString alg ->
  alg ∉ [str "HS256"; str "HS384"; str "HS512"] ->
  methods.ValidateAuth Config fs tokenString ensureTokenExists = Done false.
Proof.
  intros Hsplit Hhdr Halg Hnot. unfold methods.ValidateAuth.
  case_bool_decide; [done|]. simpl.
  unfold jwtl.Parse, jwtl.ParseUnverified. rewrite Hsplit, Hhdr.
  destruct (jwtl.DecodeClaims p1); [|done]. rewrite Halg.
  unfold jwtl.GetSigningMethod. rewrite bool_decide_eq_false_2 by done.
  repeat case_bool_decide; done.
Qed.

End gate.

(** C2, counterexample. The claims issued to a user without a secret
    carry ["2fa" = false]; with a token that is not in the list (never
    admitted, or removed at logout) the gate refuses the request. *)
Lemma C2_counterexample :
  jwtl.get alice_claims "2fa" = jwtl.VBool false
  /\ jwtl.get alice_claims "id" = jwtl.VString (str "alice")
  /\ middleware.Authorizator sample_config empty_store alice_claims
       (str "aaa.bbb.ccc") = Done false.
Proof. vm_compute. auto. Qed.

Lemma C2_witness :
  jwtl.get alice_claims "id" = jwtl.VString (str "alice")
  /\ jwtl.get alice_claims "2fa" = jwtl.VBool false
  /\ middleware.Authorizator sample_config store_enabled alice_claims
       (str "aaa.bbb.ccc")
     = Done (methods.CheckTokenValidation sample_config store_enabled
               (str "alice") (str "aaa.bbb.ccc")).
Proof.
  split; [reflexivity|]. split; [reflexivity|].
  apply (C2_gate_checks_every_token sample_config store_enabled alice_claims).
  reflexivity.
Defined.

Lemma C8_witness :
  strings.Split (str "none.alice.key") (str ".")
  = [str "none"; str "alice"; str "key"]
  /\ methods.ValidateAuth (H := sample_codec) sample_config empty_store
       (str "none.alice.key") false = Done false
  /\ methods.ValidateAuth (H := sample_codec) sample_config empty_store
       (str "HS256.alice.key") false = Done true.
Proof.
  split; [reflexivity|]. split; [|vm_compute; reflexivity].
  apply (C8_unexpected_algorithm_rejected sample_config (H := sample_codec)
           empty_store (str "none.alice.key") false
           (str "none") (str "alice") (str "key")
           {[ str "alg" := jwtl.VString (str "none") ]} (str "none")).
  - reflexivity.
  - reflexivity.
  - reflexivity.
  - apply (bool_decide_unpack _). vm_compute. exact I.
Defined.

(** ** The secret store *)

Lemma parent_none (n : gostring) : "/"%char ∉ n -> os.parent n = None.
Proof.
  induction n as [|c n IH]; [done|]. intros Hn. simpl.
  rewrite IH by set_solver. rewrite bool_decide_eq_false_2; [done|set_solver].
Qed.

Lemma parent_app_name (d n : gostring) :
  "/"%char ∉ n -> os.parent (d ++ "/"%char :: n) = Some d.
Proof.
  intros Hn. induction d as [|c d IH]; simpl.
  - by rewrite parent_none.
  - by rewrite IH.
Qed.

Lemma parent_length (p d : gostring) :
  os.parent p = Some d -> (length d < length p)%nat.
Proof.
  revert d. induction p as [|c p IH]; intros d; simpl; [done|].
  destruct (os.parent p) as [d'|].
  - intros [= <-]. specialize (IH d' eq_refl). simpl. lia.
  - case_bool_decide; [|done]. intros [= <-]. simpl. lia.
Qed.

Lemma ancestors_length (fuel : nat) (p q : gostring) :
  q ∈ os.ancestors fuel p -> (length q < length p)%nat.
Proof.
  revert p. induction fuel as [|fuel IH]; intros p; simpl; [set_solver|].
  destruct (os.parent p) as [[|c d]|] eqn:Hp; [set_solver| |set_solver].
  apply parent_length in Hp. intros [->|Hq%IH]%elem_of_cons; lia.
Qed.

(** After an open that truncates, a write leaves what it has written. *)
Lemma written_trunc (fs : os.FS) (p s : gostring) :
  written (opened fs p (Z.lor (Z.lor os.O_RDWR os.O_CREATE) os.O_TRUNC))
          (Z.lor (Z.lor os.O_RDWR os.O_CREATE) os.O_TRUNC) s = s.
Proof.
  unfold written, opened. destruct has_trunc_set as [-> ->].
  by rewrite drop_nil, app_nil_r.
Qed.

Section secrets.
Import os configuration.
Context (Config : Configuration) `{jwtl.Codec}.

Lemma secret_path_split (username : gostring) :
  SecretsDir Config ++ str "/" ++ username ++ str "/secret"
  = (SecretsDir Config ++ str "/" ++ username) ++ "/"%char :: str "secret".
Proof. by rewrite <- !app_assoc. Qed.

Lemma status_secret_differ (username : gostring) :
  SecretsDir Config ++ str "/" ++ username ++ str "/status"
  <> SecretsDir Config ++ str "/" ++ username ++ str "/secret".
Proof. intros Heq. by do 3 apply app_inv_head in Heq. Qed.

(** C5. For an identity without a secret and a store that takes the
    write, [SetUserSecret] with a first (non-empty) value succeeds and
    returns it; a later call with any other value succeeds too, returns
    the first value again and leaves the store as it is. *)
Theorem C5_set_secret_idempotent (fs : FS) (username secret1 secret2 : gostring) :
  secret1 <> [] ->
  methods.GetUserSecret Config fs username = [] ->
  (SecretsDir Config ++ str "/" ++ username ++ str "/secret") ∉ faulty fs ->
  (SecretsDir Config ++ str "/" ++ username ++ str "/secret") ∉ dirs fs ->
  (SecretsDir Config ++ str "/" ++ username) ∈ dirs fs
  \/ (MkdirAll fs (SecretsDir Config ++ str "/" ++ username) mode_0700).2 = None ->
  exists fs1,
    methods.SetUserSecret Config fs username secret1 = (fs1, (true, secret1))
    /\ methods.SetUserSecret Config fs1 username secret2 = (fs1, (true, secret1))
    /\ methods.GetUserSecret Config fs1 username = secret1.
Proof.
  intros Hne Hnone Hfault Hnodir Hdir.
  set (p := SecretsDir Config ++ str "/" ++ username ++ str "/secret") in *.
  assert (p ∉ denied fs) as Hfaulty.
  { intros Hin. apply Hfault. unfold faulty. by apply elem_of_union_l. }
  assert (forall k, short fs !! p = Some k -> (length secret1 <= k)%nat)
    as Hshort.
  { intros k Hk. exfalso. apply Hfault. unfold faulty.
    apply elem_of_union_r, elem_of_dom. by exists k. }
  set (d := SecretsDir Config ++ str "/" ++ username) in *.
  assert (parent p = Some d) as Hparent.
  { unfold p, d. rewrite secret_path_split. apply parent_app_name.
    apply (bool_decide_unpack _). vm_compute. exact I. }
  (* the store after the directory check *)
  set (fsd := if IsNotExist (Stat fs d) then (MkdirAll fs d mode_0700).1 else fs).
  assert (dir_path p = false) as Hnoslash.
  { unfold dir_path, p. apply bool_decide_eq_false_2.
    change (str "/secret") with (str "/secre" ++ ["t"%char]).
    rewrite !app_assoc, last_snoc. by intros [= ?]. }
  assert (files fsd = files fs /\ denied fsd = denied fs /\ short fsd = short fs
          /\ (p ∉ dirs fsd) /\ d ∈ dirs fsd)
    as (Hfiles & Hfty & Hsh & Hpd & Hdd).
  { unfold fsd.
    destruct (decide (d ∈ dirs fs)) as [Hd|Hd].
    - assert (IsNotExist (Stat fs d) = false) as ->; [|done].
      unfold IsNotExist, Stat. rewrite (bool_decide_eq_true_2 (d ∈ dirs fs)) by done.
      simpl. destruct (bool_decide (d ∈ denied fs)); by apply bool_decide_eq_false_2.
    - destruct Hdir as [?|Hmk]; [done|]. unfold MkdirAll in *.
      destruct (existsb (fun q => bool_decide (q ∈ denied fs)) _) eqn:Hex1;
        [done|].
      destruct (existsb (fun q => bool_decide (is_Some (files fs !! q))) _)
        eqn:Hex2; [done|]. clear Hmk.
      simpl in Hex1, Hex2.
      apply orb_false_iff in Hex1 as [Hfd _], Hex2 as [Hfile _].
      assert (IsNotExist (Stat fs d) = true) as ->.
      { unfold IsNotExist, Stat. rewrite Hfd, Hfile.
        by rewrite (bool_decide_eq_false_2 (d ∈ dirs fs)). }
      simpl. repeat split; try done.
      + intros [Hin|Hin]%elem_of_union; [done|].
        assert (length p <= length d)%nat; [|apply parent_length in Hparent; lia].
        apply elem_of_union in Hin as [->%elem_of_singleton|Hin]; [lia|].
        apply elem_of_list_to_set, ancestors_length in Hin. lia.
      + set_solver. }
  assert (files fs !! p = None \/ files fs !! p = Some []) as Hold.
  { unfold methods.GetUserSecret in Hnone. fold p in Hnone.
    unfold ReadFile in Hnone. rewrite bool_decide_eq_false_2 in Hnone by done.
    destruct (files fs !! p); [right; by rewrite Hnone|by left]. }
  exists (mkFS (<[p := secret1]> (files fs)) (dirs fsd) (denied fs) (short fs)).
  assert (methods.SetUserSecret Config fs username secret1
          = (mkFS (<[p := secret1]> (files fs)) (dirs fsd) (denied fs) (short fs),
             (true, secret1))) as Hfirst.
  { unfold methods.SetUserSecret. fold p d.
    assert ((len (ReadFile fs p).1 =? 0) = true) as Hlen.
    { unfold ReadFile. rewrite bool_decide_eq_false_2 by done.
      by destruct Hold as [-> | ->]. }
    destruct (ReadFile fs p) as [secretB e]. simpl in Hlen. rewrite Hlen.
    fold fsd.
    destruct (OpenFile fsd p _ _) as [[fs1 f] e1] eqn:Ho.
    destruct (WriteString fs1 f secret1) as [[fs2 n] err] eqn:Hw.
    assert (exists h, f = Some h) as [h ->].
    { unfold OpenFile in Ho. rewrite Hfty, Hfiles, Hnoslash in Ho.
      rewrite !bool_decide_eq_false_2 in Ho by done. cbn [orb] in Ho.
      unfold parent_exists in Ho. rewrite Hparent in Ho.
      destruct Hold as [Hold|Hold]; rewrite Hold in Ho.
      - change (has (Z.lor O_WRONLY O_CREATE) O_CREATE) with true in Ho.
        destruct d; [injection Ho as <- <- <-; eauto|].
        rewrite bool_decide_eq_true_2 in Ho by done.
        injection Ho as <- <- <-; eauto.
      - change (has (Z.lor O_WRONLY O_CREATE) O_TRUNC) with false in Ho.
        injection Ho as <- <- <-; eauto. }
    pose proof (open_write _ _ _ _ _ _ _ _ _ _ _ Ho Hw) as Hs.
    destruct err as [e2|].
    { destruct Hs as [[? _]|(k & Hk & Hlt & _)]; [done|].
      rewrite Hsh in Hk. apply Hshort in Hk. lia. }
    destruct Hs as (_ & _ & ->).
    unfold Close, written, opened. rewrite Hfiles, Hfty, Hsh.
    destruct has_create_only as [-> ->]. do 3 f_equal.
    destruct Hold as [-> | ->]; simpl; by rewrite drop_nil, app_nil_r. }
  assert (ReadFile (mkFS (<[p := secret1]> (files fs)) (dirs fsd) (denied fs)
                         (short fs)) p
          = (secret1, None)) as Hread.
  { apply ReadFile_ok. simpl. by rewrite lookup_insert_eq. }
  split; [done|]. split.
  - unfold methods.SetUserSecret. fold p. rewrite Hread.
    destruct secret1; [done|]. done.
  - unfold methods.GetUserSecret. fold p. by rewrite Hread.
Qed.

Lemma Remove_files (fs fs1 : FS) (p q : gostring) (e : error) :
  Remove fs p = (fs1, e) ->
  denied fs1 = denied fs /\ short fs1 = short fs
  /\ (q <> p -> files fs1 !! q = files fs !! q)
  /\ (e <> None -> fs1 = fs)
  /\ (e = None -> (p ∉ denied fs) /\ files fs1 !! p = None).
Proof.
  unfold Remove. case_bool_decide as Hf; [by intros [= <- <-]|].
  destruct (files fs !! p) eqn:Hp.
  - intros [= <- <-]. cbn [files denied short]. repeat split; try done.
    + intros Hq. by rewrite lookup_delete_ne.
    + by rewrite lookup_delete_eq.
  - repeat case_match; intros [= <- <-]; repeat split; done.
Qed.

(** C6. [Del2FAStatus] is two steps, not one. It first removes the
    secret file: when that fails it answers with the 403 error and the
    store, status flag included, is what it was. When the removal has
    succeeded the secret reads as absent whatever follows, and the
    handler writes ["0"] to the status flag: if the store takes that
    write it answers 200, and the identity reads as disabled; if not it
    answers 400 with the secret already gone, the flag being what it was
    or empty. The flag changes only after the removal has succeeded. *)
Theorem C6_disable_is_two_steps (fs : FS) (claims : jwtl.MapClaims)
        (id : gostring) :
  jwtl.get claims "id" = jwtl.VString id ->
  exists fs' resp,
    methods.Del2FAStatus Config fs claims = Done (fs', resp)
    /\ ((Remove fs (SecretsDir Config ++ str "/" ++ id ++ str "/secret")).2 <> None ->
        fs' = fs
        /\ resp = response.mkResponse 400 403
                     (str "Error in revocate 2FA for user") response.DNil)
    /\ ((Remove fs (SecretsDir Config ++ str "/" ++ id ++ str "/secret")).2 = None ->
        methods.GetUserSecret Config fs' id = []
        /\ (writable
              (Remove fs (SecretsDir Config ++ str "/" ++ id ++ str "/secret")).1
              (SecretsDir Config ++ str "/" ++ id ++ str "/status") (str "0")
            = true ->
            resp = response.mkResponse 200 200 (str "2FA revocate successfully")
                                       (response.DString (str ""))
            /\ files fs' !! (SecretsDir Config ++ str "/" ++ id ++ str "/status")
               = Some (str "0")
            /\ methods.Get2FAStatus Config fs' claims
               = Done (response.mkResponse 200 200
                         (str "2FA not set for this user") (response.DBool false)))
        /\ (writable
              (Remove fs (SecretsDir Config ++ str "/" ++ id ++ str "/secret")).1
              (SecretsDir Config ++ str "/" ++ id ++ str "/status") (str "0")
            = false ->
            resp = response.mkResponse 400 400 (str "2FA not revocated")
                                       (response.DString (str ""))
            /\ (files fs' !! (SecretsDir Config ++ str "/" ++ id ++ str "/status")
                = files fs !! (SecretsDir Config ++ str "/" ++ id ++ str "/status")
                \/ files fs' !! (SecretsDir Config ++ str "/" ++ id ++ str "/status")
                   = Some [])))
    /\ (files fs' !! (SecretsDir Config ++ str "/" ++ id ++ str "/status")
        <> files fs !! (SecretsDir Config ++ str "/" ++ id ++ str "/status") ->
        (Remove fs (SecretsDir Config ++ str "/" ++ id ++ str "/secret")).2 = None).
Proof.
  intros Hid. unfold methods.Del2FAStatus. rewrite Hid. cbn [obind assert_string].
  set (secret := SecretsDir Config ++ str "/" ++ id ++ str "/secret").
  set (status := SecretsDir Config ++ str "/" ++ id ++ str "/status").
  assert (status <> secret) as Hdiff by apply status_secret_differ.
  destruct (Remove fs secret) as [fs1 errRevocate] eqn:Hrm. cbn [fst snd].
  destruct (Remove_files _ _ _ status _ Hrm) as (Hfty & Hsh & Hother & Hfail & Hok).
  specialize (Hother Hdiff).
  destruct errRevocate as [e|].
  { rewrite (Hfail ltac:(done)). eexists _, _. split; [done|].
    split; [done|]. split; [done|]. done. }
  destruct (Hok eq_refl) as [Hnf Hgone]. clear Hfail Hok.
  destruct (OpenFile fs1 status _ _) as [[fs2 f] e1] eqn:Ho.
  destruct (WriteString fs2 f (str "0")) as [[fs3 n] err] eqn:Hw.
  pose proof (open_write _ _ _ _ _ _ _ _ _ _ _ Ho Hw) as Hs.
  pose proof (open_write_ok _ _ _ _ _ (Z.lor (Z.lor O_RDWR O_CREATE) O_TRUNC)
                _ _ _ _ _ eq_refl Ho Hw) as Hiff.
  unfold Close.
  assert (forall fs4 : FS,
            denied fs4 = denied fs1 ->
            files fs4 = files fs1 \/ files fs4 = <[status := []]> (files fs1)
            \/ files fs4 = <[status := str "0"]> (files fs1) ->
            methods.GetUserSecret Config fs4 id = []) as Hsecret.
  { intros fs4 Hf4 Hfiles. unfold methods.GetUserSecret. fold secret.
    unfold ReadFile. rewrite Hf4, Hfty, bool_decide_eq_false_2 by done.
    destruct Hfiles as [-> | [-> | ->]];
      rewrite ?lookup_insert_ne by done; by rewrite Hgone. }
  destruct err as [e2|].
  - assert (writable fs1 status (str "0") = false) as Hnw.
    { destruct (writable fs1 status (str "0")); [|done].
      by destruct Hiff as [_ Hiff]; specialize (Hiff eq_refl). }
    destruct Hs as [[-> ->]|(k & Hk & Hlt & _ & _ & ->)].
    + eexists _, _. split; [done|]. split; [done|]. split.
      * intros _. split; [apply Hsecret; [done|by left]|].
        split; [by rewrite Hnw|]. intros _. split; [done|]. by left.
      * by rewrite Hother.
    + assert (k = 0%nat) as -> by (cbn [length str list_ascii_of_string] in Hlt; lia).
      rewrite written_trunc. cbn [take].
      eexists _, _. split; [done|]. split; [done|]. split; [|done].
      intros _. split; [apply Hsecret; [done|]; cbn [files]; auto|].
      split; [by rewrite Hnw|]. intros _. split; [done|]. right.
      cbn [files]. by rewrite lookup_insert_eq.
  - assert (writable fs1 status (str "0") = true) as Hwr by by apply Hiff.
    destruct Hs as (Hsf & _ & ->). rewrite written_trunc.
    eexists _, _. split; [done|]. split; [done|]. split; [|done].
    intros _. split; [apply Hsecret; [done|]; cbn [files]; auto|].
    split; [|by rewrite Hwr]. intros _. split; [done|]. split.
    + cbn [files]. by rewrite lookup_insert_eq.
    + unfold methods.Get2FAStatus. rewrite Hid. cbn [obind assert_string].
      fold status. unfold ReadFile. cbn [files denied].
      rewrite bool_decide_eq_false_2 by done.
      rewrite lookup_insert_eq. reflexivity.
Qed.

End secrets.

Section otp_verify.
Import os configuration.
Context (Config : Configuration) `{jwtl.Codec}.

Lemma written_opened_trunc (fs : FS) (p s : gostring) :
  written (opened fs p (Z.lor (Z.lor O_RDWR O_CREATE) O_TRUNC))
          (Z.lor (Z.lor O_RDWR O_CREATE) O_TRUNC) s = s.
Proof.
  unfold written, opened. destruct has_trunc_set as [-> ->].
  by rewrite drop_nil, app_nil_r.
Qed.

(** C3. Take a request whose token is valid, whose user has a secret
    and whose one-time password is accepted, the status flag reading
    ["0"] or nothing. [OTPVerify] answers 200 exactly when the store
    takes the write of the token's line to the list file and the write
    of ["1"] to the status flag. Then the list file holds the line of
    the presented token and nothing else, whatever it held before, the
    flag holds ["1"], and a string tests as a member exactly when it
    occurs in that line: an earlier token stays a member when, and only
    when, it is a piece of the presented one. Otherwise it answers 400
    and what has been done stays done: the flag is what it was or empty,
    and the list is what it was or a part of the new line, the earlier
    tokens gone. *)
Theorem C3_first_enablement_clears_list (fs : FS) (now : Z)
        (jsonOTP : models.OTPJson) :
  methods.ValidateAuth Config fs (models.Token jsonOTP) false = Done true ->
  methods.GetUserSecret Config fs (models.Username jsonOTP) <> [] ->
  dgoogauth.Authenticate
    (otp_config (methods.GetUserSecret Config fs (models.Username jsonOTP)))
    now (models.OTP jsonOTP) = (true, None) ->
  (let statusOld :=
     strings.TrimSpace
       (ReadFile fs (SecretsDir Config ++ str "/" ++ models.Username jsonOTP
                     ++ str "/status")).1 in
   statusOld = str "0" \/ statusOld = str "") ->
  TokensDir Config ++ str "/" ++ models.Username jsonOTP
  <> SecretsDir Config ++ str "/" ++ models.Username jsonOTP ++ str "/status" ->
  exists fs' resp,
    methods.OTPVerify Config fs now (inl jsonOTP) = Done (fs', resp)
    /\ (writable fs (TokensDir Config ++ str "/" ++ models.Username jsonOTP)
                 (models.Token jsonOTP ++ LF)
        && writable fs (SecretsDir Config ++ str "/" ++ models.Username jsonOTP
                        ++ str "/status") (str "1") = true ->
        resp = response.mkResponse 200 200 (str "OTP verified")
                 (response.DString (models.Token jsonOTP))
        /\ files fs' !! (TokensDir Config ++ str "/" ++ models.Username jsonOTP)
           = Some (models.Token jsonOTP ++ LF)
        /\ files fs' !! (SecretsDir Config ++ str "/" ++ models.Username jsonOTP
                         ++ str "/status") = Some (str "1")
        /\ forall t,
             methods.CheckTokenValidation Config fs' (models.Username jsonOTP) t
             = true
             <-> occurs t (models.Token jsonOTP ++ LF))
    /\ (writable fs (TokensDir Config ++ str "/" ++ models.Username jsonOTP)
                 (models.Token jsonOTP ++ LF)
        && writable fs (SecretsDir Config ++ str "/" ++ models.Username jsonOTP
                        ++ str "/status") (str "1") = false ->
        response.Status resp = 400 /\ response.Code resp = 400
        /\ (files fs' !! (TokensDir Config ++ str "/" ++ models.Username jsonOTP)
            = files fs !! (TokensDir Config ++ str "/" ++ models.Username jsonOTP)
            \/ exists k,
                 files fs' !! (TokensDir Config ++ str "/"
                               ++ models.Username jsonOTP)
                 = Some (take k (models.Token jsonOTP ++ LF)))
        /\ (files fs' !! (SecretsDir Config ++ str "/" ++ models.Username jsonOTP
                          ++ str "/status")
            = files fs !! (SecretsDir Config ++ str "/" ++ models.Username jsonOTP
                           ++ str "/status")
            \/ files fs' !! (SecretsDir Config ++ str "/"
                             ++ models.Username jsonOTP ++ str "/status")
               = Some [])).
Proof.
  intros Hvalid Hsecret Hauth Hold Hdiff. unfold methods.OTPVerify.
  set (tp := TokensDir Config ++ str "/" ++ models.Username jsonOTP) in *.
  set (sp := SecretsDir Config ++ str "/" ++ models.Username jsonOTP
             ++ str "/status") in *.
  set (line := models.Token jsonOTP ++ LF).
  rewrite Hvalid. cbn [obind negb].
  assert ((len (methods.GetUserSecret Config fs (models.Username jsonOTP)) =? 0)
          = false) as ->.
  { destruct (methods.GetUserSecret _ _ _); [done|]. reflexivity. }
  unfold otp_config in Hauth. rewrite Hauth. cbn [negb orb].
  rewrite (bool_decide_eq_false_2 (None <> None)) by (by intros ?).
  destruct (ReadFile fs sp) as [status e0]. cbn [fst] in Hold.
  assert (bool_decide (strings.TrimSpace status = str "0")
          || bool_decide (strings.TrimSpace status = str "") = true) as ->.
  { destruct Hold as [-> | ->]; by vm_compute. }
  (* the list is emptied *)
  destruct (OpenFile fs tp _ _) as [[fsa f] e1] eqn:Ho.
  destruct (WriteString fsa f (str "")) as [[fsb n] err1] eqn:Hw.
  pose proof (open_write _ _ _ _ _ _ _ _ _ _ _ Ho Hw) as Hs.
  pose proof (open_write_ok _ _ _ _ _ (Z.lor (Z.lor O_RDWR O_CREATE) O_TRUNC)
                _ _ _ _ _ eq_refl Ho Hw) as Hiff.
  unfold Close.
  destruct err1 as [e2|].
  { assert (fsb = fs) as ->.
    { destruct Hs as [[_ ->]|(k & _ & Hk & _)]; [done|]. simpl in Hk. lia. }
    assert (writable fs tp line = false) as Hnw.
    { destruct (writable fs tp line) eqn:Hwr; [|done].
      apply writable_nil in Hwr. destruct Hiff as [_ Hiff].
      by specialize (Hiff Hwr). }
    eexists _, _. split; [done|]. rewrite Hnw. cbn [andb]. split; [done|].
    intros _. cbn. repeat split; by left. }
  destruct Hs as (Hft & _ & ->). rewrite written_opened_trunc.
  assert (writable fs tp (str "") = true) as Hopen by by apply Hiff.
  clear Hiff Ho Hw.
  (* the token is admitted *)
  destruct (methods.SetTokenValidation _ _ _ _) as [fsc ok] eqn:Hset.
  fold tp in Hset.
  pose proof (SetTokenValidation_ok _ _ _ _ _ _ Hset) as Hok.
  fold tp line in Hok. rewrite (writable_insert fs tp line _ Hopen) in Hok.
  destruct ok; cbn [negb].
  2:{ eexists _, _. split; [done|]. rewrite <- Hok. cbn [andb]. split; [done|].
      intros _. cbn [response.Status response.Code http.StatusBadRequest].
      split; [done|]. split; [done|].
      apply SetTokenValidation_false in Hset as [->|(k & _ & _ & ->)];
        cbn [files]; fold tp.
      - split; [right; exists 0%nat; by rewrite lookup_insert_eq|].
        left. by rewrite lookup_insert_ne.
      - rewrite insert_insert_eq, !lookup_insert_eq, lookup_insert_ne by done.
        cbn [default from_option id app str list_ascii_of_string].
        split; [right; by exists k|]. by left. }
  apply SetTokenValidation_true in Hset as [_ Hfsc]. fold tp in Hfsc.
  cbn [files dirs denied short] in Hfsc.
  rewrite lookup_insert_eq, insert_insert_eq in Hfsc.
  cbn [default from_option id app] in Hfsc. fold line in Hfsc.
  change (str "" ++ line) with line in Hfsc.
  (* the flag is set *)
  destruct (OpenFile fsc sp _ _) as [[fsd g] e3] eqn:Ho2.
  destruct (WriteString fsd g (str "1")) as [[fse n2] err2] eqn:Hw2.
  pose proof (open_write _ _ _ _ _ _ _ _ _ _ _ Ho2 Hw2) as Hs2.
  pose proof (open_write_ok _ _ _ _ _ (Z.lor (Z.lor O_RDWR O_CREATE) O_TRUNC)
                _ _ _ _ _ eq_refl Ho2 Hw2) as Hiff2.
  rewrite Hfsc in Hs2, Hiff2. cbn [files dirs denied short] in Hs2.
  rewrite (writable_insert_ne fs sp tp) in Hiff2 by done.
  rewrite written_opened_trunc in Hs2.
  destruct err2 as [e4|].
  - assert (writable fs sp (str "1") = false) as Hnw.
    { destruct (writable fs sp (str "1")); [|done]. destruct Hiff2 as [_ Hiff2].
      by specialize (Hiff2 eq_refl). }
    eexists _, _. split; [done|]. rewrite Hnw, andb_false_r. split; [done|].
    intros _. cbn [response.Status response.Code http.StatusBadRequest].
    split; [done|]. split; [done|].
    destruct Hs2 as [[_ ->]|(k & _ & Hk & _ & _ & ->)]; cbn [files].
    + split; [right; exists (length line); by rewrite lookup_insert_eq, firstn_all|].
      left. by rewrite lookup_insert_ne.
    + assert (k = 0%nat) as ->
        by (cbn [length str list_ascii_of_string] in Hk; lia).
      rewrite written_opened_trunc. cbn [take].
      split; [|right; by rewrite lookup_insert_eq].
      right. exists (length line).
      by rewrite lookup_insert_ne, lookup_insert_eq, firstn_all.
  - assert (writable fs sp (str "1") = true) as Hwr by by apply Hiff2.
    destruct Hs2 as (Hfs & _ & ->).
    eexists _, _. split; [done|]. rewrite <- Hok, Hwr. cbn [andb].
    split; [|done]. intros _. split; [done|]. cbn [files denied].
    assert ((<[sp := str "1"]> (<[tp := line]> (files fs))) !! tp = Some line)
      as Htp by (by rewrite lookup_insert_ne, lookup_insert_eq).
    split; [done|]. split; [by rewrite lookup_insert_eq|].
    intros t. unfold methods.CheckTokenValidation. fold tp. unfold ReadFile.
    cbn [files dirs denied]. rewrite bool_decide_eq_false_2 by done.
    rewrite Htp. apply Contains_spec.
Qed.

End otp_verify.

(** ** The one-time password *)

Example rfc4226_codes :
  map (dgoogauth.ComputeCode rfc_secret) [0; 1; 2; 3; 4; 5; 6; 7; 8; 9]
  = [755224; 287082; 359152; 969429; 338314; 254676; 287922; 162583; 399871;
     520489].
Proof. vm_compute. reflexivity. Qed.

Lemma digit_of_digit_char (d : Z) :
  0 <= d <= 9 ->
  strconv.digit (digit_char d) = Some d
  /\ digit_char d <> "-"%char /\ digit_char d <> "+"%char
  /\ 48 <= Z.of_N (N_of_ascii (digit_char d)) <= 57.
Proof.
  intros Hd.
  assert (d = 0 \/ d = 1 \/ d = 2 \/ d = 3 \/ d = 4 \/ d = 5 \/ d = 6 \/ d = 7
          \/ d = 8 \/ d = 9) as Hcases by lia.
  repeat destruct Hcases as [->|Hcases]; try subst d; vm_compute;
    repeat split; congruence.
Qed.

Lemma ComputeCode_range (secret : gostring) (value : Z) :
  is_Some (base32.DecodeString secret) ->
  0 <= dgoogauth.ComputeCode secret value < 1000000.
Proof.
  intros [key Hk]. unfold dgoogauth.ComputeCode. rewrite Hk.
  apply Z.mod_pos_bound. lia.
Qed.

Lemma format6_shape (n : Z) :
  0 <= n < 1000000 ->
  len (format6 n) = 6
  /\ 48 <= byte_at (format6 n) 0 <= 57
  /\ strconv.Atoi (format6 n) = Some n.
Proof.
  intros Hn. unfold format6. cbn [map].
  set (d5 := n / 10 ^ 5 mod 10). set (d4 := n / 10 ^ 4 mod 10).
  set (d3 := n / 10 ^ 3 mod 10). set (d2 := n / 10 ^ 2 mod 10).
  set (d1 := n / 10 ^ 1 mod 10). set (d0 := n / 10 ^ 0 mod 10).
  assert (0 <= d5 <= 9 /\ 0 <= d4 <= 9 /\ 0 <= d3 <= 9 /\ 0 <= d2 <= 9
          /\ 0 <= d1 <= 9 /\ 0 <= d0 <= 9) as (H5 & H4 & H3 & H2 & H1 & H0).
  { pose proof (fun x => Z.mod_pos_bound x 10 eq_refl) as Hm.
    pose proof (Hm (n / 10 ^ 5)). pose proof (Hm (n / 10 ^ 4)).
    pose proof (Hm (n / 10 ^ 3)). pose proof (Hm (n / 10 ^ 2)).
    pose proof (Hm (n / 10 ^ 1)). pose proof (Hm (n / 10 ^ 0)).
    unfold d5, d4, d3, d2, d1, d0. lia. }
  assert (n = ((((d5 * 10 + d4) * 10 + d3) * 10 + d2) * 10 + d1) * 10 + d0)
    as Hsum.
  { unfold d5, d4, d3, d2, d1, d0.
    change (10 ^ 5) with 100000. change (10 ^ 4) with 10000.
    change (10 ^ 3) with 1000. change (10 ^ 2) with 100.
    change (10 ^ 1) with 10. change (10 ^ 0) with 1.
    Z.div_mod_to_equations. lia. }
  destruct (digit_of_digit_char d5 H5) as (E5 & Hm5 & Hp5 & Hb5).
  destruct (digit_of_digit_char d4 H4) as (E4 & _).
  destruct (digit_of_digit_char d3 H3) as (E3 & _).
  destruct (digit_of_digit_char d2 H2) as (E2 & _).
  destruct (digit_of_digit_char d1 H1) as (E1 & _).
  destruct (digit_of_digit_char d0 H0) as (E0 & _).
  split; [done|]. split; [exact Hb5|].
  unfold strconv.Atoi. rewrite !bool_decide_eq_false_2 by done.
  cbn [strconv.digits]. rewrite E5, E4, E3, E2, E1, E0.
  cbn [strconv.digits]. rewrite Z.mul_0_l, Z.add_0_l, <- Hsum.
  case_match; [done|]. zbool; lia.
Qed.

Lemma wrap64_id (x : Z) : - 2 ^ 63 <= x < 2 ^ 63 -> wrap64 x = x.
Proof. intros Hx. unfold wrap64. rewrite Z.mod_small; lia. Qed.

(** C9 (as amended). With [WindowSize] 3 the library tries three time
    steps in all, the current one and one on each side. For a base32
    secret, the code of any timestamp whose 30-second step is at most one
    step from the current step (any timestamp within 30 seconds of the
    clock is one) is accepted; and a password is accepted only if it is
    the number of one of those three steps. *)
Theorem C9_window_is_one_step_each_side (secret : gostring) (now : Z) :
  is_Some (base32.DecodeString secret) ->
  - 2 ^ 63 <= now < 2 ^ 63 ->
  (forall timestamp,
     -1 <= Z.quot timestamp 30 - Z.quot now 30 <= 1
     \/ Z.abs (timestamp - now) <= 30 ->
     dgoogauth.Authenticate (otp_config secret) now (code_at secret timestamp)
     = (true, None))
  /\ (forall password,
        (dgoogauth.Authenticate (otp_config secret) now password).1 = true ->
        exists d, -1 <= d <= 1
          /\ strconv.Atoi password
             = Some (dgoogauth.ComputeCode secret (Z.quot now 30 + d))).
Proof.
  intros Hsecret Hnow.
  assert (- 2 ^ 62 <= Z.quot now 30 < 2 ^ 62) as Ht0.
  { Z.quot_rem_to_equations. lia. }
  assert (forall code,
            dgoogauth.checkTotpCode (otp_config secret) (Z.quot now 30) code
            = (dgoogauth.ComputeCode secret (Z.quot now 30 - 1) =? code)
              || (dgoogauth.ComputeCode secret (Z.quot now 30) =? code)
              || (dgoogauth.ComputeCode secret (Z.quot now 30 + 1) =? code))
    as Hcheck.
  { intros code. unfold dgoogauth.checkTotpCode, otp_config.
    cbn [dgoogauth.WindowSize]. change (Z.quot 3 2) with 1.
    rewrite !wrap64_id by lia.
    replace (Z.to_nat _) with 3%nat by lia.
    cbn [dgoogauth.totp_loop dgoogauth.Secret dgoogauth.DisallowReuse].
    replace (Z.quot now 30 - 1 + 1) with (Z.quot now 30) by lia.
    by repeat case_match. }
  split.
  - intros timestamp Hnear.
    assert (-1 <= Z.quot timestamp 30 - Z.quot now 30 <= 1) as Hstep.
    { destruct Hnear as [?|Hsec]; [done|]. Z.quot_rem_to_equations. lia. }
    unfold code_at.
    set (code := dgoogauth.ComputeCode secret (Z.quot timestamp 30)).
    pose proof (ComputeCode_range secret (Z.quot timestamp 30) Hsecret) as Hr.
    destruct (format6_shape code Hr) as (Hlen & Hb & Hatoi).
    unfold dgoogauth.Authenticate. rewrite Hlen, Hatoi.
    replace ((6 =? 6) && (48 <=? byte_at (format6 code) 0)
             && (byte_at (format6 code) 0 <=? 57)) with true by lia.
    cbn [dgoogauth.HotpCounter otp_config]. change (0 <? 0) with false.
    cbv iota. rewrite Hcheck. f_equal.
    assert (Z.quot timestamp 30 = Z.quot now 30 - 1
            \/ Z.quot timestamp 30 = Z.quot now 30
            \/ Z.quot timestamp 30 = Z.quot now 30 + 1) as Hc by lia.
    unfold code. destruct Hc as [-> | [-> | ->]]; rewrite Z.eqb_refl;
      by rewrite ?orb_true_r.
  - intros password. unfold dgoogauth.Authenticate.
    destruct (_ && _ && _); [|destruct (_ && _ && _)].
    + destruct (strconv.Atoi password) as [code|]; [|done].
      cbn [dgoogauth.HotpCounter otp_config]. change (0 <? 0) with false.
      cbv iota. rewrite Hcheck. cbn [fst].
      intros [[Hm|Hm]%orb_true_iff|Hm]%orb_true_iff; apply Z.eqb_eq in Hm;
        [exists (-1)|exists 0|exists 1]; (split; [lia|]); rewrite <- Hm;
        do 2 f_equal; lia.
    + destruct (strconv.Atoi password) as [code|]; done.
    + done.
Qed.

(** C9, counterexample. With the RFC secret and the clock at 59 s (step
    1), the code of the timestamp 119 s (step 3, sixty seconds later) is
    refused. *)
Lemma C9_counterexample :
  is_Some (base32.DecodeString rfc_secret)
  /\ Z.abs (119 - 59) <= 90
  /\ code_at rfc_secret 119 = str "969429"
  /\ dgoogauth.Authenticate (otp_config rfc_secret) 59 (code_at rfc_secret 119)
     = (false, None).
Proof. vm_compute. repeat split; try congruence. eauto. Qed.

Lemma C9_witness :
  is_Some (base32.DecodeString rfc_secret)
  /\ - 2 ^ 63 <= 59 < 2 ^ 63
  /\ dgoogauth.Authenticate (otp_config rfc_secret) 59 (code_at rfc_secret 89)
     = (true, None).
Proof.
  assert (is_Some (base32.DecodeString rfc_secret)) as Hs by (vm_compute; eauto).
  assert (- 2 ^ 63 <= 59 < 2 ^ 63) as Hn by lia.
  split; [exact Hs|]. split; [exact Hn|].
  apply (C9_window_is_one_step_each_side rfc_secret 59 Hs Hn).
  right. vm_compute. congruence.
Defined.

(** C3, counterexample. First, a list that holds the presented token
    and a token that is a piece of it: the verification answers 200 and
    both, admitted before, are members afterwards. Second, a store
    where the write of the flag is cut short: the one-time password is
    accepted, the earlier token is gone from the list, and yet the
    answer is 400 and the second factor does not read as enabled. *)
Lemma C3_counterexample :
  let body := models.mkOTPJson (str "alice") (str "HS256.alice.key")
                               (str "287082") in
  let run1 := methods.OTPVerify (H := sample_codec) sample_config
                store_two_tokens 59 (inl body) in
  let fs1 := (from_done (store_two_tokens,
                         response.mkResponse 0 0 [] response.DNil) run1).1 in
  let fs := cut_short store_before_enabling (str "/s/alice/status") 0 in
  let run2 := methods.OTPVerify (H := sample_codec) sample_config fs 59
                (inl body) in
  let fs2 := (from_done (fs, response.mkResponse 0 0 [] response.DNil) run2).1 in
  (strings.TrimSpace
     (os.ReadFile store_two_tokens (str "/s/alice/status")).1 = str ""
   /\ methods.CheckTokenValidation sample_config store_two_tokens (str "alice")
        (str "alice.key") = true
   /\ methods.CheckTokenValidation sample_config store_two_tokens (str "alice")
        (str "HS256.alice.key") = true
   /\ response.Code (from_done (store_two_tokens,
                                response.mkResponse 0 0 [] response.DNil) run1).2
      = 200
   /\ methods.CheckTokenValidation sample_config fs1 (str "alice")
        (str "alice.key") = true
   /\ methods.CheckTokenValidation sample_config fs1 (str "alice")
        (str "HS256.alice.key") = true)
  /\ (dgoogauth.Authenticate
        (otp_config (methods.GetUserSecret sample_config fs (str "alice")))
        59 (str "287082") = (true, None)
      /\ methods.CheckTokenValidation sample_config fs (str "alice")
           (str "HS256.alice.old") = true
      /\ (from_done (fs, response.mkResponse 0 0 [] response.DNil) run2).2
         = response.mkResponse 400 400 (str "Status set error")
                               (response.DError (Some os.ENOSPC))
      /\ os.files fs2 !! str "/t/alice" = Some (lines [str "HS256.alice.key"])
      /\ methods.CheckTokenValidation sample_config fs2 (str "alice")
           (str "HS256.alice.old") = false
      /\ methods.Get2FAStatus sample_config fs2 alice_claims
         = Done (response.mkResponse 200 200 (str "2FA not set for this user")
                                     (response.DBool false))).
Proof. vm_compute. repeat split; reflexivity. Qed.

Lemma C3_witness :
  let body := models.mkOTPJson (str "alice") (str "HS256.alice.key")
                               (str "287082") in
  methods.ValidateAuth (H := sample_codec) sample_config store_before_enabling
    (str "HS256.alice.key") false = Done true
  /\ methods.GetUserSecret sample_config store_before_enabling (str "alice")
     = rfc_secret
  /\ dgoogauth.Authenticate (otp_config rfc_secret) 59 (str "287082")
     = (true, None)
  /\ os.files store_before_enabling !! str "/t/alice"
     = Some (lines [str "HS256.alice.old"])
  /\ exists fs' resp,
       methods.OTPVerify (H := sample_codec) sample_config store_before_enabling
         59 (inl body) = Done (fs', resp)
       /\ resp = response.mkResponse 200 200 (str "OTP verified")
                   (response.DString (str "HS256.alice.key"))
       /\ os.files fs' !! str "/t/alice" = Some (lines [str "HS256.alice.key"])
       /\ os.files fs' !! str "/s/alice/status" = Some (str "1")
       /\ (forall t,
             methods.CheckTokenValidation sample_config fs' (str "alice") t = true
             <-> occurs t (str "HS256.alice.key" ++ LF)).
Proof.
  intros body.
  assert (methods.ValidateAuth (H := sample_codec) sample_config
            store_before_enabling (str "HS256.alice.key") false = Done true)
    as Hvalid by (vm_compute; reflexivity).
  assert (methods.GetUserSecret sample_config store_before_enabling (str "alice")
          = rfc_secret) as Hsecret by (vm_compute; reflexivity).
  assert (dgoogauth.Authenticate (otp_config rfc_secret) 59 (str "287082")
          = (true, None)) as Hauth by (vm_compute; reflexivity).
  destruct (C3_first_enablement_clears_list sample_config (H := sample_codec)
              store_before_enabling 59 body)
    as (fs' & resp & Hrun & Hok & _).
  - exact Hvalid.
  - change (models.Username body) with (str "alice"). rewrite Hsecret. discriminate.
  - change (models.Username body) with (str "alice"). rewrite Hsecret. exact Hauth.
  - right. vm_compute. reflexivity.
  - vm_compute. congruence.
  - split; [exact Hvalid|]. split; [exact Hsecret|]. split; [exact Hauth|].
    split; [vm_compute; reflexivity|].
    exists fs', resp. split; [exact Hrun|].
    apply Hok. vm_compute. reflexivity.
Defined.

Lemma C5_witness :
  exists fs1,
    methods.GetUserSecret sample_config empty_store (str "alice") = []
    /\ methods.SetUserSecret sample_config empty_store (str "alice")
         (str "GEZDGNBVGY3TQOJQGEZDGNBVGY3TQOJQ")
       = (fs1, (true, str "GEZDGNBVGY3TQOJQGEZDGNBVGY3TQOJQ"))
    /\ methods.SetUserSecret sample_config fs1 (str "alice")
         (str "ORSXG5BAONSWG4TFOQQHI33LMVXCAMJS")
       = (fs1, (true, str "GEZDGNBVGY3TQOJQGEZDGNBVGY3TQOJQ"))
    /\ methods.GetUserSecret sample_config fs1 (str "alice")
       = str "GEZDGNBVGY3TQOJQGEZDGNBVGY3TQOJQ".
Proof.
  destruct (C5_set_secret_idempotent sample_config empty_store (str "alice")
              (str "GEZDGNBVGY3TQOJQGEZDGNBVGY3TQOJQ")
              (str "ORSXG5BAONSWG4TFOQQHI33LMVXCAMJS"))
    as (fs1 & H1 & H2 & H3).
  - discriminate.
  - reflexivity.
  - apply (bool_decide_unpack _). vm_compute. exact I.
  - apply (bool_decide_unpack _). vm_compute. exact I.
  - right. vm_compute. reflexivity.
  - exists fs1. split; [reflexivity|]. split; [exact H1|]. split; [exact H2|exact H3].
Defined.

(** C6, counterexample. The second factor of [alice] is enabled and the
    write of the flag is cut short: [Del2FAStatus] answers 400, and yet
    the secret is gone and the second factor no longer reads as
    enabled. *)
Lemma C6_counterexample :
  let fs := cut_short store_enabled (str "/s/alice/status") 0 in
  let run := methods.Del2FAStatus sample_config fs alice_claims in
  let fs' := (from_done (fs, response.mkResponse 0 0 [] response.DNil) run).1 in
  methods.GetUserSecret sample_config fs (str "alice") = rfc_secret
  /\ methods.Get2FAStatus sample_config fs alice_claims
     = Done (response.mkResponse 200 200 (str "2FA set for this user")
                                 (response.DBool true))
  /\ (from_done (fs, response.mkResponse 0 0 [] response.DNil) run).2
     = response.mkResponse 400 400 (str "2FA not revocated")
                           (response.DString (str ""))
  /\ methods.GetUserSecret sample_config fs' (str "alice") = []
  /\ os.files fs' !! str "/s/alice/secret" = None
  /\ methods.Get2FAStatus sample_config fs' alice_claims
     = Done (response.mkResponse 200 200 (str "2FA not set for this user")
                                 (response.DBool false)).
Proof. vm_compute. repeat split; reflexivity. Qed.

Lemma C6_witness :
  jwtl.get alice_claims "id" = jwtl.VString (str "alice")
  /\ methods.GetUserSecret sample_config store_enabled (str "alice") = rfc_secret
  /\ exists fs' resp,
       methods.Del2FAStatus sample_config store_enabled alice_claims
       = Done (fs', resp)
       /\ methods.GetUserSecret sample_config fs' (str "alice") = []
       /\ resp = response.mkResponse 200 200 (str "2FA revocate successfully")
                                     (response.DString (str ""))
       /\ os.files fs' !! str "/s/alice/status" = Some (str "0")
       /\ methods.Get2FAStatus sample_config fs' alice_claims
          = Done (response.mkResponse 200 200 (str "2FA not set for this user")
                                      (response.DBool false)).
Proof.
  destruct (C6_disable_is_two_steps sample_config store_enabled alice_claims
              (str "alice") eq_refl)
    as (fs' & resp & Hrun & _ & Hok & _).
  assert ((os.Remove store_enabled
             (configuration.SecretsDir sample_config ++ str "/" ++ str "alice"
              ++ str "/secret")).2 = None) as Hrm by (vm_compute; reflexivity).
  destruct (Hok Hrm) as (Hsecret & Hwr & _).
  destruct Hwr as (Hresp & Hflag & Hstatus); [vm_compute; reflexivity|].
  split; [reflexivity|]. split; [vm_compute; reflexivity|].
  exists fs', resp. split; [exact Hrun|]. split; [exact Hsecret|].
  split; [exact Hresp|]. split; [exact Hflag|exact Hstatus].
Defined.

(** ** Test vectors for the library models *)

Example TrimSpace_status : strings.TrimSpace (str " 0" ++ LF) = str "0".
Proof. vm_compute. reflexivity. Qed.

Example Replace_first_only :
  strings.Replace (str "abcabc") (str "b") (str "") 1 = str "acabc".
Proof. vm_compute. reflexivity. Qed.

Example Replace_empty_old :
  strings.Replace (str "ab") (str "") (str "-") (-1) = str "-a-b-".
Proof. vm_compute. reflexivity. Qed.

Example Split_three : strings.Split (str "a.b.c") (str ".") = [str "a"; str "b"; str "c"].
Proof. vm_compute. reflexivity. Qed.

Example Atoi_leading_zero : strconv.Atoi (str "012345") = Some 12345.
Proof. vm_compute. reflexivity. Qed.

Example TrimSpace_unicode :
  strings.TrimSpace (["194"; "160"; "097"; "226"; "128"; "131"; "010"]%char)
  = str "a".
Proof. vm_compute. reflexivity. Qed.

Example sha1_abc :
  hex (sha1.Sum (bytes_of (str "abc")))
  = 0xa9993e364706816aba3e25717850c26c9cd0d89d.
Proof. vm_compute. reflexivity. Qed.

Example sha1_two_blocks :
  hex (sha1.Sum (bytes_of
         (str "abcdbcdecdefdefgefghfghighijhijkijkljklmklmnlmnomnopnopq")))
  = 0x84983e441c3bd26ebaae4aa1f95129e5e54670f1.
Proof. vm_compute. reflexivity. Qed.

Example hmac_sha1_rfc2202 :
  hex (hmac.Sum (bytes_of (str "Jefe"))
                (bytes_of (str "what do ya want for nothing?")))
  = 0xeffcdf6ae5eb2fa2d27416d5f184df9c259a7c79.
Proof. vm_compute. reflexivity. Qed.

Example base32_rfc4648 :
  base32.DecodeString (str "MZXW6YQ=") = Some (bytes_of (str "foob"))
  /\ base32.DecodeString (str "MZXW6===") = Some (bytes_of (str "foo"))
  /\ base32.DecodeString (str "MY======") = Some (bytes_of (str "f"))
  /\ base32.DecodeString (str "MZX=====") = None
  /\ base32.DecodeString (str "MY=====") = None
  /\ base32.DecodeString (str "MY=======") = Some (bytes_of (str "f"))
  /\ base32.DecodeString (str "MY======A") = Some (bytes_of (str "f"))
  /\ base32.DecodeString (str "MY======MY======") = None.
Proof. vm_compute. repeat split; reflexivity. Qed.

(** ** Remarks on the handlers *)

(** When the secret file cannot be removed, [Del2FAStatus] answers 403
    and the flag still reads enabled. *)
Example Del2FAStatus_removal_failure :
  let fs := os.mkFS (os.files store_enabled) (os.dirs store_enabled)
                    {[ str "/s/alice/secret" ]} ∅ in
  let run := methods.Del2FAStatus sample_config fs alice_claims in
  response.Code (from_done (fs, response.mkResponse 0 0 [] response.DNil) run).2
  = 403
  /\ (from_done (fs, response.mkResponse 0 0 [] response.DNil) run).1 = fs
  /\ methods.Get2FAStatus sample_config fs alice_claims
     = Done (response.mkResponse 200 200 (str "2FA set for this user")
                                 (response.DBool true)).
Proof. vm_compute. auto. Qed.

(** The remaining path of [Del2FAStatus]: the secret file has been
    removed and the write of the flag fails; the handler answers 400 with
    the secret gone and the flag as it was. *)
Example Del2FAStatus_flag_write_failure :
  let fs := os.mkFS (os.files store_enabled) (os.dirs store_enabled)
                    {[ str "/s/alice/status" ]} ∅ in
  let run := methods.Del2FAStatus sample_config fs alice_claims in
  let fs' := (from_done (fs, response.mkResponse 0 0 [] response.DNil) run).1 in
  response.Code (from_done (fs, response.mkResponse 0 0 [] response.DNil) run).2
  = 400
  /\ os.files fs' !! str "/s/alice/secret" = None
  /\ os.files fs' !! str "/s/alice/status" = Some (str "1").
Proof. vm_compute. auto. Qed.

(** The empty string is how the code says "no secret": a first call with
    it stores nothing that a second call would find. *)
Example SetUserSecret_empty_first_value :
  let r1 := methods.SetUserSecret sample_config empty_store (str "alice") (str "") in
  let r2 := methods.SetUserSecret sample_config r1.1 (str "alice") (str "ABCD") in
  r1.2 = (true, str "") /\ r2.2 = (true, str "ABCD").
Proof. vm_compute. auto. Qed.

(** A token issued without a second factor is admitted at login; one
    issued with it is not. *)
Example LoginResponse_admits_without_2fa :
  let admitted := from_done empty_store
        (middleware.LoginResponse sample_config empty_store alice_claims
           (str "aaa.bbb.ccc")) in
  let claims2 := middleware.PayloadFunc sample_config store_enabled
        (models.mkUserAuthorizations (str "alice") (str "") []) in
  methods.CheckTokenValidation sample_config admitted (str "alice")
    (str "aaa.bbb.ccc") = true
  /\ jwtl.get claims2 "2fa" = jwtl.VBool true
  /\ middleware.LoginResponse sample_config empty_store claims2 (str "aaa.bbb.ccc")
     = Done empty_store.
Proof. vm_compute. auto. Qed.

(** * Further properties

    Properties of the same code beyond the list of claims, numbered X1
    to X30: what is left of the behaviour of the allow-list, of the
    secrets and of the handlers, then the configuration, the redaction
    of the logged body, the enrolment and the accepted tokens. *)

(** ** More on the allow-list and on the secrets *)

Section allow_list_more.
Import os configuration.
Context (Config : Configuration) `{jwtl.Codec}.

Lemma token_paths_differ (u u' : gostring) :
  u <> u' -> TokensDir Config ++ str "/" ++ u <> TokensDir Config ++ str "/" ++ u'.
Proof. intros Hne Heq. by do 2 apply app_inv_head in Heq. Qed.

Lemma ReadFile_other (fs : FS) (p q data : gostring) :
  p <> q ->
  ReadFile (mkFS (<[p := data]> (files fs)) (dirs fs) (denied fs) (short fs)) q
  = ReadFile fs q.
Proof. intros Hne. unfold ReadFile. simpl. by rewrite lookup_insert_ne. Qed.

Lemma CheckTokenValidation_true (fs : FS) (u t : gostring) :
  methods.CheckTokenValidation Config fs u t = true <->
  exists content,
    ReadFile fs (TokensDir Config ++ str "/" ++ u) = (content, None)
    /\ occurs t content.
Proof.
  unfold methods.CheckTokenValidation.
  destruct (ReadFile _ _) as [content [e|]].
  - split; [done|]. by intros (? & ? & _).
  - rewrite Contains_spec. split; [eauto|]. by intros (? & [= <-] & ?).
Qed.

(** A failed [RemoveTokenValidation] has changed nothing, or has been
    cut short after it had emptied the list. *)
Lemma RemoveTokenValidation_false (fs fs' : FS) (u t : gostring) :
  methods.RemoveTokenValidation Config fs u t = (fs', false) ->
  fs' = fs
  \/ exists content k,
       ReadFile fs (TokensDir Config ++ str "/" ++ u) = (content, None)
       /\ (k < length (strings.TrimSpace (strings.Replace content t (str "") 1)
                       ++ LF))%nat
       /\ fs' = mkFS (<[TokensDir Config ++ str "/" ++ u :=
                         take k (strings.TrimSpace
                                   (strings.Replace content t (str "") 1) ++ LF)]>
                       (files fs)) (dirs fs) (denied fs) (short fs).
Proof.
  unfold methods.RemoveTokenValidation.
  destruct (ReadFile _ _) as [content [e|]] eqn:Hr; [intros [= <-]; by left|].
  destruct (OpenFile _ _ _ _) as [[fs1 f] e] eqn:Ho.
  destruct (WriteString fs1 f _) as [[fs2 n] err] eqn:Hw.
  pose proof (open_write _ _ _ _ _ _ _ _ _ _ _ Ho Hw) as Hs.
  destruct err; [|done]. intros [= <-].
  destruct Hs as [[_ ->]|(k & _ & Hk & _ & _ & ->)]; [by left|].
  right. exists content, k. split; [done|]. split; [done|].
  by rewrite written_trunc.
Qed.

Lemma Replace_absent (s old : gostring) :
  ~ occurs old s -> strings.Replace s old [] 1 = s.
Proof.
  intros Hno. destruct (Replace_first s old) as (pre & post & -> & [[Hs _]|[Hs _]]).
  - exfalso. apply Hno. by exists pre, post.
  - done.
Qed.

(** For a token, the trimmed list followed by a line feed has the
    occurrences of the list. *)
Lemma occurs_trimmed_line (t content : gostring) :
  wordlike t = true ->
  occurs t (strings.TrimSpace content ++ LF) <-> occurs t content.
Proof.
  intros Hw. destruct (wordlike_no_LF _ Hw) as [Hlf Hne]. split.
  - intros [Ho|Ho]%occurs_sep; [| |done].
    + eapply occurs_trans; [done|apply TrimSpace_occurs].
    + by apply occurs_nil_inv in Ho.
  - intros (A & B & ->). destruct (TrimSpace_keeps A t B Hw) as (A' & B' & ->).
    exists A', (B' ++ LF). by rewrite <- !app_assoc.
Qed.

(** X1. [SetTokenValidation] never revokes: whether it returns true
    or false, every string that tested as a member before still does.
    It returns true exactly when the store takes the write of the
    token's line, and then the token tests as a member; when it returns
    false the store is what it was, or the write was cut short and a
    part of the line has been appended to the list. *)
Theorem X1_admission_is_append_only (fs fs' : FS) (u t : gostring) (ok : bool) :
  methods.SetTokenValidation Config fs u t = (fs', ok) ->
  (forall t', methods.CheckTokenValidation Config fs u t' = true ->
              methods.CheckTokenValidation Config fs' u t' = true)
  /\ ok = writable fs (TokensDir Config ++ str "/" ++ u) (t ++ LF)
  /\ (ok = true -> methods.CheckTokenValidation Config fs' u t = true)
  /\ (ok = false ->
      fs' = fs
      \/ exists k,
           (k < length (t ++ LF))%nat
           /\ fs' = mkFS (<[TokensDir Config ++ str "/" ++ u :=
                             default [] (files fs !! (TokensDir Config
                                                      ++ str "/" ++ u))
                             ++ take k (t ++ LF)]> (files fs))
                         (dirs fs) (denied fs) (short fs)).
Proof.
  intros Hset. set (tp := TokensDir Config ++ str "/" ++ u) in *.
  assert (forall (data : gostring) t',
            (tp ∉ denied fs) ->
            methods.CheckTokenValidation Config fs u t' = true ->
            methods.CheckTokenValidation Config
              (mkFS (<[tp := default [] (files fs !! tp) ++ data]> (files fs))
                    (dirs fs) (denied fs) (short fs)) u t' = true) as Hkeep.
  { intros data t' Hf (content & Hr & Ho)%CheckTokenValidation_true.
    apply CheckTokenValidation_true. eexists. split; [by apply ReadFile_insert|].
    apply ReadFile_ok in Hr as [_ Hr]. fold tp in Hr. rewrite Hr. simpl.
    by apply occurs_app_r. }
  split; [|split; [by eapply SetTokenValidation_ok|]].
  - destruct ok.
    + apply SetTokenValidation_true in Hset as [Hf ->]. intros t'. by apply Hkeep.
    + apply SetTokenValidation_false in Hset as [->|(k & _ & Hf & ->)]; [done|].
      intros t'. by apply Hkeep.
  - split.
    + intros ->. apply SetTokenValidation_true in Hset as [Hf ->].
      apply CheckTokenValidation_true. eexists.
      split; [by apply ReadFile_insert|].
      apply occurs_app_l. exists [], LF. done.
    + intros ->. apply SetTokenValidation_false in Hset as [->|(k & Hk & _ & ->)];
        [by left|]. right. by exists k.
Qed.

(** X2. The lists of two identities are apart: for two different user
    names without a slash, which name two different files, admitting
    or removing a token for one of them changes neither what the list
    of the other holds nor any membership test on it. *)
Theorem X2_lists_are_per_identity (fs fs' : FS) (u u' t : gostring) (ok : bool) :
  "/"%char ∉ u -> "/"%char ∉ u' -> u <> u' ->
  methods.SetTokenValidation Config fs u t = (fs', ok)
  \/ methods.RemoveTokenValidation Config fs u t = (fs', ok) ->
  ReadFile fs' (TokensDir Config ++ str "/" ++ u')
  = ReadFile fs (TokensDir Config ++ str "/" ++ u')
  /\ forall x, methods.CheckTokenValidation Config fs' u' x
               = methods.CheckTokenValidation Config fs u' x.
Proof.
  intros _ _ Hne%token_paths_differ Hop.
  assert (ReadFile fs' (TokensDir Config ++ str "/" ++ u')
          = ReadFile fs (TokensDir Config ++ str "/" ++ u')) as Hread.
  { destruct Hop as [Hop|Hop]; destruct ok.
    - apply SetTokenValidation_true in Hop as [_ ->]. by apply ReadFile_other.
    - apply SetTokenValidation_false in Hop as [->|(k & _ & _ & ->)]; [done|].
      by apply ReadFile_other.
    - apply RemoveTokenValidation_true in Hop as (content & _ & ->).
      by apply ReadFile_other.
    - apply RemoveTokenValidation_false in Hop as [->|(content & k & _ & _ & ->)];
        [done|]. by apply ReadFile_other. }
  split; [done|]. intros x. unfold methods.CheckTokenValidation. by rewrite Hread.
Qed.

(** X3. [RemoveTokenValidation] never creates a list: when the list
    cannot be read it returns false and the store is what it was. When
    it returns false after it has read the list, either nothing has
    changed or the write was cut short, and the list file holds a part
    of its new content, possibly nothing: a removal that fails can
    revoke every token. *)
Theorem X3_failed_removal_keeps_or_cuts_the_list (fs fs' : FS) (u t : gostring)
        (ok : bool) :
  methods.RemoveTokenValidation Config fs u t = (fs', ok) ->
  ((ReadFile fs (TokensDir Config ++ str "/" ++ u)).2 <> None ->
   ok = false /\ fs' = fs)
  /\ (ok = false ->
      fs' = fs
      \/ exists content k,
           ReadFile fs (TokensDir Config ++ str "/" ++ u) = (content, None)
           /\ (k < length (strings.TrimSpace
                             (strings.Replace content t (str "") 1) ++ LF))%nat
           /\ fs' = mkFS (<[TokensDir Config ++ str "/" ++ u :=
                             take k (strings.TrimSpace
                                       (strings.Replace content t (str "") 1)
                                     ++ LF)]> (files fs))
                         (dirs fs) (denied fs) (short fs)).
Proof.
  intros Hrm. split.
  - intros Herr. unfold methods.RemoveTokenValidation in Hrm.
    destruct (ReadFile _ _) as [content [e|]]; [|done].
    by injection Hrm as <- <-.
  - intros ->. by apply RemoveTokenValidation_false in Hrm.
Qed.

(** X4. Removing a token that is not in the list revokes nothing: every
    token (a non-empty string of printable bytes without spaces) tests
    after the call as it tested before. *)
Theorem X4_removing_an_absent_token_keeps_the_others (fs fs' : FS)
        (u t : gostring) :
  methods.CheckTokenValidation Config fs u t = false ->
  methods.RemoveTokenValidation Config fs u t = (fs', true) ->
  forall t2, wordlike t2 = true ->
    methods.CheckTokenValidation Config fs' u t2
    = methods.CheckTokenValidation Config fs u t2.
Proof.
  intros Habs Hrm t2 Hw.
  apply RemoveTokenValidation_true in Hrm as (content & Hr & ->).
  rewrite (CheckTokenValidation_read _ _ _ _ _ Hr) in Habs.
  apply Contains_false in Habs.
  change (str "") with (@nil ascii). rewrite Replace_absent by done.
  rewrite (CheckTokenValidation_read _ _ _ t2 _ Hr).
  pose proof Hr as [Hf _]%ReadFile_ok.
  rewrite (CheckTokenValidation_read _ _ _ t2 _ (ReadFile_insert _ _ _ Hf)).
  apply eq_true_iff_eq. rewrite !Contains_spec. by apply occurs_trimmed_line.
Qed.

End allow_list_more.

Section secrets_more.
Import os configuration.
Context (Config : Configuration) `{jwtl.Codec}.

Lemma GetUserSecret_read (fs : FS) (u : gostring) :
  methods.GetUserSecret Config fs u
  = (ReadFile fs (SecretsDir Config ++ str "/" ++ u ++ str "/secret")).1.
Proof.
  unfold methods.GetUserSecret.
  destruct (ReadFile _ _) as [data [e|]] eqn:Hr; [|done].
  by apply ReadFile_err in Hr as ->.
Qed.

Lemma MkdirAll_files (fs : FS) (d : gostring) (perm : Z) :
  files (MkdirAll fs d perm).1 = files fs
  /\ denied (MkdirAll fs d perm).1 = denied fs
  /\ short (MkdirAll fs d perm).1 = short fs.
Proof. unfold MkdirAll. by repeat case_match. Qed.

(** The ways [SetUserSecret] can go: a secret is there; the given one
    is stored; nothing is stored; the write is cut short. *)
Lemma SetUserSecret_cases (fs fs' : FS) (u s r : gostring) (ok : bool) :
  methods.SetUserSecret Config fs u s = (fs', (ok, r)) ->
  let p := SecretsDir Config ++ str "/" ++ u ++ str "/secret" in
  (methods.GetUserSecret Config fs u <> [] /\ fs' = fs /\ ok = true
   /\ r = methods.GetUserSecret Config fs u)
  \/ (methods.GetUserSecret Config fs u = [] /\ ok = true /\ r = s
      /\ (p ∉ denied fs) /\ files fs' = <[p := s]> (files fs)
      /\ denied fs' = denied fs)
  \/ (methods.GetUserSecret Config fs u = [] /\ ok = false /\ r = []
      /\ denied fs' = denied fs
      /\ (files fs' = files fs
          \/ exists k, (k < length s)%nat /\ (p ∉ denied fs)
                       /\ files fs' = <[p := take k s]> (files fs))).
Proof.
  intros Hset p. rewrite GetUserSecret_read. fold p.
  unfold methods.SetUserSecret in Hset. fold p in Hset.
  destruct (ReadFile fs p) as [secretB e0] eqn:Hr. simpl.
  destruct (len secretB =? 0) eqn:Hlen.
  2:{ left. injection Hset as <- <- <-. repeat split; try done.
      intros ->. done. }
  assert (secretB = []) as -> by (by destruct secretB).
  right.
  set (d := SecretsDir Config ++ str "/" ++ u) in *.
  set (fsd := if IsNotExist (Stat fs d) then (MkdirAll fs d mode_0700).1 else fs)
    in *.
  assert (files fsd = files fs /\ denied fsd = denied fs
          /\ short fsd = short fs) as (Hfiles & Hfty & Hsh).
  { unfold fsd. destruct (IsNotExist _); [apply MkdirAll_files|done]. }
  destruct (OpenFile fsd p _ _) as [[fs1 f] e1] eqn:Ho.
  destruct (WriteString fs1 f s) as [[fs2 n] err] eqn:Hw.
  pose proof (open_write _ _ _ _ _ _ _ _ _ _ _ Ho Hw) as Hs.
  assert (forall data : gostring,
            (p ∉ denied fs) ->
            written (opened fsd p (Z.lor O_WRONLY O_CREATE))
                    (Z.lor O_WRONLY O_CREATE) data = data) as Hwritten.
  { intros data Hf. unfold written, opened.
    destruct has_create_only as [-> ->]. rewrite Hfiles.
    assert (default [] (files fs !! p) = []) as ->.
    { unfold ReadFile in Hr. rewrite bool_decide_eq_false_2 in Hr by done.
      destruct (files fs !! p); [by injection Hr as ->|done]. }
    by rewrite drop_nil, app_nil_r. }
  unfold Close in Hset. destruct err as [e2|].
  - right. injection Hset as <- <- <-.
    destruct Hs as [[_ ->]|(k & _ & Hk & Hf & _ & ->)].
    + repeat split; try done. by left.
    + rewrite Hfty in Hf. repeat split; try done. right. exists k.
      split; [done|]. split; [done|]. cbn [files]. rewrite Hfiles.
      by rewrite Hwritten.
  - left. destruct Hs as (Hf & _ & ->). injection Hset as <- <- <-.
    rewrite Hfty in Hf. repeat split; try done.
    cbn [files]. rewrite Hfiles. by rewrite Hwritten.
Qed.

Lemma GetUserSecret_insert (fs fs' : FS) (u s : gostring) :
  let p := SecretsDir Config ++ str "/" ++ u ++ str "/secret" in
  (p ∉ denied fs) -> files fs' = <[p := s]> (files fs) ->
  denied fs' = denied fs ->
  methods.GetUserSecret Config fs' u = s.
Proof.
  intros p Hf Hfiles Hfty. rewrite GetUserSecret_read. fold p.
  unfold ReadFile. rewrite Hfty, Hfiles, bool_decide_eq_false_2 by done.
  by rewrite lookup_insert_eq.
Qed.

Lemma GetUserSecret_same_files (fs fs' : FS) (u : gostring) :
  files fs' = files fs -> denied fs' = denied fs ->
  methods.GetUserSecret Config fs' u = methods.GetUserSecret Config fs u.
Proof.
  intros Hfiles Hfty. rewrite !GetUserSecret_read. unfold ReadFile.
  rewrite Hfiles, Hfty. by repeat case_match.
Qed.

(** X5. When [SetUserSecret] returns true, the secret it returns is
    the secret in force: [GetUserSecret] reads it back.  A secret that
    is there is returned and never replaced, the store staying as it
    is; otherwise the secret returned is the one that was given. *)
Theorem X5_stored_secret_is_the_returned_secret (fs fs' : FS)
        (u s r : gostring) :
  methods.SetUserSecret Config fs u s = (fs', (true, r)) ->
  methods.GetUserSecret Config fs' u = r
  /\ (methods.GetUserSecret Config fs u <> [] ->
      r = methods.GetUserSecret Config fs u /\ fs' = fs)
  /\ (methods.GetUserSecret Config fs u = [] -> r = s).
Proof.
  intros [(Hne & -> & _ & ->)|[(He & _ & -> & Hf & Hfiles & Hfty)|(_ & ? & _)]]
    %SetUserSecret_cases; [done| |done].
  split; [by eapply GetUserSecret_insert|]. split; [done|done].
Qed.

(** X6. When [SetUserSecret] returns false it returns the empty
    string and the user had no secret. Either no file has changed, or
    the write was cut short and the secret file holds a part of the
    secret that was given: what [GetUserSecret] reads afterwards is a
    prefix of it, possibly empty. *)
Theorem X6_failed_secret_write_stores_at_most_a_prefix (fs fs' : FS)
        (u s r : gostring) :
  methods.SetUserSecret Config fs u s = (fs', (false, r)) ->
  r = []
  /\ methods.GetUserSecret Config fs u = []
  /\ exists k,
       methods.GetUserSecret Config fs' u = take k s
       /\ (files fs' = files fs
           \/ (k < length s)%nat
              /\ files fs'
                 = <[SecretsDir Config ++ str "/" ++ u ++ str "/secret" :=
                       take k s]> (files fs)).
Proof.
  intros [(_ & _ & ? & _)|[(_ & ? & _)|(He & _ & -> & Hfty & Hfiles)]]
    %SetUserSecret_cases; [done|done|].
  split; [done|]. split; [done|].
  destruct Hfiles as [Hfiles|(k & Hk & Hf & Hfiles)].
  - exists 0%nat. cbn [take]. split; [|by left].
    by rewrite (GetUserSecret_same_files fs fs').
  - exists k. split; [by eapply GetUserSecret_insert|]. by right.
Qed.

(** What a successful [Del2FAStatus] leaves. *)
Lemma Del2FAStatus_200 (fs fs' : FS) (claims : jwtl.MapClaims) (id : gostring)
      (resp : response.Response) :
  jwtl.get claims "id" = jwtl.VString id ->
  methods.Del2FAStatus Config fs claims = Done (fs', resp) ->
  response.Code resp = 200 ->
  methods.GetUserSecret Config fs' id = []
  /\ ReadFile fs' (SecretsDir Config ++ str "/" ++ id ++ str "/status")
     = (str "0", None).
Proof.
  intros Hid Hrun Hcode. unfold methods.Del2FAStatus in Hrun.
  rewrite Hid in Hrun. cbn [obind assert_string] in Hrun.
  set (secret := SecretsDir Config ++ str "/" ++ id ++ str "/secret") in *.
  set (status := SecretsDir Config ++ str "/" ++ id ++ str "/status") in *.
  assert (status <> secret) as Hdiff by apply status_secret_differ.
  destruct (Remove fs secret) as [fs1 [e|]] eqn:Hrm.
  { injection Hrun as <- <-. done. }
  destruct (OpenFile fs1 status _ _) as [[fs2 f] e1] eqn:Ho.
  destruct (WriteString fs2 f (str "0")) as [[fs3 n] err] eqn:Hw.
  pose proof (open_write _ _ _ _ _ _ _ _ _ _ _ Ho Hw) as Hs.
  assert (files fs1 !! secret = None /\ denied fs1 = denied fs
          /\ secret ∉ denied fs) as (Hgone & Hfty & Hnf).
  { unfold Remove in Hrm.
    destruct (bool_decide (secret ∈ denied fs)) eqn:Hf; [done|].
    apply bool_decide_eq_false in Hf.
    destruct (files fs !! secret) eqn:Hfile.
    - injection Hrm as <-. simpl. by rewrite lookup_delete_eq.
    - repeat case_match; simplify_eq; done. }
  destruct err as [e2|]; [injection Hrun as <- <-; done|].
  destruct Hs as (Hsf & _ & ->). injection Hrun as <- _.
  rewrite written_opened_trunc. split.
  - rewrite GetUserSecret_read. fold secret. unfold ReadFile. simpl.
    rewrite Hfty, bool_decide_eq_false_2 by done.
    by rewrite lookup_insert_ne, Hgone by done.
  - by apply ReadFile_insert.
Qed.

(** X7. Disabling makes room for a new enrolment: after [Del2FAStatus]
    has answered 200, a [SetUserSecret] that returns true has stored
    the secret it was given, not an earlier one. *)
Theorem X7_new_secret_after_disable (fs fs1 fs2 : FS) (claims : jwtl.MapClaims)
        (id s r : gostring) (resp : response.Response) :
  jwtl.get claims "id" = jwtl.VString id ->
  methods.Del2FAStatus Config fs claims = Done (fs1, resp) ->
  response.Code resp = 200 ->
  methods.SetUserSecret Config fs1 id s = (fs2, (true, r)) ->
  r = s /\ methods.GetUserSecret Config fs2 id = s.
Proof.
  intros Hid Hdel Hcode Hset.
  destruct (Del2FAStatus_200 _ _ _ _ _ Hid Hdel Hcode) as [Hnone _].
  apply SetUserSecret_cases in Hset
    as [(Hne & _)|[(_ & _ & -> & Hf & Hfiles & Hfty)|(_ & ? & _)]];
    [done| |done].
  split; [done|]. by eapply GetUserSecret_insert.
Qed.

(** X8. [Get2FAStatus] reports the second factor as enabled exactly
    when the status file can be read and holds ["1"] up to surrounding
    white space; a missing or unreadable file, and any other content,
    read as disabled. *)
Theorem X8_status_defaults_to_disabled (fs : FS) (claims : jwtl.MapClaims)
        (id : gostring) :
  jwtl.get claims "id" = jwtl.VString id ->
  exists message b,
    methods.Get2FAStatus Config fs claims
    = Done (response.mkResponse 200 200 message (response.DBool b))
    /\ (b = true <->
        exists content,
          ReadFile fs (SecretsDir Config ++ str "/" ++ id ++ str "/status")
          = (content, None)
          /\ strings.TrimSpace content = str "1").
Proof.
  intros Hid. unfold methods.Get2FAStatus. rewrite Hid.
  cbn [obind assert_string].
  destruct (ReadFile _ _) as [content [e|]] eqn:Hr.
  - rewrite orb_true_r. eexists _, false. split; [done|]. split; [done|].
    by intros (? & ? & _).
  - rewrite orb_false_r.
    destruct (bool_decide (strings.TrimSpace content = str "1")) eqn:Hb; simpl.
    + apply bool_decide_eq_true in Hb. rewrite Hb.
      eexists _, true. split; [done|]. split; [eauto|done].
    + apply bool_decide_eq_false in Hb. eexists _, false. split; [done|].
      split; [done|]. by intros (? & [= <-] & ?).
Qed.

End secrets_more.

(** ** More on the handlers and on the login callbacks *)

Section handlers_more.
Import os configuration.
Context (Config : Configuration) `{jwtl.Codec}.

Lemma ValidateAuth_unensured (fs : FS) (t : gostring) :
  exists b, methods.ValidateAuth Config fs t false = Done b.
Proof.
  unfold methods.ValidateAuth. repeat case_match; eauto.
Qed.

(** X9. A token that [ValidateAuth] accepts with [ensureTokenExists]
    parses and verifies, names an identity in its [id] claim, is on the
    allow-list of that identity, and is accepted without
    [ensureTokenExists] as well. *)
Theorem X9_ensured_tokens_are_listed (fs : FS) (t : gostring) :
  methods.ValidateAuth Config fs t true = Done true ->
  methods.ValidateAuth Config fs t false = Done true
  /\ exists token id,
       jwtl.Parse t (methods.keyFunc Config) = inl token
       /\ jwtl.get (jwtl.Claims token) "id" = jwtl.VString id
       /\ methods.CheckTokenValidation Config fs id t = true.
Proof.
  unfold methods.ValidateAuth.
  destruct (negb (bool_decide (t = str ""))); [|done].
  destruct (jwtl.Parse t _) as [token|err]; [|done].
  destruct (jwtl.Valid token); [|done].
  destruct (jwtl.get (jwtl.Claims token) "id") as [|id| | |] eqn:Hid; try done.
  cbn [obind assert_string].
  destruct (methods.CheckTokenValidation Config fs id t) eqn:Hc; [|done].
  intros _. split; [done|]. by exists token, id.
Qed.

(** The store after [OTPVerify] has answered 200. *)
Lemma OTPVerify_200 (fs fs' : FS) (now : Z) (jsonOTP : models.OTPJson)
      (resp : response.Response) :
  methods.OTPVerify Config fs now (inl jsonOTP) = Done (fs', resp) ->
  response.Code resp = 200 ->
  let tp := TokensDir Config ++ str "/" ++ models.Username jsonOTP in
  let sp := SecretsDir Config ++ str "/" ++ models.Username jsonOTP
            ++ str "/status" in
  let statusOld := strings.TrimSpace (ReadFile fs sp).1 in
  (tp ∉ denied fs) /\ (sp ∉ denied fs)
  /\ fs' = mkFS (<[sp := str "1"]>
                 (<[tp := (if bool_decide (statusOld = str "0")
                              || bool_decide (statusOld = str "")
                           then [] else default [] (files fs !! tp))
                          ++ models.Token jsonOTP ++ LF]> (files fs)))
                (dirs fs) (denied fs) (short fs).
Proof.
  intros Hrun Hcode tp sp statusOld. unfold methods.OTPVerify in Hrun.
  fold tp sp in Hrun.
  destruct (methods.ValidateAuth _ _ _ _) as [valid|]; [|done].
  cbn [obind] in Hrun.
  destruct valid; cbn [negb] in Hrun; [|by simplify_eq].
  destruct (len _ =? 0); [by simplify_eq|].
  destruct (dgoogauth.Authenticate _ _ _) as [result err].
  destruct (_ || negb result); [by simplify_eq|].
  unfold statusOld. destruct (ReadFile fs sp) as [status e0]. cbn [fst].
  destruct (bool_decide (strings.TrimSpace status = str "0")
            || bool_decide (strings.TrimSpace status = str "")) eqn:Hcond.
  - destruct (OpenFile fs tp _ _) as [[fsa f] e1] eqn:Ho.
    destruct (WriteString fsa f (str "")) as [[fsb n] err1] eqn:Hw.
    pose proof (open_write _ _ _ _ _ _ _ _ _ _ _ Ho Hw) as Hs.
    unfold Close in Hrun.
    destruct err1 as [e2|]; [by simplify_eq|]. destruct Hs as (Hft & _ & Hfsb).
    rewrite written_opened_trunc in Hfsb.
    destruct (methods.SetTokenValidation _ _ _ _) as [fsc ok] eqn:Hset.
    fold tp in Hset.
    destruct ok; cbn [negb] in Hrun; [|by simplify_eq].
    apply SetTokenValidation_true in Hset as [_ Hfsc]. fold tp in Hfsc.
    rewrite Hfsb in Hfsc. cbn [files dirs denied] in Hfsc.
    rewrite lookup_insert_eq, insert_insert_eq in Hfsc.
    cbn [default from_option id app str list_ascii_of_string] in Hfsc.
    destruct (OpenFile _ sp _ _) as [[fsd g] e3] eqn:Ho2.
    destruct (WriteString fsd g (str "1")) as [[fse n2] err2] eqn:Hw2.
    pose proof (open_write _ _ _ _ _ _ _ _ _ _ _ Ho2 Hw2) as Hs2.
    destruct err2 as [e4|]; [by simplify_eq|]. destruct Hs2 as (Hfs & _ & Hfse).
    rewrite written_opened_trunc, Hfsc in Hfse. cbn [files dirs denied] in Hfse.
    rewrite Hfsc in Hfs. cbn [denied] in Hfs.
    injection Hrun as <- _. done.
  - destruct (methods.SetTokenValidation _ _ _ _) as [fsc ok] eqn:Hset.
    fold tp in Hset.
    destruct ok; cbn [negb] in Hrun; [|by simplify_eq].
    apply SetTokenValidation_true in Hset as [Hft Hfsc]. fold tp in Hfsc, Hft.
    destruct (OpenFile _ sp _ _) as [[fsd g] e3] eqn:Ho2.
    destruct (WriteString fsd g (str "1")) as [[fse n2] err2] eqn:Hw2.
    pose proof (open_write _ _ _ _ _ _ _ _ _ _ _ Ho2 Hw2) as Hs2.
    destruct err2 as [e4|]; [by simplify_eq|]. destruct Hs2 as (Hfs & _ & Hfse).
    rewrite written_opened_trunc, Hfsc in Hfse. cbn [files dirs denied] in Hfse.
    rewrite Hfsc in Hfs. cbn [denied] in Hfs.
    injection Hrun as <- _. done.
Qed.

(** X10. [OTPVerify] never panics, whatever the body and whatever the
    claims of the token in it: it always answers, with 200, 400 or 404,
    the HTTP status and the code of the answer being the same. *)
Theorem X10_otp_verify_always_answers (fs : FS) (now : Z)
        (body : models.OTPJson + gostring) :
  exists fs' resp,
    methods.OTPVerify Config fs now body = Done (fs', resp)
    /\ response.Status resp = response.Code resp
    /\ response.Code resp ∈ [200; 400; 404].
Proof.
  unfold methods.OTPVerify. destruct body as [jsonOTP|err].
  2:{ eexists _, _. split; [done|]. split; [done|]. set_solver. }
  destruct (ValidateAuth_unensured fs (models.Token jsonOTP)) as [valid ->].
  cbn [obind].
  repeat (case_match; try (eexists _, _; split; [done|]; split; [done|];
                           cbn; set_solver)).
Qed.

(** X11. [OTPVerify] changes the store only after the three checks
    have passed: when the store after the call differs from the store
    before, the body was well formed, its token was accepted by
    [ValidateAuth], the user has a secret, and the one-time password
    was authenticated against that secret. *)
Theorem X11_otp_verify_writes_only_after_the_checks (fs fs' : FS) (now : Z)
        (body : models.OTPJson + gostring) (resp : response.Response) :
  methods.OTPVerify Config fs now body = Done (fs', resp) ->
  fs' <> fs ->
  exists jsonOTP,
    body = inl jsonOTP
    /\ methods.ValidateAuth Config fs (models.Token jsonOTP) false = Done true
    /\ methods.GetUserSecret Config fs (models.Username jsonOTP) <> []
    /\ dgoogauth.Authenticate
         (otp_config (methods.GetUserSecret Config fs (models.Username jsonOTP)))
         now (models.OTP jsonOTP) = (true, None).
Proof.
  intros Hrun Hchg. unfold methods.OTPVerify in Hrun.
  assert (forall r, Done (fs, r) = Done (fs', resp) -> False) as Hsame.
  { intros r [= Heq _]. by apply Hchg. }
  destruct body as [jsonOTP|err]; [|by apply Hsame in Hrun].
  exists jsonOTP. split; [done|].
  destruct (methods.ValidateAuth _ _ _ _) as [valid|]; [|done].
  cbn [obind] in Hrun.
  destruct valid; cbn [negb] in Hrun; [|by apply Hsame in Hrun].
  split; [done|].
  destruct (len _ =? 0) eqn:Hlen; [by apply Hsame in Hrun|].
  split; [intros Hs; by rewrite Hs in Hlen|].
  unfold otp_config.
  destruct (dgoogauth.Authenticate _ _ _) as [result [e|]];
    [by apply Hsame in Hrun|].
  destruct result; [done|by apply Hsame in Hrun].
Qed.

(** X12. When [OTPVerify] answers 200, whatever the status flag was,
    the token of the body is on the allow-list of the user and
    [Get2FAStatus] reports the second factor of that user as enabled. *)
Theorem X12_otp_verify_admits_and_enables (fs fs' : FS) (now : Z)
        (jsonOTP : models.OTPJson) (resp : response.Response)
        (claims : jwtl.MapClaims) :
  methods.OTPVerify Config fs now (inl jsonOTP) = Done (fs', resp) ->
  response.Code resp = 200 ->
  TokensDir Config ++ str "/" ++ models.Username jsonOTP
  <> SecretsDir Config ++ str "/" ++ models.Username jsonOTP ++ str "/status" ->
  jwtl.get claims "id" = jwtl.VString (models.Username jsonOTP) ->
  methods.CheckTokenValidation Config fs' (models.Username jsonOTP)
    (models.Token jsonOTP) = true
  /\ methods.Get2FAStatus Config fs' claims
     = Done (response.mkResponse 200 200 (str "2FA set for this user")
                                 (response.DBool true)).
Proof.
  intros Hrun Hcode Hdiff Hid.
  destruct (OTPVerify_200 _ _ _ _ _ Hrun Hcode) as (Hft & Hfs & ->).
  set (tp := TokensDir Config ++ str "/" ++ models.Username jsonOTP) in *.
  set (sp := SecretsDir Config ++ str "/" ++ models.Username jsonOTP
             ++ str "/status") in *.
  split.
  - apply CheckTokenValidation_true. fold tp. eexists. split.
    + apply ReadFile_ok. cbn [files denied]. split; [done|].
      by rewrite lookup_insert_ne, lookup_insert_eq.
    + apply occurs_app_l. by exists [], LF.
  - unfold methods.Get2FAStatus. rewrite Hid. cbn [obind assert_string].
    fold sp. unfold ReadFile. cbn [files denied].
    rewrite bool_decide_eq_false_2 by done. rewrite lookup_insert_eq.
    reflexivity.
Qed.

(** X13. Verifying again while the second factor is enabled revokes
    nothing: when [OTPVerify] answers 200 and the status flag read
    neither ["0"] nor nothing, every string that tested as a member of
    the list of the user before the call still does after it. *)
Theorem X13_verifying_again_keeps_the_list (fs fs' : FS) (now : Z)
        (jsonOTP : models.OTPJson) (resp : response.Response) :
  methods.OTPVerify Config fs now (inl jsonOTP) = Done (fs', resp) ->
  response.Code resp = 200 ->
  (let statusOld :=
     strings.TrimSpace
       (ReadFile fs (SecretsDir Config ++ str "/" ++ models.Username jsonOTP
                     ++ str "/status")).1 in
   statusOld <> str "0" /\ statusOld <> str "") ->
  TokensDir Config ++ str "/" ++ models.Username jsonOTP
  <> SecretsDir Config ++ str "/" ++ models.Username jsonOTP ++ str "/status" ->
  forall t,
    methods.CheckTokenValidation Config fs (models.Username jsonOTP) t = true ->
    methods.CheckTokenValidation Config fs' (models.Username jsonOTP) t = true.
Proof.
  intros Hrun Hcode [Hs0 Hs1] Hdiff t (content & Hr & Ho)%CheckTokenValidation_true.
  destruct (OTPVerify_200 _ _ _ _ _ Hrun Hcode) as (Hft & Hfs & ->).
  set (tp := TokensDir Config ++ str "/" ++ models.Username jsonOTP) in *.
  set (sp := SecretsDir Config ++ str "/" ++ models.Username jsonOTP
             ++ str "/status") in *.
  rewrite !bool_decide_eq_false_2 by done. cbn [orb].
  apply ReadFile_ok in Hr as [_ Hr]. rewrite Hr. cbn [default from_option id].
  apply CheckTokenValidation_true. fold tp. eexists. split.
  - apply ReadFile_ok. cbn [files denied]. split; [done|].
    by rewrite lookup_insert_ne, lookup_insert_eq.
  - by apply occurs_app_r.
Qed.

Lemma PayloadFunc_claims (fs : FS) (user : models.UserAuthorizations) :
  jwtl.get (middleware.PayloadFunc Config fs user) "id"
  = jwtl.VString (models.UAUsername user)
  /\ jwtl.get (middleware.PayloadFunc Config fs user) "2fa"
     = jwtl.VBool (negb (bool_decide
                      (methods.GetUserSecret Config fs (models.UAUsername user)
                       = str ""))).
Proof.
  unfold middleware.PayloadFunc, jwtl.get. split.
  - by rewrite lookup_insert_eq.
  - by rewrite !lookup_insert_ne, lookup_insert_eq by done.
Qed.

(** X14. The login of a user who has a secret admits nothing: with the
    claims that [PayloadFunc] builds for that user, [LoginResponse]
    leaves the store as it is, so the new token passes [Authorizator]
    only if it was on the list already. *)
Theorem X14_login_with_second_factor_admits_nothing (fs : FS)
        (user : models.UserAuthorizations) (token : gostring) :
  methods.GetUserSecret Config fs (models.UAUsername user) <> [] ->
  middleware.LoginResponse Config fs (middleware.PayloadFunc Config fs user) token
  = Done fs
  /\ middleware.Authorizator Config fs (middleware.PayloadFunc Config fs user) token
     = Done (methods.CheckTokenValidation Config fs (models.UAUsername user) token).
Proof.
  intros Hsec. destruct (PayloadFunc_claims fs user) as [Hid H2fa].
  unfold middleware.LoginResponse, middleware.Authorizator.
  rewrite Hid, H2fa. cbn [obind assert_string assert_bool].
  rewrite bool_decide_eq_false_2 by done. cbn [negb]. split; [done|].
  by destruct (methods.CheckTokenValidation _ _ _ _).
Qed.

(** X15. The login of a user who has no secret admits the new token:
    with the claims that [PayloadFunc] builds, [LoginResponse] does
    what [SetTokenValidation] does for that user and token, and when
    that call succeeds the token passes [Authorizator] afterwards. *)
Theorem X15_login_without_second_factor_admits_the_token (fs fs' : FS)
        (user : models.UserAuthorizations) (token : gostring) :
  methods.GetUserSecret Config fs (models.UAUsername user) = [] ->
  methods.SetTokenValidation Config fs (models.UAUsername user) token
  = (fs', true) ->
  middleware.LoginResponse Config fs (middleware.PayloadFunc Config fs user) token
  = Done fs'
  /\ middleware.Authorizator Config fs' (middleware.PayloadFunc Config fs user)
       token = Done true.
Proof.
  intros Hsec Hset. destruct (PayloadFunc_claims fs user) as [Hid H2fa].
  unfold middleware.LoginResponse, middleware.Authorizator.
  rewrite Hid, H2fa, Hsec. cbn [obind assert_string assert_bool].
  rewrite bool_decide_eq_true_2 by done. cbn [negb obind assert_string].
  rewrite Hset. split; [done|].
  apply SetTokenValidation_true in Hset as [Hf ->].
  assert (methods.CheckTokenValidation Config
            (mkFS (<[TokensDir Config ++ str "/" ++ models.UAUsername user :=
                      default [] (files fs !! (TokensDir Config ++ str "/"
                                               ++ models.UAUsername user))
                      ++ token ++ LF]> (files fs)) (dirs fs) (denied fs)
                  (short fs))
            (models.UAUsername user) token = true) as ->; [|done].
  apply CheckTokenValidation_true. eexists. split; [by apply ReadFile_insert|].
  apply occurs_app_l. by exists [], LF.
Qed.

(** X16. The identity survives the token: from the claims that
    [PayloadFunc] builds for a user, [IdentityHandler] recovers the
    same user name; the role it reports is ["admin"] whatever role the
    claims carry. *)
Theorem X16_identity_round_trip (fs : FS) (user : models.UserAuthorizations) :
  middleware.IdentityHandler (middleware.PayloadFunc Config fs user)
  = Done (models.mkUserAuthorizations (models.UAUsername user) (str "admin") []).
Proof.
  unfold middleware.IdentityHandler.
  destruct (PayloadFunc_claims fs user) as [Hid _].
  change (jwtl.get (middleware.PayloadFunc Config fs user) middleware.identityKey)
    with (jwtl.get (middleware.PayloadFunc Config fs user) "id").
  by rewrite Hid.
Qed.

End handlers_more.

(** ** More on the one-time passwords *)

Lemma digits_all (s : gostring) (acc n : Z) :
  0 <= acc -> strconv.digits acc s = Some n ->
  0 <= n /\ Forall (fun c => is_Some (strconv.digit c)) s.
Proof.
  revert acc. induction s as [|c s IH]; simpl; intros acc Hacc.
  - intros [= <-]. by split.
  - destruct (strconv.digit c) as [d|] eqn:Hd; [|done].
    assert (0 <= d).
    { unfold strconv.digit in Hd. case_match; [|done]. injection Hd as <-. lia. }
    intros [Hn Hall]%IH; [|lia]. split; [done|]. constructor; [|done].
    by rewrite Hd.
Qed.

Lemma totp_loop_true (n : nat) (c : dgoogauth.OTPConfig) (t code : Z) :
  dgoogauth.totp_loop n c t code = true ->
  exists t', dgoogauth.ComputeCode (dgoogauth.Secret c) t' = code.
Proof.
  revert t. induction n as [|n IH]; simpl; intros t; [done|].
  destruct (_ =? code) eqn:Heq; [|by apply IH].
  intros _. exists t. lia.
Qed.

(** What [Authenticate] accepts under the configuration of [OTPVerify]. *)
Lemma Authenticate_accepted (secret password : gostring)
        (now : Z) (e : option dgoogauth.error) :
  dgoogauth.Authenticate (otp_config secret) now password = (true, e) ->
  e = None /\ length password = 6%nat
  /\ Forall (fun c => is_Some (strconv.digit c)) password
  /\ is_Some (base32.DecodeString secret).
Proof.
  unfold dgoogauth.Authenticate, otp_config. cbn [dgoogauth.HotpCounter].
  destruct ((len password =? 6) && _ && _) eqn:H6.
  - apply andb_prop in H6 as [[Hl Hlo]%andb_prop Hhi].
    destruct (strconv.Atoi password) as [code|] eqn:Ha; [|done].
    change (0 <? 0) with false. cbn iota. intros [= Hok <-].
    split; [done|]. split; [unfold len in Hl; lia|].
    assert (0 <= code /\ Forall (fun c => is_Some (strconv.digit c)) password)
      as [Hcode Hall].
    { unfold strconv.Atoi in Ha. destruct password as [|c p]; [done|].
      unfold byte_at in Hlo, Hhi. simpl in Hlo, Hhi.
      rewrite !bool_decide_eq_false_2 in Ha.
      2,3: intros ->; vm_compute in Hlo; done.
      destruct (strconv.digits 0 (c :: p)) as [n|] eqn:Hd; [|done].
      apply digits_all in Hd as [Hn Hall]; [|done].
      case_match; [|done]. by injection Ha as <-. }
    split; [done|].
    apply totp_loop_true in Hok as [t' Ht']. cbn [dgoogauth.Secret] in Ht'.
    unfold dgoogauth.ComputeCode in Ht'.
    destruct (base32.DecodeString secret); [done|lia].
  - destruct ((len password =? 8) && _ && _); [|done].
    destruct (strconv.Atoi password); done.
Qed.

(** X17. With the configuration that [OTPVerify] builds, [Authenticate]
    accepts nothing but a time-based code: an accepted password is made
    of exactly six decimal digits, the secret it was checked against is
    valid base32, and the error is nil.  Scratch codes of eight digits
    are never accepted. *)
Theorem X17_only_six_digit_codes_are_accepted (secret password : gostring)
        (now : Z) (e : option dgoogauth.error) :
  dgoogauth.Authenticate (otp_config secret) now password = (true, e) ->
  e = None /\ length password = 6%nat
  /\ Forall (fun c => is_Some (strconv.digit c)) password
  /\ is_Some (base32.DecodeString secret).
Proof. apply Authenticate_accepted. Qed.

Section otp_more.
Import os configuration.
Context (Config : Configuration) `{jwtl.Codec}.

(** X18. A stored secret that is not valid base32 locks the second
    factor: whatever the time and the password, [OTPVerify] does not
    answer 200 for that user and leaves the store as it is. *)
Theorem X18_corrupt_secret_never_verifies (fs fs' : FS) (now : Z)
        (jsonOTP : models.OTPJson) (resp : response.Response) :
  base32.DecodeString
    (methods.GetUserSecret Config fs (models.Username jsonOTP)) = None ->
  methods.OTPVerify Config fs now (inl jsonOTP) = Done (fs', resp) ->
  fs' = fs /\ response.Code resp <> 200.
Proof.
  intros Hbad Hrun. unfold methods.OTPVerify in Hrun.
  destruct (methods.ValidateAuth _ _ _ _) as [valid|]; [|done].
  cbn [obind] in Hrun.
  destruct valid; cbn [negb] in Hrun; [|by simplify_eq].
  destruct (len _ =? 0); [by simplify_eq|].
  destruct (dgoogauth.Authenticate _ _ _) as [result err] eqn:Hauth.
  destruct result.
  - apply Authenticate_accepted in Hauth. rewrite Hbad in Hauth.
    by destruct Hauth as (_ & _ & _ & [? ?]).
  - rewrite orb_true_r in Hrun. by simplify_eq.
Qed.

End otp_more.

(** ** The configuration *)

Section init.
Import os configuration.

(** X19. A configuration that [Init] has loaded is complete: the key
    of the signatures and the two storage roots are those of the
    environment, and no field is empty, the optional ones falling back
    on their defaults. *)
Theorem X19_loaded_configuration_is_complete
        (env : gmap gostring gostring) (Config : Configuration) :
  Init env = Loaded Config ->
  SecretJWT Config = Getenv env (str "SECRET_JWT")
  /\ SecretsDir Config = Getenv env (str "SECRETS_DIR")
  /\ TokensDir Config = Getenv env (str "TOKENS_DIR")
  /\ ListenAddress Config <> [] /\ SecretJWT Config <> []
  /\ Issuer2FA Config <> [] /\ SecretsDir Config <> []
  /\ TokensDir Config <> [] /\ StaticDir Config <> [].
Proof.
  unfold Init.
  repeat (case_bool_decide; cbn [negb]); intros [= <-]; cbn; done.
Qed.

(** X20. [Init] gives up only for a required variable: when it exits,
    the code is 1, one of [SECRET_JWT], [SECRETS_DIR] and [TOKENS_DIR]
    is unset or empty, and the message on the standard error names
    it. *)
Theorem X20_init_exits_for_a_missing_variable
        (env : gmap gostring gostring) (stderr : gostring) (code : Z) :
  Init env = Exited stderr code ->
  code = 1
  /\ exists name,
       name ∈ [str "SECRET_JWT"; str "SECRETS_DIR"; str "TOKENS_DIR"]
       /\ Getenv env name = []
       /\ stderr = name ++ str " variable is empty. ".
Proof.
  unfold Init.
  destruct (bool_decide (Getenv env (str "SECRET_JWT") = str "")) eqn:H1;
    cbn [negb].
  { apply bool_decide_eq_true in H1. intros [= <- <-]. split; [done|].
    exists (str "SECRET_JWT"). split; [set_solver|]. done. }
  destruct (bool_decide (Getenv env (str "SECRETS_DIR") = str "")) eqn:H2;
    cbn [negb].
  { apply bool_decide_eq_true in H2. intros [= <- <-]. split; [done|].
    exists (str "SECRETS_DIR"). split; [set_solver|]. done. }
  destruct (bool_decide (Getenv env (str "TOKENS_DIR") = str "")) eqn:H3;
    cbn [negb]; [|done].
  apply bool_decide_eq_true in H3. intros [= <- <-]. split; [done|].
  exists (str "TOKENS_DIR"). split; [set_solver|]. done.
Qed.

End init.

(** ** The redaction of the logged body *)

Section redaction.
Context (SensitiveList : list gostring) `{unicode.CaseTables}.

Lemma redact_key_spec (k : gostring) (m : gmap gostring jwtl.value) :
  middleware.redact_key SensitiveList k m
  = if existsb (fun s => strings.Contains (strings.ToLower k) (strings.ToLower s))
               SensitiveList
    then <[k := masked]> m else m.
Proof.
  unfold middleware.redact_key. revert m.
  induction SensitiveList as [|s l IH]; intros m; simpl; [done|].
  rewrite IH. destruct (strings.Contains _ (strings.ToLower s)); simpl; [|done].
  case_match; [|done]. unfold masked. by rewrite insert_insert_eq.
Qed.

Lemma redact_keys_lookup (keys : list gostring) (m : gmap gostring jwtl.value)
      (k : gostring) :
  middleware.redact_keys SensitiveList keys m !! k
  = if bool_decide (k ∈ keys)
       && existsb (fun s => strings.Contains (strings.ToLower k)
                                             (strings.ToLower s)) SensitiveList
    then Some masked else m !! k.
Proof.
  unfold middleware.redact_keys. revert m.
  induction keys as [|k0 keys IH]; intros m; simpl; [done|].
  rewrite IH, redact_key_spec.
  destruct (decide (k = k0)) as [->|Hne].
  - rewrite (bool_decide_eq_true_2 (k0 ∈ k0 :: keys)) by set_solver.
    destruct (existsb _ SensitiveList) eqn:Hs.
    + rewrite andb_true_r. case_bool_decide; [done|]. simpl.
      by rewrite lookup_insert_eq.
    + by rewrite !andb_false_r.
  - assert (bool_decide (k ∈ k0 :: keys) = bool_decide (k ∈ keys)) as ->.
    { apply bool_decide_ext. rewrite elem_of_cons.
      split; [by intros [?|?]|by right]. }
    destruct (_ && _); [done|]. case_match; [|done].
    by rewrite lookup_insert_ne.
Qed.

Lemma redact_lookup_any_order (keys : list gostring)
      (in_ : gmap gostring jwtl.value) (k : gostring) :
  (forall k, k ∈ keys <-> is_Some (in_ !! k)) ->
  middleware.redact_keys SensitiveList keys in_ !! k
  = if existsb (fun s => strings.Contains (strings.ToLower k) (strings.ToLower s))
               SensitiveList
    then (fun _ => masked) <$> in_ !! k else in_ !! k.
Proof.
  intros Hkeys. rewrite redact_keys_lookup.
  destruct (existsb _ SensitiveList); [|by rewrite andb_false_r].
  rewrite andb_true_r. case_bool_decide as Hk.
  - apply Hkeys in Hk as [v ->]. done.
  - destruct (in_ !! k) eqn:Hl; [|done]. exfalso. apply Hk, Hkeys. eauto.
Qed.

Lemma keys_of_map (in_ : gmap gostring jwtl.value) (k : gostring) :
  k ∈ map fst (map_to_list in_) <-> is_Some (in_ !! k).
Proof.
  rewrite list_elem_of_fmap. split.
  - intros ([k' v] & -> & Hin%elem_of_map_to_list). eauto.
  - intros [v Hv]. exists (k, v). split; [done|]. by apply elem_of_map_to_list.
Qed.

(** X21. The redaction keeps the keys of the body and touches values
    only: a key whose lower-case form contains the lower-case form of
    an entry of the sensitive list gets the value ["XXX"], every other
    key keeps its value, and no key is added or lost. *)
Theorem X21_redaction_masks_the_sensitive_keys
        (in_ : gmap gostring jwtl.value) (k : gostring) :
  middleware.redact SensitiveList in_ !! k
  = if existsb (fun s => strings.Contains (strings.ToLower k) (strings.ToLower s))
               SensitiveList
    then (fun _ => jwtl.VString (str "XXX")) <$> in_ !! k
    else in_ !! k.
Proof.
  unfold middleware.redact. apply redact_lookup_any_order. apply keys_of_map.
Qed.

(** X22. The order in which the keys of the body are visited, which Go
    does not fix, does not matter: the loops give the same map for
    every list that holds the keys of the body and nothing else. *)
Theorem X22_redaction_is_order_independent
        (in_ : gmap gostring jwtl.value) (keys : list gostring) :
  (forall k, k ∈ keys <-> is_Some (in_ !! k)) ->
  middleware.redact_keys SensitiveList keys in_
  = middleware.redact SensitiveList in_.
Proof.
  intros Hkeys. apply map_eq. intros k. unfold middleware.redact.
  rewrite (redact_lookup_any_order keys in_ k Hkeys).
  by rewrite (redact_lookup_any_order _ in_ k (keys_of_map in_)).
Qed.

(** On ASCII strings [ToLower] works byte by byte, whatever the case
    tables. *)
Lemma ToLower_ascii (s : gostring) :
  ascii_only s = true -> strings.ToLower s = map lower_byte s.
Proof.
  unfold strings.ToLower, ascii_only, utf8.RuneSelf. intros ->.
  destruct (existsb _ s) eqn:Hup; simpl; [done|].
  induction s as [|c s IH]; [done|]. simpl in *.
  apply orb_false_iff in Hup as [Hc Hup]. rewrite <- IH by done.
  unfold lower_byte. by rewrite Hc.
Qed.

(** X23. The match is blind to the case of ASCII letters: a key of the
    body made of ASCII bytes is masked as soon as an ASCII entry of the
    sensitive list occurs in it once upper-case letters are read as
    lower-case ones, whatever the case tables say beyond ASCII. *)
Theorem X23_redaction_ignores_ascii_case
        (in_ : gmap gostring jwtl.value) (k s : gostring) :
  s ∈ SensitiveList ->
  ascii_only k = true -> ascii_only s = true ->
  occurs (map lower_byte s) (map lower_byte k) ->
  is_Some (in_ !! k) ->
  middleware.redact SensitiveList in_ !! k = Some (jwtl.VString (str "XXX")).
Proof.
  intros Hs Hk Hsa Hocc [v Hv].
  unfold middleware.redact.
  rewrite (redact_lookup_any_order _ in_ k (keys_of_map in_)), Hv.
  assert (existsb (fun s => strings.Contains (strings.ToLower k)
                                             (strings.ToLower s)) SensitiveList
          = true) as ->; [|done].
  apply existsb_exists. exists s. split; [by apply list_elem_of_In|].
  rewrite !ToLower_ascii by done. by apply Contains_spec.
Qed.

End redaction.

(** ** Base32 *)

Lemma forallb_below (n : nat) (P : Z -> bool) :
  forallb P (below n) = true -> forall x, 0 <= x < Z.of_nat n -> P x = true.
Proof.
  intros Hall x Hx. rewrite forallb_forall in Hall. apply Hall.
  unfold below. apply in_map_iff. exists (Z.to_nat x). split; [lia|].
  apply in_seq. lia.
Qed.

Lemma is_byte_spec (b : Z) : is_byte b = true <-> 0 <= b < 256.
Proof. unfold is_byte. lia. Qed.

(** Checking a property of one or two bytes, or of up to three 5-bit
    blocks, on every value. *)
Lemma all_bytes (P : Z -> bool) :
  forallb P (below 256) = true -> forall x, 0 <= x < 256 -> P x = true.
Proof. intros Hall x Hx. by apply (forallb_below 256). Qed.

Lemma all_bytes2 (P : Z -> Z -> bool) :
  forallb (fun x => forallb (P x) (below 256)) (below 256) = true ->
  forall x y, 0 <= x < 256 -> 0 <= y < 256 -> P x y = true.
Proof.
  intros Hall x y Hx Hy.
  apply (forallb_below 256 (P x)); [|done].
  by apply (forallb_below 256 (fun x => forallb (P x) (below 256))).
Qed.

Lemma all_blocks2 (P : Z -> Z -> bool) :
  forallb (fun x => forallb (P x) (below 32)) (below 32) = true ->
  forall x y, 0 <= x < 32 -> 0 <= y < 32 -> P x y = true.
Proof.
  intros Hall x y Hx Hy.
  apply (forallb_below 32 (P x)); [|done].
  by apply (forallb_below 32 (fun x => forallb (P x) (below 32))).
Qed.

Lemma all_blocks3 (P : Z -> Z -> Z -> bool) :
  forallb (fun x => forallb (fun y => forallb (P x y) (below 32)) (below 32))
          (below 32) = true ->
  forall x y z, 0 <= x < 32 -> 0 <= y < 32 -> 0 <= z < 32 -> P x y z = true.
Proof.
  intros Hall x y z Hx Hy Hz.
  apply (forallb_below 32 (P x y)); [|done].
  apply (forallb_below 32 (fun y => forallb (P x y) (below 32))); [|done].
  by apply (forallb_below 32
              (fun x => forallb (fun y => forallb (P x y) (below 32)) (below 32))).
Qed.

(** The blocks that [unpack] cuts out of five bytes. *)
Lemma unpack_blocks (x0 x1 x2 x3 x4 : Z) :
  0 <= x0 < 256 -> 0 <= x1 < 256 -> 0 <= x2 < 256 -> 0 <= x3 < 256 ->
  0 <= x4 < 256 ->
  base32.unpack [x0; x1; x2; x3; x4] = blocks x0 x1 x2 x3 x4.
Proof.
  intros H0 H1 H2 H3 H4. unfold base32.unpack, blocks.
  cbn [length Nat.leb nth].
  repeat f_equal.
  - apply Z.eqb_eq.
    apply (all_bytes (fun x0 => Z.shiftr x0 3 =? x0 / 8)); [|done].
    vm_compute; reflexivity.
  - apply Z.eqb_eq.
    apply (all_bytes2
             (fun x0 x1 => Z.lor (Z.land (Z.shiftr x1 6) 31)
                                 (Z.land (Z.shiftl x0 2) 31)
                           =? x0 mod 8 * 4 + x1 / 64)); [|done|done].
    vm_compute; reflexivity.
  - apply Z.eqb_eq.
    apply (all_bytes (fun x1 => Z.land (Z.shiftr x1 1) 31 =? x1 / 2 mod 32));
      [|done].
    vm_compute; reflexivity.
  - apply Z.eqb_eq.
    apply (all_bytes2
             (fun x1 x2 => Z.lor (Z.land (Z.shiftr x2 4) 31)
                                 (Z.land (Z.shiftl x1 4) 31)
                           =? x1 mod 2 * 16 + x2 / 16)); [|done|done].
    vm_compute; reflexivity.
  - apply Z.eqb_eq.
    apply (all_bytes2
             (fun x2 x3 => Z.lor (Z.shiftr x3 7) (Z.land (Z.shiftl x2 1) 31)
                           =? x2 mod 16 * 2 + x3 / 128)); [|done|done].
    vm_compute; reflexivity.
  - apply Z.eqb_eq.
    apply (all_bytes (fun x3 => Z.land (Z.shiftr x3 2) 31 =? x3 / 4 mod 32));
      [|done].
    vm_compute; reflexivity.
  - apply Z.eqb_eq.
    apply (all_bytes2
             (fun x3 x4 => Z.lor (Z.shiftr x4 5) (Z.land (Z.shiftl x3 3) 31)
                           =? x3 mod 4 * 8 + x4 / 32)); [|done|done].
    vm_compute; reflexivity.
  - apply Z.eqb_eq.
    apply (all_bytes (fun x4 => Z.land x4 31 =? x4 mod 32)); [|done].
    vm_compute; reflexivity.
Qed.

Lemma blocks_range (x0 x1 x2 x3 x4 : Z) :
  0 <= x0 < 256 -> 0 <= x1 < 256 -> 0 <= x2 < 256 -> 0 <= x3 < 256 ->
  0 <= x4 < 256 ->
  Forall (fun d => 0 <= d < 32) (blocks x0 x1 x2 x3 x4).
Proof.
  intros. unfold blocks.
  repeat (constructor; [Z.div_mod_to_equations; lia|]). constructor.
Qed.

(** The bytes that [quantum] puts together from the blocks. *)
Lemma quantum_blocks (x0 x1 x2 x3 x4 : Z) :
  0 <= x0 < 256 -> 0 <= x1 < 256 -> 0 <= x2 < 256 -> 0 <= x3 < 256 ->
  0 <= x4 < 256 ->
  base32.quantum (blocks x0 x1 x2 x3 x4) 8 = [x0; x1; x2; x3; x4].
Proof.
  intros H0 H1 H2 H3 H4.
  pose proof (blocks_range x0 x1 x2 x3 x4 H0 H1 H2 H3 H4) as Hr.
  unfold blocks in *.
  repeat (apply Forall_cons in Hr as [? Hr]).
  unfold base32.quantum. cbn [nth].
  set (d0 := x0 / 8) in *. set (d1 := x0 mod 8 * 4 + x1 / 64) in *.
  set (d2 := x1 / 2 mod 32) in *. set (d3 := x1 mod 2 * 16 + x2 / 16) in *.
  set (d4 := x2 mod 16 * 2 + x3 / 128) in *. set (d5 := x3 / 4 mod 32) in *.
  set (d6 := x3 mod 4 * 8 + x4 / 32) in *. set (d7 := x4 mod 32) in *.
  assert (Z.lor (Z.shiftl d0 3) (Z.shiftr d1 2) mod 256 = d0 * 8 + d1 / 4) as ->.
  { apply Z.eqb_eq.
    apply (all_blocks2 (fun d0 d1 => Z.lor (Z.shiftl d0 3) (Z.shiftr d1 2) mod 256
                                     =? d0 * 8 + d1 / 4)); [|done|done].
    vm_compute; reflexivity. }
  assert (Z.lor (Z.lor (Z.shiftl d1 6) (Z.shiftl d2 1)) (Z.shiftr d3 4) mod 256
          = d1 mod 4 * 64 + d2 * 2 + d3 / 16) as ->.
  { apply Z.eqb_eq.
    apply (all_blocks3
             (fun d1 d2 d3 =>
                Z.lor (Z.lor (Z.shiftl d1 6) (Z.shiftl d2 1)) (Z.shiftr d3 4)
                  mod 256 =? d1 mod 4 * 64 + d2 * 2 + d3 / 16));
      [|done|done|done].
    vm_compute; reflexivity. }
  assert (Z.lor (Z.shiftl d3 4) (Z.shiftr d4 1) mod 256
          = d3 mod 16 * 16 + d4 / 2) as ->.
  { apply Z.eqb_eq.
    apply (all_blocks2 (fun d3 d4 => Z.lor (Z.shiftl d3 4) (Z.shiftr d4 1) mod 256
                                     =? d3 mod 16 * 16 + d4 / 2)); [|done|done].
    vm_compute; reflexivity. }
  assert (Z.lor (Z.lor (Z.shiftl d4 7) (Z.shiftl d5 2)) (Z.shiftr d6 3) mod 256
          = d4 mod 2 * 128 + d5 * 4 + d6 / 8) as ->.
  { apply Z.eqb_eq.
    apply (all_blocks3
             (fun d4 d5 d6 =>
                Z.lor (Z.lor (Z.shiftl d4 7) (Z.shiftl d5 2)) (Z.shiftr d6 3)
                  mod 256 =? d4 mod 2 * 128 + d5 * 4 + d6 / 8));
      [|done|done|done].
    vm_compute; reflexivity. }
  assert (Z.lor (Z.shiftl d6 5) d7 mod 256 = d6 mod 8 * 32 + d7) as ->.
  { apply Z.eqb_eq.
    apply (all_blocks2 (fun d6 d7 => Z.lor (Z.shiftl d6 5) d7 mod 256
                                     =? d6 mod 8 * 32 + d7)); [|done|done].
    vm_compute; reflexivity. }
  unfold d0, d1, d2, d3, d4, d5, d6, d7.
  repeat f_equal; Z.div_mod_to_equations; lia.
Qed.

(** A symbol of the alphabet is read back as its block; it is neither
    the padding character nor a new line. *)
Lemma decode_encode_symbol (d : Z) :
  0 <= d < 32 ->
  base32.decodeMap (base32.encode_symbol d) = Some d
  /\ base32.encode_symbol d <> base32.padChar
  /\ base32.encode_symbol d <> "010"%char
  /\ base32.encode_symbol d <> "013"%char.
Proof.
  intros Hd.
  assert (forallb
    (fun d => bool_decide (base32.decodeMap (base32.encode_symbol d) = Some d)
              && negb (bool_decide (base32.encode_symbol d = base32.padChar))
              && negb (bool_decide (base32.encode_symbol d = "010"%char))
              && negb (bool_decide (base32.encode_symbol d = "013"%char)))
    (below 32) = true) as Hall by (vm_compute; reflexivity).
  apply (fun H => forallb_below 32 _ H d Hd) in Hall.
  cbv beta in Hall.
  apply andb_prop in Hall as [[[H1 H2]%andb_prop H3]%andb_prop H4].
  apply bool_decide_eq_true in H1.
  apply negb_true_iff, bool_decide_eq_false in H2, H3, H4. done.
Qed.

(** The inner loop of the decoder on the symbols of a full quantum. *)
Lemma read_quantum_symbols (ds : list Z) (j : nat) (rest : gostring) :
  Forall (fun d => 0 <= d < 32) ds ->
  base32.read_quantum (length ds) j (map base32.encode_symbol ds ++ rest)
  = Some (ds, false, rest).
Proof.
  intros Hr. revert j.
  induction Hr as [|d ds Hd _ IH]; intros j; [done|].
  cbn [length map app base32.read_quantum].
  destruct (decode_encode_symbol d Hd) as (-> & Hp & _).
  rewrite (bool_decide_eq_false_2 (base32.encode_symbol d = base32.padChar))
    by done.
  cbn [andb]. by rewrite IH.
Qed.

(** The inner loop on the symbols of a final quantum and its padding. *)
Lemma read_quantum_padded (ds : list Z) (j m : nat) :
  Forall (fun d => 0 <= d < 32) ds ->
  (j + length ds + S m = 8)%nat -> (2 <= j + length ds)%nat ->
  (j + length ds <> 3)%nat -> (j + length ds <> 6)%nat ->
  base32.read_quantum (length ds + S m) j
    (map base32.encode_symbol ds ++ replicate (S m) base32.padChar)
  = Some (ds, true, replicate m base32.padChar).
Proof.
  intros Hr. revert j.
  induction Hr as [|d ds Hd _ IH]; intros j Hlen H2 H3 H6.
  - cbn [length map app replicate base32.read_quantum Nat.add] in *.
    rewrite bool_decide_eq_true_2 by done.
    rewrite length_replicate.
    assert ((2 <=? j)%nat = true) as -> by (apply Nat.leb_le; lia).
    assert ((m <? 8)%nat = true) as -> by (apply Nat.ltb_lt; lia).
    cbn [andb].
    assert ((m + j <? 8 - 1)%nat = false) as -> by (apply Nat.ltb_ge; lia).
    assert (forallb (fun c => bool_decide (c = base32.padChar))
                    (take (8 - 1 - j) (replicate m base32.padChar)) = true)
      as ->.
    { apply forallb_forall. intros c Hc%list_elem_of_In.
      apply elem_of_take in Hc as (i & Hc & _).
      apply lookup_replicate in Hc as [-> _]. by apply bool_decide_eq_true_2. }
    cbn [negb].
    assert ((j =? 1)%nat || (j =? 3)%nat || (j =? 6)%nat = false) as ->; [|done].
    rewrite !orb_false_iff, !Nat.eqb_neq. lia.
  - cbn [length map app base32.read_quantum Nat.add].
    destruct (decode_encode_symbol d Hd) as (-> & Hp & _).
    rewrite (bool_decide_eq_false_2 (base32.encode_symbol d = base32.padChar))
      by done.
    cbn [andb]. rewrite IH; [done| | | |]; cbn [length] in *; lia.
Qed.

Lemma decode_step (f : nat) (c : ascii) (src : gostring) :
  base32.decode (S f) (c :: src)
  = match base32.read_quantum 8 0 (c :: src) with
    | None => None
    | Some (dbuf, end_, rest) =>
      if end_ then Some (base32.quantum dbuf (length dbuf))
      else option_map (app (base32.quantum dbuf (length dbuf)))
                      (base32.decode f rest)
    end.
Proof. reflexivity. Qed.

(** One full quantum, and each of the four padded ones. *)
Lemma decode_full (f : nat) (ds : list Z) (rest : gostring) :
  length ds = 8%nat -> Forall (fun d => 0 <= d < 32) ds ->
  base32.decode (S f) (map base32.encode_symbol ds ++ rest)
  = option_map (app (base32.quantum ds 8)) (base32.decode f rest).
Proof.
  intros Hl Hr. destruct ds as [|d ds]; [done|].
  cbn [map app]. rewrite decode_step.
  change (base32.encode_symbol d :: map base32.encode_symbol ds ++ rest)
    with (map base32.encode_symbol (d :: ds) ++ rest).
  rewrite <- Hl at 1. rewrite read_quantum_symbols by done. by rewrite Hl.
Qed.

Lemma decode_last (f : nat) (ds : list Z) (n : nat) :
  (length ds + S n = 8)%nat -> length ds ∈ [7; 5; 4; 2]%nat ->
  Forall (fun d => 0 <= d < 32) ds ->
  base32.decode (S f)
    (map base32.encode_symbol ds ++ replicate (S n) base32.padChar)
  = Some (base32.quantum ds (length ds)).
Proof.
  intros Hl Hin Hr.
  assert (2 <= length ds /\ length ds <> 3 /\ length ds <> 6)%nat
    as (H2 & H3 & H6).
  { repeat (apply elem_of_cons in Hin as [->|Hin]; [lia|]).
    by apply elem_of_nil in Hin. }
  destruct ds as [|d ds]; [cbn in H2; lia|].
  cbn [map app]. rewrite decode_step.
  change (base32.encode_symbol d :: map base32.encode_symbol ds
          ++ replicate (S n) base32.padChar)
    with (map base32.encode_symbol (d :: ds) ++ replicate (S n) base32.padChar).
  rewrite <- Hl at 1. by rewrite read_quantum_padded.
Qed.

Lemma Forall_take_range (n : nat) (ds : list Z) :
  Forall (fun d => 0 <= d < 32) ds -> Forall (fun d => 0 <= d < 32) (take n ds).
Proof. apply Forall_take. Qed.

Lemma base32_round_trip_fuel (f1 : nat) :
  forall (src : list Z) (f2 : nat),
    Forall (fun b => 0 <= b < 256) src ->
    (length src <= f1)%nat ->
    (length (base32.encode f1 src) <= f2)%nat ->
    base32.decode f2 (base32.encode f1 src) = Some src.
Proof.
  induction f1 as [|f IH]; intros src f2 Hb Hf1 Hf2.
  { destruct src; [|simpl in Hf1; lia]. by destruct f2. }
  destruct src as [|x0 src]; [by destruct f2|].
  apply Forall_cons in Hb as [H0 Hb].
  assert (0 <= 0 < 256) as Hz by lia.
  destruct src as [|x1 src].
  { (* one byte *)
    assert (base32.encode (S f) [x0]
            = map base32.encode_symbol (take 2 (base32.unpack [x0; 0; 0; 0; 0]))
              ++ replicate 6 base32.padChar) as He by reflexivity.
    rewrite He in Hf2 |- *. rewrite unpack_blocks in Hf2 |- * by done.
    destruct f2 as [|f2]; [simpl in Hf2; lia|].
    rewrite decode_last; [|done|repeat constructor|
      apply Forall_take_range, blocks_range; done].
    change (base32.quantum (take 2 (blocks x0 0 0 0 0))
              (length (take 2 (blocks x0 0 0 0 0))))
      with (take 1 (base32.quantum (blocks x0 0 0 0 0) 8)).
    by rewrite quantum_blocks. }
  apply Forall_cons in Hb as [H1 Hb].
  destruct src as [|x2 src].
  { assert (base32.encode (S f) [x0; x1]
            = map base32.encode_symbol (take 4 (base32.unpack [x0; x1; 0; 0; 0]))
              ++ replicate 4 base32.padChar) as He by reflexivity.
    rewrite He in Hf2 |- *. rewrite unpack_blocks in Hf2 |- * by done.
    destruct f2 as [|f2]; [simpl in Hf2; lia|].
    rewrite decode_last; [|done|repeat constructor|
      apply Forall_take_range, blocks_range; done].
    change (base32.quantum (take 4 (blocks x0 x1 0 0 0))
              (length (take 4 (blocks x0 x1 0 0 0))))
      with (take 2 (base32.quantum (blocks x0 x1 0 0 0) 8)).
    by rewrite quantum_blocks. }
  apply Forall_cons in Hb as [H2 Hb].
  destruct src as [|x3 src].
  { assert (base32.encode (S f) [x0; x1; x2]
            = map base32.encode_symbol (take 5 (base32.unpack [x0; x1; x2; 0; 0]))
              ++ replicate 3 base32.padChar) as He by reflexivity.
    rewrite He in Hf2 |- *. rewrite unpack_blocks in Hf2 |- * by done.
    destruct f2 as [|f2]; [simpl in Hf2; lia|].
    rewrite decode_last; [|done|repeat constructor|
      apply Forall_take_range, blocks_range; done].
    change (base32.quantum (take 5 (blocks x0 x1 x2 0 0))
              (length (take 5 (blocks x0 x1 x2 0 0))))
      with (take 3 (base32.quantum (blocks x0 x1 x2 0 0) 8)).
    by rewrite quantum_blocks. }
  apply Forall_cons in Hb as [H3 Hb].
  destruct src as [|x4 src].
  { assert (base32.encode (S f) [x0; x1; x2; x3]
            = map base32.encode_symbol
                  (take 7 (base32.unpack [x0; x1; x2; x3; 0]))
              ++ replicate 1 base32.padChar) as He by reflexivity.
    rewrite He in Hf2 |- *. rewrite unpack_blocks in Hf2 |- * by done.
    destruct f2 as [|f2]; [simpl in Hf2; lia|].
    rewrite decode_last; [|done|repeat constructor|
      apply Forall_take_range, blocks_range; done].
    change (base32.quantum (take 7 (blocks x0 x1 x2 x3 0))
              (length (take 7 (blocks x0 x1 x2 x3 0))))
      with (take 4 (base32.quantum (blocks x0 x1 x2 x3 0) 8)).
    by rewrite quantum_blocks. }
  apply Forall_cons in Hb as [H4 Hb].
  assert (base32.encode (S f) (x0 :: x1 :: x2 :: x3 :: x4 :: src)
          = map base32.encode_symbol (base32.unpack [x0; x1; x2; x3; x4])
            ++ base32.encode f src) as He by reflexivity.
  rewrite He in Hf2 |- *. rewrite unpack_blocks in Hf2 |- * by done.
  rewrite length_app, length_map in Hf2.
  destruct f2 as [|f2]; [simpl in Hf2; lia|].
  rewrite decode_full; [|done|by apply blocks_range].
  rewrite quantum_blocks by done.
  rewrite IH; [done|done|simpl in Hf1; lia|simpl in Hf2; lia].
Qed.

Lemma encode_no_newline (f : nat) (src : list Z) :
  Forall (fun b => 0 <= b < 256) src ->
  base32.stripNewlines (base32.encode f src) = base32.encode f src.
Proof.
  revert src. induction f as [|f IH]; intros src Hb; [done|].
  assert (forall ds n,
            Forall (fun d => 0 <= d < 32) ds ->
            base32.stripNewlines
              (map base32.encode_symbol ds ++ replicate n base32.padChar)
            = map base32.encode_symbol ds ++ replicate n base32.padChar) as Hq.
  { intros ds n Hr. unfold base32.stripNewlines. rewrite filter_app. f_equal.
    - induction Hr as [|d ds Hd _ IHr]; [done|]. cbn [map].
      destruct (decode_encode_symbol d Hd) as (_ & _ & Hlf & Hcr).
      rewrite filter_cons_True by done. by rewrite IHr.
    - induction n as [|n IHn]; [done|]. cbn [replicate].
      rewrite filter_cons_True by done. by rewrite IHn. }
  assert (0 <= 0 < 256) as Hz by lia.
  destruct src as [|x0 src]; [done|]. apply Forall_cons in Hb as [H0 Hb].
  destruct src as [|x1 src].
  { change (base32.encode (S f) [x0])
      with (map base32.encode_symbol (take 2 (base32.unpack [x0; 0; 0; 0; 0]))
            ++ replicate 6 base32.padChar).
    rewrite unpack_blocks by done.
    apply Hq, Forall_take_range, blocks_range; done. }
  apply Forall_cons in Hb as [H1 Hb].
  destruct src as [|x2 src].
  { change (base32.encode (S f) [x0; x1])
      with (map base32.encode_symbol (take 4 (base32.unpack [x0; x1; 0; 0; 0]))
            ++ replicate 4 base32.padChar).
    rewrite unpack_blocks by done.
    apply Hq, Forall_take_range, blocks_range; done. }
  apply Forall_cons in Hb as [H2 Hb].
  destruct src as [|x3 src].
  { change (base32.encode (S f) [x0; x1; x2])
      with (map base32.encode_symbol (take 5 (base32.unpack [x0; x1; x2; 0; 0]))
            ++ replicate 3 base32.padChar).
    rewrite unpack_blocks by done.
    apply Hq, Forall_take_range, blocks_range; done. }
  apply Forall_cons in Hb as [H3 Hb].
  destruct src as [|x4 src].
  { change (base32.encode (S f) [x0; x1; x2; x3])
      with (map base32.encode_symbol (take 7 (base32.unpack [x0; x1; x2; x3; 0]))
            ++ replicate 1 base32.padChar).
    rewrite unpack_blocks by done.
    apply Hq, Forall_take_range, blocks_range; done. }
  apply Forall_cons in Hb as [H4 Hb].
  change (base32.encode (S f) (x0 :: x1 :: x2 :: x3 :: x4 :: src))
    with (map base32.encode_symbol (base32.unpack [x0; x1; x2; x3; x4])
          ++ base32.encode f src).
  rewrite unpack_blocks by done.
  unfold base32.stripNewlines. rewrite filter_app.
  fold (base32.stripNewlines (base32.encode f src)). rewrite IH by done.
  f_equal. rewrite <- (app_nil_r (map _ _)).
  apply (Hq _ 0%nat), blocks_range; done.
Qed.

Lemma base32_round_trip_aux (src : list Z) :
  Forall (fun b => 0 <= b < 256) src ->
  base32.DecodeString (base32.EncodeToString src) = Some src.
Proof.
  intros Hb. unfold base32.DecodeString, base32.EncodeToString.
  rewrite encode_no_newline by done.
  by apply base32_round_trip_fuel.
Qed.

(** X24. Base32 round trip: decoding what [EncodeToString] gives for a
    sequence of bytes gives the same bytes back, whatever their number,
    padded final quantum included. *)
Theorem X24_base32_round_trip (src : list Z) :
  Forall (fun b => 0 <= b < 256) src ->
  base32.DecodeString (base32.EncodeToString src) = Some src.
Proof. apply base32_round_trip_aux. Qed.

(** ** The enrolment *)

Lemma escape_unreserved (s : gostring) (mode : url.encoding) :
  forallb unreserved s = true -> url.escape s mode = s.
Proof.
  unfold url.escape. induction s as [|ch s IH]; [done|].
  cbn [forallb flat_map]. intros [Hc Hs]%andb_prop. rewrite IH by done.
  assert (url.shouldEscape (byte_at [ch] 0) mode = false) as ->; [|done].
  unfold unreserved in Hc. unfold url.shouldEscape.
  destruct (url.is_alnum (byte_at [ch] 0)); [done|]. cbn [orb] in Hc.
  destruct mode; cbn [andb]; repeat case_match; congruence.
Qed.

(** One more pair in a query string that is not empty. *)
Lemma amp_step (c : ascii) (buf k v : gostring) :
  (if 0 <? len (c :: buf) then (c :: buf) ++ str "&" else c :: buf)
  ++ k ++ str "=" ++ v
  = c :: buf ++ str "&" ++ k ++ str "=" ++ v.
Proof.
  assert ((0 <? len (c :: buf)) = true) as -> by reflexivity.
  by rewrite <- !app_assoc.
Qed.

(** The query string of the enrolment: the five parameters, sorted by
    key. *)
Lemma Encode_otpauth (issuer setSecret : gostring) :
  url.Encode
    (url.Add (url.Add (url.Add (url.Add (url.Add ∅ (str "secret") setSecret)
                                        (str "issuer") issuer)
                               (str "algorithm") (str "SHA1"))
                      (str "digits") (str "6"))
             (str "period") (str "30"))
  = str "algorithm=SHA1&digits=6&issuer=" ++ url.QueryEscape issuer
    ++ str "&period=30&secret=" ++ url.QueryEscape setSecret.
Proof.
  unfold url.Encode.
  set (params := url.Add _ _ _).
  assert (sort.Strings (map fst (map_to_list params))
          = [str "algorithm"; str "digits"; str "issuer"; str "period";
             str "secret"]) as ->.
  { vm_compute. reflexivity. }
  assert (params !! str "algorithm" = Some [str "SHA1"]) as H1
    by (vm_compute; reflexivity).
  assert (params !! str "digits" = Some [str "6"]) as H2
    by (vm_compute; reflexivity).
  assert (params !! str "issuer" = Some [issuer]) as H3
    by (vm_compute; reflexivity).
  assert (params !! str "period" = Some [str "30"]) as H4
    by (vm_compute; reflexivity).
  assert (params !! str "secret" = Some [setSecret]) as H5
    by (vm_compute; reflexivity).
  clearbody params.
  cbn [foldl]. rewrite H1, H2, H3, H4, H5. cbn [default from_option id foldl].
  change (url.QueryEscape (str "algorithm")) with (str "algorithm").
  change (url.QueryEscape (str "SHA1")) with (str "SHA1").
  change (url.QueryEscape (str "digits")) with (str "digits").
  change (url.QueryEscape (str "6")) with (str "6").
  change (url.QueryEscape (str "issuer")) with (str "issuer").
  change (url.QueryEscape (str "period")) with (str "period").
  change (url.QueryEscape (str "30")) with (str "30").
  change (url.QueryEscape (str "secret")) with (str "secret").
  change ((if 0 <? len [] then [] ++ str "&" else [])
          ++ str "algorithm" ++ str "=" ++ str "SHA1")
    with ("a"%char :: str "lgorithm=SHA1").
  rewrite amp_step.
  rewrite amp_step.
  rewrite amp_step. rewrite amp_step.
  rewrite <- ?app_assoc. reflexivity.
Qed.

(** The address [otpauth://totp] with a path and a query. *)
Lemma String_otpauth (path query : gostring) :
  url.String (url.mkURL (str "otpauth") (str "totp") ("/"%char :: path)
                        ("a"%char :: query))
  = str "otpauth://totp" ++ url.escape ("/"%char :: path) url.encodePath
    ++ str "?" ++ "a"%char :: query.
Proof.
  unfold url.String, url.EscapedPath.
  cbn [url.Scheme url.Host url.Path url.RawQuery].
  rewrite (bool_decide_eq_false_2 (str "otpauth" = str "")) by done.
  rewrite (bool_decide_eq_false_2 (str "totp" = str "")) by done.
  rewrite (bool_decide_eq_false_2 ("/"%char :: path = str "")) by done.
  rewrite (bool_decide_eq_false_2 ("/"%char :: path = str "*")) by done.
  rewrite (bool_decide_eq_false_2 ("a"%char :: query = str "")) by done.
  change (url.escape (str "totp") url.encodeHost) with (str "totp").
  change (url.escape ("/"%char :: path) url.encodePath)
    with ("/"%char :: url.escape path url.encodePath).
  cbn [negb orb andb].
  rewrite (bool_decide_eq_false_2 (_ :: _ = str "")) by done.
  change (byte_at ("/"%char :: url.escape path url.encodePath) 0 =? 47) with true.
  cbn [negb orb andb].
  reflexivity.
Qed.

Section enrolment.
Import os configuration.
Context (Config : Configuration) `{jwtl.Codec}.

(** What [QRCode] answers, from what [SetUserSecret] returns. *)
Lemma QRCode_cases (fs : FS) (random : list Z) (claims : jwtl.MapClaims)
      (account : gostring) :
  jwtl.get claims "id" = jwtl.VString account ->
  methods.QRCode Config fs random claims
  = let r := methods.SetUserSecret Config fs account
                                   (base32.EncodeToString random) in
    if r.2.1 then
      Done (r.1,
            response.QRCodeString
              (str "otpauth://totp"
               ++ url.escape (str "/" ++ Issuer2FA Config ++ str ":" ++ account)
                             url.encodePath
               ++ str "?algorithm=SHA1&digits=6&issuer="
               ++ url.QueryEscape (Issuer2FA Config)
               ++ str "&period=30&secret=" ++ url.QueryEscape r.2.2)
              r.2.2)
    else
      Done (r.1, response.QRError
                   (response.mkResponse 400 400 (str "User secret set error")
                                        (response.DString (str "")))).
Proof.
  intros Hid. unfold methods.QRCode. rewrite Hid. cbn [obind assert_string].
  destruct (methods.SetUserSecret _ _ _ _) as [fs1 [result setSecret]].
  cbn [fst snd]. destruct result; cbn [negb]; [|done].
  rewrite Encode_otpauth. cbn [url.Scheme url.Host url.Path url.RawQuery
                               url.otpauth_totp].
  change ([] ++ str "/" ++ Issuer2FA Config ++ str ":" ++ account)
    with ("/"%char :: Issuer2FA Config ++ str ":" ++ account).
  change (str "algorithm=SHA1&digits=6&issuer=" ++ url.QueryEscape (Issuer2FA Config)
          ++ str "&period=30&secret=" ++ url.QueryEscape setSecret)
    with ("a"%char :: str "lgorithm=SHA1&digits=6&issuer="
          ++ url.QueryEscape (Issuer2FA Config)
          ++ str "&period=30&secret=" ++ url.QueryEscape setSecret).
  rewrite String_otpauth. done.
Qed.

(** X25. [QRCode] does not rotate a secret: for a user who has one,
    whatever the random bytes, the store stays as it is and the key in
    the answer is the secret that was there. *)
Theorem X25_enrolment_keeps_an_existing_secret (fs : FS) (random : list Z)
        (claims : jwtl.MapClaims) (account : gostring) :
  jwtl.get claims "id" = jwtl.VString account ->
  methods.GetUserSecret Config fs account <> [] ->
  exists url,
    methods.QRCode Config fs random claims
    = Done (fs, response.QRCodeString
                  url (methods.GetUserSecret Config fs account)).
Proof.
  intros Hid Hsec. rewrite (QRCode_cases _ _ _ _ Hid).
  destruct (methods.SetUserSecret _ _ _ _) as [fs1 [ok r]] eqn:Hset.
  cbn [fst snd].
  apply SetUserSecret_cases in Hset
    as [(_ & -> & -> & ->)|[(? & _)|(? & _)]]; [|done|done].
  eauto.
Qed.

(** X26. The key that [QRCode] shows is the key in force: when it
    answers with a key, [GetUserSecret] reads that key afterwards; and
    for a user who had no secret the key is the base32 form of the
    random bytes, which [DecodeString] gives back. *)
Theorem X26_enrolment_key_is_the_stored_secret (fs fs' : FS) (random : list Z)
        (claims : jwtl.MapClaims) (account url key : gostring) :
  jwtl.get claims "id" = jwtl.VString account ->
  Forall (fun b => 0 <= b < 256) random ->
  methods.QRCode Config fs random claims
  = Done (fs', response.QRCodeString url key) ->
  methods.GetUserSecret Config fs' account = key
  /\ (methods.GetUserSecret Config fs account = [] ->
      key = base32.EncodeToString random
      /\ base32.DecodeString key = Some random).
Proof.
  intros Hid Hb. rewrite (QRCode_cases _ _ _ _ Hid).
  destruct (methods.SetUserSecret _ _ _ _) as [fs1 [ok r]] eqn:Hset.
  cbn [fst snd]. destruct ok; [|done]. intros [= <- _ <-].
  apply SetUserSecret_cases in Hset
    as [(Hne & -> & _ & ->)|[(He & _ & -> & Hf & Hfiles & Hfty)|(_ & ? & _)]];
    [done| |done].
  split; [by eapply GetUserSecret_insert|]. intros _. split; [done|].
  by apply base32_round_trip_aux.
Qed.

(** The address, whatever the issuer, the account and the key. *)
Lemma QRCode_address (fs fs' : FS) (random : list Z)
        (claims : jwtl.MapClaims) (account url key : gostring) :
  jwtl.get claims "id" = jwtl.VString account ->
  methods.QRCode Config fs random claims
  = Done (fs', response.QRCodeString url key) ->
  url = str "otpauth://totp"
        ++ url.escape (str "/" ++ Issuer2FA Config ++ str ":" ++ account)
                      url.encodePath
        ++ str "?algorithm=SHA1&digits=6&issuer="
        ++ url.QueryEscape (Issuer2FA Config)
        ++ str "&period=30&secret=" ++ url.QueryEscape key.
Proof.
  intros Hid. rewrite (QRCode_cases _ _ _ _ Hid).
  destruct (methods.SetUserSecret _ _ _ _) as [fs1 [ok r]].
  cbn [fst snd]. destruct ok; [|done]. by intros [= <- <- <-].
Qed.

(** X27. The provisioning address that [QRCode] answers with: the
    scheme and the type, the issuer and the account as the path, and
    the five parameters in the order of their names, the secret last;
    the path and the values escaped as [net/url] escapes them. *)
Theorem X27_provisioning_address (fs fs' : FS) (random : list Z)
        (claims : jwtl.MapClaims) (account url key : gostring) :
  jwtl.get claims "id" = jwtl.VString account ->
  methods.QRCode Config fs random claims
  = Done (fs', response.QRCodeString url key) ->
  url = str "otpauth://totp"
        ++ url.escape (str "/" ++ Issuer2FA Config ++ str ":" ++ account)
                      url.encodePath
        ++ str "?algorithm=SHA1&digits=6&issuer="
        ++ url.QueryEscape (Issuer2FA Config)
        ++ str "&period=30&secret=" ++ url.QueryEscape key.
Proof. apply QRCode_address. Qed.

(** X28. When the issuer, the account and the key are made of letters,
    digits and the marks [-_.~], nothing in the address is escaped:
    it reads [otpauth://totp/ISSUER:ACCOUNT?algorithm=SHA1&digits=6&issuer=ISSUER&period=30&secret=KEY]. *)
Theorem X28_plain_provisioning_address (fs fs' : FS) (random : list Z)
        (claims : jwtl.MapClaims) (account url key : gostring) :
  jwtl.get claims "id" = jwtl.VString account ->
  forallb unreserved (Issuer2FA Config) = true ->
  forallb unreserved account = true ->
  forallb unreserved key = true ->
  methods.QRCode Config fs random claims
  = Done (fs', response.QRCodeString url key) ->
  url = str "otpauth://totp/" ++ Issuer2FA Config ++ str ":" ++ account
        ++ str "?algorithm=SHA1&digits=6&issuer=" ++ Issuer2FA Config
        ++ str "&period=30&secret=" ++ key.
Proof.
  intros Hid Hi Ha Hk Hrun. rewrite (QRCode_address _ _ _ _ _ _ _ Hid Hrun).
  unfold url.QueryEscape.
  rewrite !(escape_unreserved _ url.encodeQueryComponent) by done.
  assert (url.escape (str "/" ++ Issuer2FA Config ++ str ":" ++ account)
                     url.encodePath
          = str "/" ++ Issuer2FA Config ++ str ":" ++ account) as ->.
  2:{ rewrite <- !app_assoc. reflexivity. }
  unfold url.escape. rewrite !flat_map_app.
  fold (url.escape (Issuer2FA Config) url.encodePath).
  fold (url.escape account url.encodePath).
  by rewrite !escape_unreserved.
Qed.

(** X29. When [QRCode] cannot store the secret it answers 400 with
    ["User secret set error"]. Either no file has changed, or the write
    was cut short and the secret file holds a part of the new key: what
    [GetUserSecret] reads afterwards is a prefix of it, possibly
    empty. *)
Theorem X29_failed_enrolment_stores_at_most_a_prefix (fs fs' : FS)
        (random : list Z) (claims : jwtl.MapClaims) (account : gostring)
        (r : response.Response) :
  jwtl.get claims "id" = jwtl.VString account ->
  methods.QRCode Config fs random claims = Done (fs', response.QRError r) ->
  let key := base32.EncodeToString random in
  r = response.mkResponse 400 400 (str "User secret set error")
                          (response.DString (str ""))
  /\ methods.GetUserSecret Config fs account = []
  /\ exists k,
       methods.GetUserSecret Config fs' account = take k key
       /\ (files fs' = files fs
           \/ (k < length key)%nat
              /\ files fs'
                 = <[SecretsDir Config ++ str "/" ++ account ++ str "/secret" :=
                       take k key]> (files fs)).
Proof.
  intros Hid. rewrite (QRCode_cases _ _ _ _ Hid).
  destruct (methods.SetUserSecret _ _ _ _) as [fs1 [ok s]] eqn:Hset.
  cbn [fst snd]. destruct ok; [done|]. intros [= <- <-].
  apply SetUserSecret_cases in Hset
    as [(_ & _ & ? & _)|[(_ & ? & _)|(He & _ & -> & Hfty & Hfiles)]];
    [done|done|].
  split; [done|]. split; [done|].
  destruct Hfiles as [Hfiles|(k & Hk & Hf & Hfiles)].
  - exists 0%nat. cbn [take]. split; [|by left].
    by rewrite (GetUserSecret_same_files Config fs fs1).
  - exists k. split; [by eapply GetUserSecret_insert|]. by right.
Qed.

End enrolment.

(** ** What an accepted token is *)

Section accepted.
Import os configuration.
Context (Config : Configuration) `{jwtl.Codec}.

(** X30. [ValidateAuth] accepts nothing but a token signed with the
    configured key: an accepted token is not empty and has three
    segments; its header decodes and names HS256, HS384 or HS512; its
    claims decode, pass the checks of the time claims and carry an
    [id]; and its third segment is the HMAC signature of the first two
    under [SecretJWT]. *)
Theorem X30_accepted_tokens_are_signed (fs : FS) (tokenString : gostring)
        (ensureTokenExists : bool) :
  methods.ValidateAuth Config fs tokenString ensureTokenExists = Done true ->
  tokenString <> []
  /\ exists p0 p1 p2 header claims alg,
       strings.Split tokenString (str ".") = [p0; p1; p2]
       /\ jwtl.DecodeHeader p0 = Some header
       /\ jwtl.get header "alg" = jwtl.VString alg
       /\ alg ∈ [str "HS256"; str "HS384"; str "HS512"]
       /\ jwtl.DecodeClaims p1 = Some claims
       /\ jwtl.ClaimsValid claims = true
       /\ jwtl.get claims "id" <> jwtl.VNull
       /\ jwtl.VerifyHMAC alg (p0 ++ str "." ++ p1) p2 (SecretJWT Config) = true.
Proof.
  unfold methods.ValidateAuth.
  case_bool_decide as Hne; cbn [negb]; [done|].
  intros Hrun. split; [done|].
  unfold jwtl.Parse, jwtl.ParseUnverified in Hrun.
  destruct (strings.Split tokenString (str ".")) as [|p0 [|p1 [|p2 [|? ?]]]];
    try done.
  destruct (jwtl.DecodeHeader p0) as [header|] eqn:Hhdr; [|done].
  destruct (jwtl.DecodeClaims p1) as [claims|] eqn:Hclaims; [|done].
  destruct (jwtl.get header "alg") as [|alg| | |] eqn:Halg; try done.
  unfold jwtl.GetSigningMethod in Hrun.
  case_bool_decide as Halgs.
  2:{ repeat case_bool_decide; done. }
  cbn [methods.keyFunc jwtl.Method jwtl.Claims jwtl.Verify nth] in Hrun.
  destruct (jwtl.ClaimsValid claims) eqn:Hvalid; [|done].
  destruct (jwtl.VerifyHMAC alg _ p2 _) eqn:Hsig; [|done].
  cbn [andb jwtl.Valid jwtl.Claims] in Hrun.
  exists p0, p1, p2, header, claims, alg.
  do 6 (split; [done|]). split; [|done].
  intros Hnull. by rewrite Hnull in Hrun.
Qed.

End accepted.

(** ** The properties above on sample data *)

Lemma X1_witness :
  let fs := store_with_list (lines [str "HS256.alice.old"]) in
  let r := methods.SetTokenValidation sample_config fs
             (str "alice") (str "HS256.alice.key") in
  r.2 = true
  /\ writable fs (str "/t/alice") (str "HS256.alice.key" ++ LF) = true
  /\ methods.CheckTokenValidation sample_config r.1 (str "alice")
       (str "HS256.alice.key") = true
  /\ forall t',
       methods.CheckTokenValidation sample_config fs (str "alice") t' = true ->
       methods.CheckTokenValidation sample_config r.1 (str "alice") t' = true.
Proof.
  intros fs r.
  assert (r = (r.1, true)) as Hr by (vm_compute; reflexivity).
  destruct (X1_admission_is_append_only sample_config fs r.1 (str "alice")
              (str "HS256.alice.key") true Hr) as (Hkeep & Hok & Hmem & _).
  split; [vm_compute; reflexivity|]. split; [symmetry; exact Hok|].
  split; [exact (Hmem eq_refl)|exact Hkeep].
Defined.

Lemma X2_witness :
  let r := methods.RemoveTokenValidation sample_config store_two_lists
             (str "alice") (str "HS256.alice.old") in
  ("/"%char ∉ str "alice") /\ ("/"%char ∉ str "bob")
  /\ str "alice" <> str "bob"
  /\ r.2 = true
  /\ os.ReadFile r.1 (str "/t/bob") = os.ReadFile store_two_lists (str "/t/bob")
  /\ forall x,
       methods.CheckTokenValidation sample_config r.1 (str "bob") x
       = methods.CheckTokenValidation sample_config store_two_lists (str "bob") x.
Proof.
  intros r.
  assert (r = (r.1, true)) as Hr by (vm_compute; reflexivity).
  assert (str "alice" <> str "bob") as Hne by discriminate.
  assert ("/"%char ∉ str "alice") as Ha
    by (apply (bool_decide_unpack _); vm_compute; exact I).
  assert ("/"%char ∉ str "bob") as Hb
    by (apply (bool_decide_unpack _); vm_compute; exact I).
  split; [exact Ha|]. split; [exact Hb|].
  split; [exact Hne|]. split; [vm_compute; reflexivity|].
  exact (X2_lists_are_per_identity sample_config store_two_lists r.1
           (str "alice") (str "bob") (str "HS256.alice.old") true Ha Hb Hne
           (or_intror Hr)).
Defined.

Lemma X3_witness :
  let r := methods.RemoveTokenValidation sample_config empty_store
             (str "alice") (str "HS256.alice.key") in
  (os.ReadFile empty_store (str "/t/alice")).2 = Some os.ENOENT
  /\ r.2 = false /\ r.1 = empty_store.
Proof.
  intros r.
  assert (r = (r.1, r.2)) as Hr by (vm_compute; reflexivity).
  destruct (X3_failed_removal_keeps_or_cuts_the_list sample_config empty_store
              r.1 (str "alice") (str "HS256.alice.key") r.2 Hr) as [Hread _].
  split; [vm_compute; reflexivity|].
  apply Hread. vm_compute. discriminate.
Defined.

Lemma X4_witness :
  let fs := store_with_list (lines [str "HS256.alice.key"]) in
  let r := methods.RemoveTokenValidation sample_config fs
             (str "alice") (str "HS256.bob.key") in
  methods.CheckTokenValidation sample_config fs (str "alice")
    (str "HS256.bob.key") = false
  /\ r.2 = true
  /\ forall t2, wordlike t2 = true ->
       methods.CheckTokenValidation sample_config r.1 (str "alice") t2
       = methods.CheckTokenValidation sample_config fs (str "alice") t2.
Proof.
  intros fs r.
  assert (methods.CheckTokenValidation sample_config fs (str "alice")
            (str "HS256.bob.key") = false) as Habs by (vm_compute; reflexivity).
  assert (r = (r.1, true)) as Hr by (vm_compute; reflexivity).
  split; [exact Habs|]. split; [vm_compute; reflexivity|].
  exact (X4_removing_an_absent_token_keeps_the_others sample_config fs r.1
           (str "alice") (str "HS256.bob.key") Habs Hr).
Defined.

Lemma X5_witness :
  let r := methods.SetUserSecret sample_config empty_store (str "alice")
             rfc_secret in
  r.2 = (true, rfc_secret)
  /\ methods.GetUserSecret sample_config r.1 (str "alice") = rfc_secret
  /\ (methods.GetUserSecret sample_config empty_store (str "alice") <> [] ->
      rfc_secret = methods.GetUserSecret sample_config empty_store (str "alice")
      /\ r.1 = empty_store)
  /\ (methods.GetUserSecret sample_config empty_store (str "alice") = [] ->
      rfc_secret = rfc_secret).
Proof.
  intros r.
  assert (r = (r.1, (true, rfc_secret))) as Hr by (vm_compute; reflexivity).
  split; [vm_compute; reflexivity|].
  exact (X5_stored_secret_is_the_returned_secret sample_config empty_store r.1
           (str "alice") rfc_secret rfc_secret Hr).
Defined.

Lemma X6_witness :
  let fs := cut_short empty_store (str "/s/alice/secret") 4 in
  let r := methods.SetUserSecret sample_config fs (str "alice") rfc_secret in
  r.2.1 = false
  /\ r.2.2 = []
  /\ methods.GetUserSecret sample_config fs (str "alice") = []
  /\ exists k,
       methods.GetUserSecret sample_config r.1 (str "alice") = take k rfc_secret
       /\ (os.files r.1 = os.files fs
           \/ (k < length rfc_secret)%nat
              /\ os.files r.1
                 = <[str "/s" ++ str "/" ++ str "alice" ++ str "/secret" :=
                       take k rfc_secret]> (os.files fs)).
Proof.
  intros fs r.
  assert (r = (r.1, (false, r.2.2))) as Hr by (vm_compute; reflexivity).
  split; [vm_compute; reflexivity|].
  exact (X6_failed_secret_write_stores_at_most_a_prefix sample_config fs
           r.1 (str "alice") rfc_secret r.2.2 Hr).
Defined.

Lemma X7_witness :
  let d := from_done no_answer
             (methods.Del2FAStatus sample_config store_enabled alice_claims) in
  let r := methods.SetUserSecret sample_config d.1 (str "alice")
             (str "ORSXG5BAONSWG4TFOQQHI33LMVXCAMJS") in
  methods.GetUserSecret sample_config store_enabled (str "alice") = rfc_secret
  /\ response.Code d.2 = 200
  /\ r.2 = (true, str "ORSXG5BAONSWG4TFOQQHI33LMVXCAMJS")
  /\ methods.GetUserSecret sample_config r.1 (str "alice")
     = str "ORSXG5BAONSWG4TFOQQHI33LMVXCAMJS".
Proof.
  intros d r.
  assert (methods.Del2FAStatus sample_config store_enabled alice_claims
          = Done (d.1, d.2)) as Hdel by (vm_compute; reflexivity).
  assert (response.Code d.2 = 200) as Hcode by (vm_compute; reflexivity).
  assert (r = (r.1, (true, r.2.2))) as Hr by (vm_compute; reflexivity).
  destruct (X7_new_secret_after_disable sample_config store_enabled d.1 r.1
              alice_claims (str "alice") (str "ORSXG5BAONSWG4TFOQQHI33LMVXCAMJS")
              r.2.2 d.2 eq_refl Hdel Hcode Hr) as [Hret Hget].
  split; [vm_compute; reflexivity|]. split; [exact Hcode|].
  split; [vm_compute; reflexivity|exact Hget].
Defined.

Lemma X8_witness :
  exists message b,
    methods.Get2FAStatus sample_config store_enabled alice_claims
    = Done (response.mkResponse 200 200 message (response.DBool b))
    /\ (b = true <->
        exists content,
          os.ReadFile store_enabled (str "/s/alice/status") = (content, None)
          /\ strings.TrimSpace content = str "1").
Proof.
  exact (X8_status_defaults_to_disabled sample_config store_enabled alice_claims
           (str "alice") eq_refl).
Defined.

Lemma X9_witness :
  let fs := store_with_list (lines [str "HS256.alice.key"]) in
  methods.ValidateAuth (H := sample_codec) sample_config fs
    (str "HS256.alice.key") true = Done true
  /\ methods.ValidateAuth (H := sample_codec) sample_config fs
       (str "HS256.alice.key") false = Done true
  /\ exists token id,
       jwtl.Parse (H := sample_codec) (str "HS256.alice.key")
                  (methods.keyFunc sample_config) = inl token
       /\ jwtl.get (jwtl.Claims token) "id" = jwtl.VString id
       /\ methods.CheckTokenValidation sample_config fs id
            (str "HS256.alice.key") = true.
Proof.
  intros fs.
  assert (methods.ValidateAuth (H := sample_codec) sample_config fs
            (str "HS256.alice.key") true = Done true) as Hrun
    by (vm_compute; reflexivity).
  split; [exact Hrun|].
  exact (X9_ensured_tokens_are_listed sample_config (H := sample_codec) fs
           (str "HS256.alice.key") Hrun).
Defined.

Lemma X11_witness :
  let run := methods.OTPVerify (H := sample_codec) sample_config
               store_before_enabling 59 (inl sample_otp_body) in
  let fs' := (from_done no_answer run).1 in
  os.files fs' !! str "/s/alice/status" = Some (str "1")
  /\ os.files store_before_enabling !! str "/s/alice/status" = None
  /\ exists jsonOTP,
       inl sample_otp_body = inl jsonOTP :> models.OTPJson + gostring
       /\ methods.ValidateAuth (H := sample_codec) sample_config
            store_before_enabling (models.Token jsonOTP) false = Done true
       /\ methods.GetUserSecret sample_config store_before_enabling
            (models.Username jsonOTP) <> []
       /\ dgoogauth.Authenticate
            (otp_config (methods.GetUserSecret sample_config store_before_enabling
                           (models.Username jsonOTP)))
            59 (models.OTP jsonOTP) = (true, None).
Proof.
  intros run fs'.
  assert (run = Done (fs', (from_done no_answer run).2)) as Hrun
    by (vm_compute; reflexivity).
  assert (os.files fs' !! str "/s/alice/status" = Some (str "1")) as Hnew
    by (vm_compute; reflexivity).
  assert (os.files store_before_enabling !! str "/s/alice/status" = None) as Hold
    by (vm_compute; reflexivity).
  pose proof (X11_otp_verify_writes_only_after_the_checks sample_config
                (H := sample_codec) store_before_enabling fs' 59
                (inl sample_otp_body) (from_done no_answer run).2 Hrun) as Hthm.
  clearbody fs'.
  split; [exact Hnew|]. split; [exact Hold|].
  apply Hthm. intros Heq.
  assert (Some (str "1") = None :> option gostring) as Habs.
  { rewrite <- Hnew, <- Hold.
    exact (f_equal (fun fs => os.files fs !! str "/s/alice/status") Heq). }
  discriminate Habs.
Defined.

Lemma X12_witness :
  let run := methods.OTPVerify (H := sample_codec) sample_config
               store_enabled 59 (inl sample_otp_body) in
  let fs' := (from_done no_answer run).1 in
  response.Code (from_done no_answer run).2 = 200
  /\ methods.CheckTokenValidation sample_config fs' (str "alice")
       (str "HS256.alice.key") = true
  /\ methods.Get2FAStatus sample_config fs' alice_claims
     = Done (response.mkResponse 200 200 (str "2FA set for this user")
                                 (response.DBool true)).
Proof.
  intros run fs'.
  assert (run = Done (fs', (from_done no_answer run).2)) as Hrun
    by (vm_compute; reflexivity).
  assert (response.Code (from_done no_answer run).2 = 200) as Hcode
    by (vm_compute; reflexivity).
  split; [exact Hcode|].
  apply (X12_otp_verify_admits_and_enables sample_config (H := sample_codec)
           store_enabled fs' 59 sample_otp_body (from_done no_answer run).2
           alice_claims Hrun Hcode).
  - discriminate.
  - reflexivity.
Defined.

Lemma X13_witness :
  let run := methods.OTPVerify (H := sample_codec) sample_config
               store_enabled 59 (inl sample_otp_body) in
  let fs' := (from_done no_answer run).1 in
  response.Code (from_done no_answer run).2 = 200
  /\ strings.TrimSpace (os.ReadFile store_enabled (str "/s/alice/status")).1
     = str "1"
  /\ methods.CheckTokenValidation sample_config store_enabled (str "alice")
       (str "aaa.bbb.ccc") = true
  /\ methods.CheckTokenValidation sample_config fs' (str "alice")
       (str "aaa.bbb.ccc") = true.
Proof.
  intros run fs'.
  assert (run = Done (fs', (from_done no_answer run).2)) as Hrun
    by (vm_compute; reflexivity).
  assert (response.Code (from_done no_answer run).2 = 200) as Hcode
    by (vm_compute; reflexivity).
  assert (strings.TrimSpace (os.ReadFile store_enabled (str "/s/alice/status")).1
          = str "1") as Hstatus by (vm_compute; reflexivity).
  assert (methods.CheckTokenValidation sample_config store_enabled (str "alice")
            (str "aaa.bbb.ccc") = true) as Hbefore by (vm_compute; reflexivity).
  split; [exact Hcode|]. split; [exact Hstatus|]. split; [exact Hbefore|].
  apply (X13_verifying_again_keeps_the_list sample_config (H := sample_codec)
           store_enabled fs' 59 sample_otp_body (from_done no_answer run).2
           Hrun Hcode).
  - cbv zeta. change (models.Username sample_otp_body) with (str "alice").
    change (configuration.SecretsDir sample_config ++ str "/" ++ str "alice"
            ++ str "/status") with (str "/s/alice/status").
    rewrite Hstatus. split; discriminate.
  - discriminate.
  - exact Hbefore.
Defined.

Lemma X14_witness :
  let user := models.mkUserAuthorizations (str "alice") (str "") [] in
  methods.GetUserSecret sample_config store_enabled (str "alice") = rfc_secret
  /\ middleware.LoginResponse sample_config store_enabled
       (middleware.PayloadFunc sample_config store_enabled user)
       (str "HS256.alice.key") = Done store_enabled
  /\ middleware.Authorizator sample_config store_enabled
       (middleware.PayloadFunc sample_config store_enabled user)
       (str "HS256.alice.key")
     = Done (methods.CheckTokenValidation sample_config store_enabled
               (str "alice") (str "HS256.alice.key")).
Proof.
  intros user.
  assert (methods.GetUserSecret sample_config store_enabled (str "alice")
          = rfc_secret) as Hsec by (vm_compute; reflexivity).
  split; [exact Hsec|].
  apply (X14_login_with_second_factor_admits_nothing sample_config
           store_enabled user (str "HS256.alice.key")).
  change (models.UAUsername user) with (str "alice"). rewrite Hsec. discriminate.
Defined.

Lemma X15_witness :
  let user := models.mkUserAuthorizations (str "alice") (str "") [] in
  let r := methods.SetTokenValidation sample_config empty_store (str "alice")
             (str "HS256.alice.key") in
  r.2 = true
  /\ middleware.LoginResponse sample_config empty_store
       (middleware.PayloadFunc sample_config empty_store user)
       (str "HS256.alice.key") = Done r.1
  /\ middleware.Authorizator sample_config r.1
       (middleware.PayloadFunc sample_config empty_store user)
       (str "HS256.alice.key") = Done true.
Proof.
  intros user r.
  assert (r = (r.1, true)) as Hr by (vm_compute; reflexivity).
  split; [vm_compute; reflexivity|].
  apply (X15_login_without_second_factor_admits_the_token sample_config
           empty_store r.1 user (str "HS256.alice.key")).
  - reflexivity.
  - exact Hr.
Defined.

Lemma X17_witness :
  dgoogauth.Authenticate (otp_config rfc_secret) 59 (str "287082") = (true, None)
  /\ length (str "287082") = 6%nat
  /\ Forall (fun c => is_Some (strconv.digit c)) (str "287082")
  /\ is_Some (base32.DecodeString rfc_secret).
Proof.
  assert (dgoogauth.Authenticate (otp_config rfc_secret) 59 (str "287082")
          = (true, None)) as Hrun by (vm_compute; reflexivity).
  split; [exact Hrun|].
  exact (proj2 (X17_only_six_digit_codes_are_accepted rfc_secret (str "287082")
                  59 None Hrun)).
Defined.

Lemma X18_witness :
  let run := methods.OTPVerify (H := sample_codec) sample_config
               store_corrupt_secret 59 (inl sample_otp_body) in
  base32.DecodeString
    (methods.GetUserSecret sample_config store_corrupt_secret (str "alice")) = None
  /\ (from_done no_answer run).1 = store_corrupt_secret
  /\ response.Code (from_done no_answer run).2 <> 200.
Proof.
  intros run.
  assert (base32.DecodeString
            (methods.GetUserSecret sample_config store_corrupt_secret
               (str "alice")) = None) as Hbad by (vm_compute; reflexivity).
  assert (run = Done ((from_done no_answer run).1, (from_done no_answer run).2))
    as Hrun by (vm_compute; reflexivity).
  split; [exact Hbad|].
  exact (X18_corrupt_secret_never_verifies sample_config (H := sample_codec)
           store_corrupt_secret (from_done no_answer run).1 59 sample_otp_body
           (from_done no_answer run).2 Hbad Hrun).
Defined.

Lemma X19_witness :
  configuration.Init sample_env = configuration.Loaded sample_config
  /\ configuration.SecretJWT sample_config = os.Getenv sample_env (str "SECRET_JWT")
  /\ configuration.SecretsDir sample_config
     = os.Getenv sample_env (str "SECRETS_DIR")
  /\ configuration.TokensDir sample_config
     = os.Getenv sample_env (str "TOKENS_DIR")
  /\ configuration.ListenAddress sample_config <> []
  /\ configuration.SecretJWT sample_config <> []
  /\ configuration.Issuer2FA sample_config <> []
  /\ configuration.SecretsDir sample_config <> []
  /\ configuration.TokensDir sample_config <> []
  /\ configuration.StaticDir sample_config <> [].
Proof.
  assert (configuration.Init sample_env = configuration.Loaded sample_config)
    as Hinit by (vm_compute; reflexivity).
  split; [exact Hinit|].
  exact (X19_loaded_configuration_is_complete sample_env sample_config Hinit).
Defined.

Lemma X20_witness :
  configuration.Init (delete (str "SECRETS_DIR") sample_env)
  = configuration.Exited (str "SECRETS_DIR variable is empty. ") 1
  /\ 1 = 1
  /\ exists name,
       name ∈ [str "SECRET_JWT"; str "SECRETS_DIR"; str "TOKENS_DIR"]
       /\ os.Getenv (delete (str "SECRETS_DIR") sample_env) name = []
       /\ str "SECRETS_DIR variable is empty. "
          = name ++ str " variable is empty. ".
Proof.
  assert (configuration.Init (delete (str "SECRETS_DIR") sample_env)
          = configuration.Exited (str "SECRETS_DIR variable is empty. ") 1)
    as Hinit by (vm_compute; reflexivity).
  split; [exact Hinit|].
  exact (X20_init_exits_for_a_missing_variable _ _ _ Hinit).
Defined.

Lemma X22_witness :
  let keys := reverse (map fst (map_to_list sample_body)) in
  middleware.redact_keys (H := sample_tables) [str "password"] keys sample_body
  = middleware.redact (H := sample_tables) [str "password"] sample_body.
Proof.
  intros keys.
  apply (X22_redaction_is_order_independent [str "password"] (H := sample_tables)
           sample_body keys).
  intros k. unfold keys. rewrite elem_of_reverse. apply keys_of_map.
Defined.

Lemma X23_witness :
  ascii_only (str "user.Password") = true
  /\ map lower_byte (str "user.Password") = str "user.password"
  /\ middleware.redact (H := sample_tables) [str "password"] sample_body
       !! str "user.Password" = Some (jwtl.VString (str "XXX")).
Proof.
  split; [reflexivity|]. split; [reflexivity|].
  apply (X23_redaction_ignores_ascii_case [str "password"] (H := sample_tables)
           sample_body (str "user.Password") (str "password")).
  - apply list_elem_of_here.
  - reflexivity.
  - reflexivity.
  - exists (str "user."), []. reflexivity.
  - exists (jwtl.VString (str "hunter2")). vm_compute. reflexivity.
Defined.

Lemma X24_witness :
  base32.EncodeToString (bytes_of (str "foobar")) = str "MZXW6YTBOI======"
  /\ base32.DecodeString (base32.EncodeToString (bytes_of (str "foobar")))
     = Some (bytes_of (str "foobar")).
Proof.
  split; [vm_compute; reflexivity|].
  apply (X24_base32_round_trip (bytes_of (str "foobar"))).
  change (bytes_of (str "foobar")) with [102; 111; 111; 98; 97; 114].
  repeat (constructor; [lia|]). constructor.
Defined.

Lemma X25_witness :
  methods.GetUserSecret sample_config store_enabled (str "alice") = rfc_secret
  /\ exists url,
       methods.QRCode sample_config store_enabled sample_random alice_claims
       = Done (store_enabled,
               response.QRCodeString
                 url (methods.GetUserSecret sample_config store_enabled
                        (str "alice"))).
Proof.
  assert (methods.GetUserSecret sample_config store_enabled (str "alice")
          = rfc_secret) as Hsec by (vm_compute; reflexivity).
  split; [exact Hsec|].
  apply (X25_enrolment_keeps_an_existing_secret sample_config store_enabled
           sample_random alice_claims (str "alice") eq_refl).
  rewrite Hsec. discriminate.
Defined.

Lemma X26_witness :
  let key := str "AAAQEAYEAUDAOCAJBIFQYDIOB4IBCEQT" in
  let url := str "otpauth://totp/NethServer:alice?algorithm=SHA1&digits=6&issuer=NethServer&period=30&secret=AAAQEAYEAUDAOCAJBIFQYDIOB4IBCEQT" in
  let fs' := (methods.SetUserSecret sample_config empty_store (str "alice") key).1 in
  methods.QRCode sample_config empty_store sample_random alice_claims
  = Done (fs', response.QRCodeString url key)
  /\ methods.GetUserSecret sample_config fs' (str "alice") = key
  /\ (methods.GetUserSecret sample_config empty_store (str "alice") = [] ->
      key = base32.EncodeToString sample_random
      /\ base32.DecodeString key = Some sample_random).
Proof.
  intros key url fs'.
  assert (methods.QRCode sample_config empty_store sample_random alice_claims
          = Done (fs', response.QRCodeString url key)) as Hrun
    by (vm_compute; reflexivity).
  split; [exact Hrun|].
  apply (X26_enrolment_key_is_the_stored_secret sample_config empty_store fs'
           sample_random alice_claims (str "alice") url key eq_refl); [|exact Hrun].
  apply Forall_forall. intros b Hb.
  unfold sample_random in Hb. apply list_elem_of_fmap in Hb as (n & -> & Hn).
  apply elem_of_seq in Hn. lia.
Defined.

Lemma X27_witness :
  let key := str "AAAQEAYEAUDAOCAJBIFQYDIOB4IBCEQT" in
  let url := str "otpauth://totp/NethServer:alice?algorithm=SHA1&digits=6&issuer=NethServer&period=30&secret=AAAQEAYEAUDAOCAJBIFQYDIOB4IBCEQT" in
  let fs' := (methods.SetUserSecret sample_config empty_store (str "alice") key).1 in
  methods.QRCode sample_config empty_store sample_random alice_claims
  = Done (fs', response.QRCodeString url key)
  /\ url = str "otpauth://totp"
           ++ url.escape (str "/" ++ configuration.Issuer2FA sample_config
                          ++ str ":" ++ str "alice") url.encodePath
           ++ str "?algorithm=SHA1&digits=6&issuer="
           ++ url.QueryEscape (configuration.Issuer2FA sample_config)
           ++ str "&period=30&secret=" ++ url.QueryEscape key.
Proof.
  intros key url fs'.
  assert (methods.QRCode sample_config empty_store sample_random alice_claims
          = Done (fs', response.QRCodeString url key)) as Hrun
    by (vm_compute; reflexivity).
  split; [exact Hrun|].
  exact (X27_provisioning_address sample_config empty_store fs' sample_random
           alice_claims (str "alice") url key eq_refl Hrun).
Defined.

Lemma X28_witness :
  let key := str "AAAQEAYEAUDAOCAJBIFQYDIOB4IBCEQT" in
  let url := str "otpauth://totp/NethServer:alice?algorithm=SHA1&digits=6&issuer=NethServer&period=30&secret=AAAQEAYEAUDAOCAJBIFQYDIOB4IBCEQT" in
  let fs' := (methods.SetUserSecret sample_config empty_store (str "alice") key).1 in
  methods.QRCode sample_config empty_store sample_random alice_claims
  = Done (fs', response.QRCodeString url key)
  /\ url = str "otpauth://totp/" ++ configuration.Issuer2FA sample_config
           ++ str ":" ++ str "alice"
           ++ str "?algorithm=SHA1&digits=6&issuer="
           ++ configuration.Issuer2FA sample_config
           ++ str "&period=30&secret=" ++ key.
Proof.
  intros key url fs'.
  assert (methods.QRCode sample_config empty_store sample_random alice_claims
          = Done (fs', response.QRCodeString url key)) as Hrun
    by (vm_compute; reflexivity).
  split; [exact Hrun|].
  apply (X28_plain_provisioning_address sample_config empty_store fs'
           sample_random alice_claims (str "alice") url key eq_refl).
  - reflexivity.
  - reflexivity.
  - reflexivity.
  - exact Hrun.
Defined.

Lemma X29_witness :
  let fs := cut_short empty_store (str "/s/alice/secret") 4 in
  let key := base32.EncodeToString sample_random in
  let r := response.mkResponse 400 400 (str "User secret set error")
                               (response.DString (str "")) in
  let fs' := (methods.SetUserSecret sample_config fs (str "alice") key).1 in
  methods.QRCode sample_config fs sample_random alice_claims
  = Done (fs', response.QRError r)
  /\ r = response.mkResponse 400 400 (str "User secret set error")
                             (response.DString (str ""))
  /\ methods.GetUserSecret sample_config fs (str "alice") = []
  /\ exists k,
       methods.GetUserSecret sample_config fs' (str "alice") = take k key
       /\ (os.files fs' = os.files fs
           \/ (k < length key)%nat
              /\ os.files fs'
                 = <[str "/s" ++ str "/" ++ str "alice" ++ str "/secret" :=
                       take k key]> (os.files fs)).
Proof.
  intros fs key r fs'.
  assert (methods.QRCode sample_config fs sample_random alice_claims
          = Done (fs', response.QRError r)) as Hrun
    by (vm_compute; reflexivity).
  split; [exact Hrun|].
  exact (X29_failed_enrolment_stores_at_most_a_prefix sample_config fs
           fs' sample_random alice_claims (str "alice") r eq_refl Hrun).
Defined.

Lemma X30_witness :
  methods.ValidateAuth (H := sample_codec) sample_config empty_store
    (str "HS256.alice.key") false = Done true
  /\ str "HS256.alice.key" <> []
  /\ exists p0 p1 p2 header claims alg,
       strings.Split (str "HS256.alice.key") (str ".") = [p0; p1; p2]
       /\ jwtl.DecodeHeader (Codec := sample_codec) p0 = Some header
       /\ jwtl.get header "alg" = jwtl.VString alg
       /\ alg ∈ [str "HS256"; str "HS384"; str "HS512"]
       /\ jwtl.DecodeClaims (Codec := sample_codec) p1 = Some claims
       /\ jwtl.ClaimsValid (Codec := sample_codec) claims = true
       /\ jwtl.get claims "id" <> jwtl.VNull
       /\ jwtl.VerifyHMAC (Codec := sample_codec) alg (p0 ++ str "." ++ p1) p2
            (configuration.SecretJWT sample_config) = true.
Proof.
  assert (methods.ValidateAuth (H := sample_codec) sample_config empty_store
            (str "HS256.alice.key") false = Done true) as Hrun
    by (vm_compute; reflexivity).
  split; [exact Hrun|].
  exact (X30_accepted_tokens_are_signed sample_config (H := sample_codec)
           empty_store (str "HS256.alice.key") false Hrun).
Defined.
